(** * The Power BI row extractor and row decoder of [scraper/scraper.py]

    A shallow embedding of [extract_data_from_json], [map_data_row_to_csv]
    (with its local helpers [get_value], [lookup_text_direct] and
    [get_numeric]), [convert_timestamp_to_date], [convert_date_format],
    [write_csv_file] and the module-level [process_json_to_csv] that [run]
    calls, followed by the properties the specification states about them.

    Conventions of the embedding:
    - a Python [str] is a Rocq [string], one [ascii] per code point; the
      strings covered are those whose code points are below 256 (Latin-1),
      on which [lower], [strip] and [float] are modelled exactly;
    - a Python [int] is a [Z]; a Python [float] is a primitive binary64
      [float], so comparisons, [!=] and true division are the machine's;
    - code that can raise returns a [result]; [try]/[except] is [try_except]
      with the list of exceptions the clause names. *)

From Stdlib Require Import ZArith String Ascii List Bool Lia.
From Stdlib Require Import PrimFloat FloatOps SpecFloat.
From stdpp Require Import base option list gmap strings.

#[local] Set Warnings "-inexact-float".

Local Open Scope string_scope.
Local Open Scope list_scope.

(** ** Python values, exceptions and the builtins the scraper uses *)

Module Py.

Inductive exn :=
| TypeError | ValueError | OverflowError | OSError
| AttributeError | KeyError | IndexError.

Definition exn_eqb (a b : exn) : bool :=
  match a, b with
  | TypeError, TypeError | ValueError, ValueError
  | OverflowError, OverflowError | OSError, OSError
  | AttributeError, AttributeError | KeyError, KeyError
  | IndexError, IndexError => true
  | _, _ => false
  end.

Inductive result (A : Type) :=
| Ok (a : A)
| Raise (e : exn).
Arguments Ok {A} a.
Arguments Raise {A} e.

#[global] Instance result_ret : MRet result := fun A a => Ok a.
#[global] Instance result_bind : MBind result :=
  fun A B f r => match r with Ok a => f a | Raise e => Raise e end.

(** [try: body except (e1, ..., en): handler]. *)
Definition try_except {A} (body : result A) (caught : list exn)
    (handler : result A) : result A :=
  match body with
  | Ok a => Ok a
  | Raise e => if existsb (exn_eqb e) caught then handler else Raise e
  end.

(** The values a decoded JSON document holds. *)
#[local] Set Warnings "-register-all".
Inductive pyval :=
| VNone
| VBool (b : bool)
| VInt (n : Z)
| VFloat (f : float)
| VStr (s : string)
| VList (l : list pyval)
| VDict (d : list (string * pyval)).

(** [isinstance(v, int)]; [bool] is a subclass of [int]. The integer the
    value stands for is returned with it. *)
Definition as_int (v : pyval) : option Z :=
  match v with
  | VInt n => Some n
  | VBool b => Some (Z.b2z b)
  | _ => None
  end.

Definition isinstance_int (v : pyval) : bool :=
  match as_int v with Some _ => true | None => false end.

Definition isinstance_float (v : pyval) : bool :=
  match v with VFloat _ => true | _ => false end.

Definition isinstance_str (v : pyval) : bool :=
  match v with VStr _ => true | _ => false end.

(** [isinstance(v, (int, float))] *)
Definition isinstance_int_float (v : pyval) : bool :=
  isinstance_int v || isinstance_float v.

(** [isinstance(v, (int, float, str))] *)
Definition isinstance_int_float_str (v : pyval) : bool :=
  isinstance_int v || isinstance_float v || isinstance_str v.

(** *** Floats *)

Definition float_of_SF (x : spec_float) : float := SF2Prim x.

(** The float nearest to the integer [n] (ties to even), infinite when
    [n] is beyond the binary64 range. *)
Definition round_Z (n : Z) : float :=
  float_of_SF (binary_normalize prec emax n 0 false).

(** [float(n)] for an [int]. *)
Definition float_of_int (n : Z) : result float :=
  let f := round_Z n in
  if is_infinity f then Raise OverflowError else Ok f.

(** [int(f)] for a [float]: truncation toward zero. *)
Definition int_of_float (f : float) : result Z :=
  match Prim2SF f with
  | S754_zero _ => Ok 0%Z
  | S754_nan => Raise ValueError
  | S754_infinity _ => Raise OverflowError
  | S754_finite s m e =>
      let a := match e with
               | Zneg k => Z.shiftr (Zpos m) (Zpos k)
               | _ => Z.shiftl (Zpos m) e
               end in
      Ok (if s then (- a)%Z else a)
  end.

(** A float against an int, compared exactly as Python compares the two
    kinds of number; [None] when the float is a NaN. *)
Definition float_compare_int (f : float) (n : Z) : option comparison :=
  match Prim2SF f with
  | S754_nan => None
  | S754_infinity s => Some (if s then Lt else Gt)
  | S754_zero _ => Some (0 ?= n)%Z
  | S754_finite s m e =>
      let v := if s then Zneg m else Zpos m in
      Some match e with
           | Zneg k => (v ?= n * 2 ^ Zpos k)%Z
           | _ => (v * 2 ^ e ?= n)%Z
           end
  end.

(** [f == n] *)
Definition float_eq_int (f : float) (n : Z) : bool :=
  match float_compare_int f n with Some Eq => true | _ => false end.

(** [f > n] *)
Definition float_gt_int (f : float) (n : Z) : bool :=
  match float_compare_int f n with Some Gt => true | _ => false end.

(** [f <= n] *)
Definition float_le_int (f : float) (n : Z) : bool :=
  match float_compare_int f n with Some Lt | Some Eq => true | _ => false end.

(** [n <= f] *)
Definition float_ge_int (f : float) (n : Z) : bool :=
  match float_compare_int f n with Some Gt | Some Eq => true | _ => false end.

(** [bool(v)]: the truth value used by [if v], [not v], [a or b]. *)
Definition truthy (v : pyval) : bool :=
  match v with
  | VNone => false
  | VBool b => b
  | VInt n => negb (n =? 0)%Z
  | VFloat f => negb (float_eq_int f 0)
  | VStr s => negb (String.eqb s "")
  | VList l => match l with [] => false | _ => true end
  | VDict d => match d with [] => false | _ => true end
  end.

(** The float nearest to [m * 10^e], [m > 0], with sign [neg]. *)
Definition round_decimal (neg : bool) (m : positive) (e : Z) : float :=
  match e with
  | Zneg k =>
      let d := (10 ^ Zpos k)%Z in
      let s := Z.max 0 (64 + Z.log2 d - Z.log2 (Zpos m))%Z in
      let n := Z.shiftl (Zpos m) s in
      let q := (n / d)%Z in
      let r := (n mod d)%Z in
      let loc := if (r =? 0)%Z then loc_Exact
                 else loc_Inexact (Z.compare (2 * r) d) in
      float_of_SF (binary_round_aux prec emax neg q (- s) loc)
  | _ =>
      float_of_SF
        (binary_normalize prec emax
           (if neg then Z.opp (Zpos m * 10 ^ e) else (Zpos m * 10 ^ e)%Z)
           0 neg)
  end.

(** *** Strings *)

Definition code (c : ascii) : N := N_of_ascii c.

(** [c.isspace()] on Latin-1. *)
Definition is_space (c : ascii) : bool :=
  let n := code c in
  ((9 <=? n) && (n <=? 13) || (28 <=? n) && (n <=? 32)
   || (n =? 133) || (n =? 160))%N.

Definition is_digit (c : ascii) : bool :=
  let n := code c in ((48 <=? n) && (n <=? 57))%N.

Definition digit_val (c : ascii) : Z := Z.of_N (code c - 48).

(** [c.lower()] on Latin-1: A-Z and the accented capitals except the
    multiplication sign. *)
Definition lower_char (c : ascii) : ascii :=
  let n := code c in
  if ((65 <=? n) && (n <=? 90)
      || (192 <=? n) && (n <=? 222) && negb (n =? 215))%N
  then ascii_of_N (n + 32) else c.

Fixpoint lower (s : string) : string :=
  match s with
  | EmptyString => EmptyString
  | String c r => String (lower_char c) (lower r)
  end.

Fixpoint lstrip (l : list ascii) : list ascii :=
  match l with
  | c :: r => if is_space c then lstrip r else l
  | [] => []
  end.

Definition strip_chars (l : list ascii) : list ascii :=
  rev (lstrip (rev (lstrip l))).

(** [s.strip()] *)
Definition strip (s : string) : string :=
  string_of_list_ascii (strip_chars (list_ascii_of_string s)).

(** [s.replace(',', '')] *)
Fixpoint remove_commas (s : string) : string :=
  match s with
  | EmptyString => EmptyString
  | String c r =>
      if Ascii.eqb c "," then remove_commas r else String c (remove_commas r)
  end.

Fixpoint is_prefix (p s : string) : bool :=
  match p, s with
  | EmptyString, _ => true
  | String a p', String b s' => Ascii.eqb a b && is_prefix p' s'
  | String _ _, EmptyString => false
  end.

(** [needle in hay] for two strings. *)
Fixpoint contains (needle hay : string) : bool :=
  is_prefix needle hay ||
  match hay with
  | EmptyString => false
  | String _ r => contains needle r
  end.

(** [s[:n]] *)
Definition str_prefix (n : nat) (s : string) : string :=
  String.substring 0 n s.

(** *** [float(s)] for a string

    The grammar of CPython's [float]: surrounding white space is dropped,
    an underscore may stand between two digits only, then an optional
    sign followed by [inf], [infinity] or [nan] in any case, or by a
    decimal numeral with an optional fraction and exponent. [None] is
    [ValueError]. *)

(** The white space [float] drops around a numeral: tab to carriage
    return and the blank, and the Latin-1 spaces U+0085 and U+00A0, which
    it turns into blanks first. The separators U+001C to U+001F, which
    [str.strip] drops, stay and make the numeral invalid. *)
Definition is_float_space (c : ascii) : bool :=
  let n := code c in
  ((9 <=? n) && (n <=? 13) || (n =? 32) || (n =? 133) || (n =? 160))%N.

Fixpoint lstrip_float (l : list ascii) : list ascii :=
  match l with
  | c :: r => if is_float_space c then lstrip_float r else l
  | [] => []
  end.

Definition strip_float (l : list ascii) : list ascii :=
  rev (lstrip_float (rev (lstrip_float l))).

(** Underscores are allowed after and before digits only; they are
    removed. [prev] is the previous character. *)
Fixpoint drop_underscores (prev : ascii) (l : list ascii)
    : option (list ascii) :=
  match l with
  | [] => if Ascii.eqb prev "_" then None else Some []
  | c :: r =>
      if Ascii.eqb c "_" then
        if is_digit prev then drop_underscores c r else None
      else if Ascii.eqb prev "_" && negb (is_digit c) then None
      else option_map (cons c) (drop_underscores c r)
  end.

Fixpoint span_digits (l : list ascii) : list ascii * list ascii :=
  match l with
  | c :: r =>
      if is_digit c then let (d, t) := span_digits r in (c :: d, t)
      else ([], l)
  | [] => ([], [])
  end.

Definition digits_to_Z (l : list ascii) : Z :=
  fold_left (fun acc c => (10 * acc + digit_val c)%Z) l 0%Z.

Definition split_sign (l : list ascii) : bool * list ascii :=
  match l with
  | c :: r =>
      if Ascii.eqb c "-" then (true, r)
      else if Ascii.eqb c "+" then (false, r)
      else (false, l)
  | [] => (false, [])
  end.

(** The exponent part: empty, or [e]/[E], an optional sign and at least
    one digit, to the end of the input. *)
Definition parse_exponent (l : list ascii) : option Z :=
  match l with
  | [] => Some 0%Z
  | c :: r =>
      if Ascii.eqb c "e" || Ascii.eqb c "E" then
        let (neg, r') := split_sign r in
        match span_digits r' with
        | ((_ :: _) as ds, []) =>
            Some (if neg then (- digits_to_Z ds)%Z else digits_to_Z ds)
        | _ => None
        end
      else None
  end.

Definition parse_decimal (neg : bool) (l : list ascii) : option float :=
  let (ip, r1) := span_digits l in
  let (fp, r2) := match r1 with
                  | c :: r => if Ascii.eqb c "." then span_digits r
                              else ([], r1)
                  | [] => ([], [])
                  end in
  match ip ++ fp with
  | [] => None
  | ds =>
      match parse_exponent r2 with
      | None => None
      | Some e =>
          Some match digits_to_Z ds with
               | Zpos m => round_decimal neg m (e - Z.of_nat (List.length fp))
               | _ => if neg then neg_zero else zero
               end
      end
  end.

Definition float_of_str (s : string) : option float :=
  match drop_underscores "000" (strip_float (list_ascii_of_string s)) with
  | None => None
  | Some l =>
      let (neg, body) := split_sign l in
      let w := lower (string_of_list_ascii body) in
      if String.eqb w "inf" || String.eqb w "infinity"
      then Some (if neg then neg_infinity else infinity)
      else if String.eqb w "nan" then Some nan
      else parse_decimal neg body
  end.

(** *** Numbers and sequences *)

(** [float(v)] *)
Definition py_float (v : pyval) : result float :=
  match v with
  | VFloat f => Ok f
  | VInt n => float_of_int n
  | VBool b => Ok (if b then one else zero)
  | VStr s => match float_of_str s with
              | Some f => Ok f
              | None => Raise ValueError
              end
  | VNone | VList _ | VDict _ => Raise TypeError
  end.

(** [v > n] for an int literal [n]; ordering a [None], a string or a
    container against an int is a [TypeError]. *)
Definition py_gt_int (v : pyval) (n : Z) : result bool :=
  match v with
  | VInt k => Ok (n <? k)%Z
  | VBool b => Ok (n <? Z.b2z b)%Z
  | VFloat f => Ok (float_gt_int f n)
  | VNone | VStr _ | VList _ | VDict _ => Raise TypeError
  end.

(** [num != 0] for a number. *)
Definition ne_zero (num : pyval) : bool :=
  match num with
  | VInt k => negb (k =? 0)%Z
  | VBool b => b
  | VFloat f => negb (float_eq_int f 0)
  | _ => true
  end.

(** [float(str(v).replace(',', ''))] for [v] an int, a float or a bool.
    [str] of an int is its decimal numeral, which [float] reads as the
    nearest float (an infinity beyond the range, without an error); [str]
    of a float is the shortest numeral that [float] reads back as the same
    float, [inf] and [nan] included; [str] of a bool is [True] or [False],
    which [float] rejects. None of them contains a comma. *)
Definition float_of_repr (v : pyval) : result float :=
  match v with
  | VInt n => Ok (round_Z n)
  | VFloat f => Ok f
  | VBool _ => Raise ValueError
  | VStr s => match float_of_str (remove_commas s) with
              | Some f => Ok f
              | None => Raise ValueError
              end
  | VNone | VList _ | VDict _ => Raise TypeError
  end.

(** [l[i]] for a list, with Python's negative indices. *)
Definition list_getitem {A} (l : list A) (i : Z) : result A :=
  let n := Z.of_nat (List.length l) in
  let j := if (i <? 0)%Z then (i + n)%Z else i in
  if ((0 <=? j) && (j <? n))%Z then
    match nth_error l (Z.to_nat j) with
    | Some x => Ok x
    | None => Raise IndexError
    end
  else Raise IndexError.

(** [d[k]] for a dict. *)
Definition dict_getitem {A} (d : gmap string A) (k : string) : result A :=
  match d !! k with
  | Some x => Ok x
  | None => Raise KeyError
  end.

(** [a and b] and [a or b] on conditions that can raise; the right
    operand is evaluated only when the left one does not decide. *)
Definition py_and (a b : result bool) : result bool :=
  a ≫= fun x : bool => if x then b else Ok false.

Definition py_or (a b : result bool) : result bool :=
  a ≫= fun x : bool => if x then Ok true else b.

(** [if c: t else: e] on a condition that can raise. *)
Definition py_if {A} (c : result bool) (t e : result A) : result A :=
  c ≫= fun b : bool => if b then t else e.

(** A [for] loop that threads a state and can raise. *)
Fixpoint for_each {A S} (body : S -> A -> result S) (l : list A) (st : S)
    : result S :=
  match l with
  | [] => Ok st
  | x :: r => body st x ≫= for_each body r
  end.

(** [all(f(x) for x in l)]: stops at the first false. *)
Fixpoint py_all {A} (f : A -> result bool) (l : list A) : result bool :=
  match l with
  | [] => Ok true
  | x :: r => f x ≫= fun b : bool => if b then py_all f r else Ok false
  end.

End Py.

Import Py.

(** ** The raw payload (one query response)

    Every key that the extractor reads with [.get(key, default)] or tests
    with [key in ...] is an optional field; [None] is a missing key. *)

Module Payload.

Record row_entry := { C : option (list pyval) }.

Record page_block :=
  { DM0 : option (list row_entry);
    DM1 : option (list row_entry) }.

Record data_shape :=
  { ValueDicts : option (gmap string (list string));
    PH : option (list page_block) }.

Record dsr_block := { DS : option (list data_shape) }.

Record result_data :=
  { timestamp : option string;
    dsr : option dsr_block }.

Record result_block := { data : option result_data }.

Record result_entry := { result : option result_block }.

Record json_data := { results : option (list result_entry) }.

(** The [{}] defaults of the [.get] chain. *)
Definition no_dsr : dsr_block := {| DS := None |}.
Definition no_data : result_data := {| timestamp := None; dsr := None |}.
Definition no_result : result_block := {| data := None |}.

End Payload.

(** ** The output record *)

Record CsvRow :=
  { scrape_datetime : string;
    date : string;
    installation : string;
    oil_production : pyval;
    gas_production : pyval;
    oil_equivalents_boe : pyval;
    operator : string;
    type : string;
    estado : string;
    city : string;
    atendimento_campo : string;
    campo : string;
    quantity : pyval;
    code : string;
    status : string }.

(** [csv_row['installation'] = v] and the like. *)
Definition set_date (r : CsvRow) (v : string) : CsvRow :=
  {| scrape_datetime := scrape_datetime r; date := v;
     installation := installation r; oil_production := oil_production r;
     gas_production := gas_production r;
     oil_equivalents_boe := oil_equivalents_boe r; operator := operator r;
     type := type r; estado := estado r; city := city r;
     atendimento_campo := atendimento_campo r; campo := campo r;
     quantity := quantity r; code := code r; status := status r |}.

Definition set_oil_production (r : CsvRow) (v : pyval) : CsvRow :=
  {| scrape_datetime := scrape_datetime r; date := date r;
     installation := installation r; oil_production := v;
     gas_production := gas_production r;
     oil_equivalents_boe := oil_equivalents_boe r; operator := operator r;
     type := type r; estado := estado r; city := city r;
     atendimento_campo := atendimento_campo r; campo := campo r;
     quantity := quantity r; code := code r; status := status r |}.

Definition set_gas_production (r : CsvRow) (v : pyval) : CsvRow :=
  {| scrape_datetime := scrape_datetime r; date := date r;
     installation := installation r; oil_production := oil_production r;
     gas_production := v;
     oil_equivalents_boe := oil_equivalents_boe r; operator := operator r;
     type := type r; estado := estado r; city := city r;
     atendimento_campo := atendimento_campo r; campo := campo r;
     quantity := quantity r; code := code r; status := status r |}.

Definition set_oil_equivalents_boe (r : CsvRow) (v : pyval) : CsvRow :=
  {| scrape_datetime := scrape_datetime r; date := date r;
     installation := installation r; oil_production := oil_production r;
     gas_production := gas_production r;
     oil_equivalents_boe := v; operator := operator r;
     type := type r; estado := estado r; city := city r;
     atendimento_campo := atendimento_campo r; campo := campo r;
     quantity := quantity r; code := code r; status := status r |}.

Definition set_quantity (r : CsvRow) (v : pyval) : CsvRow :=
  {| scrape_datetime := scrape_datetime r; date := date r;
     installation := installation r; oil_production := oil_production r;
     gas_production := gas_production r;
     oil_equivalents_boe := oil_equivalents_boe r; operator := operator r;
     type := type r; estado := estado r; city := city r;
     atendimento_campo := atendimento_campo r; campo := campo r;
     quantity := v; code := code r; status := status r |}.

Definition set_code (r : CsvRow) (v : string) : CsvRow :=
  {| scrape_datetime := scrape_datetime r; date := date r;
     installation := installation r; oil_production := oil_production r;
     gas_production := gas_production r;
     oil_equivalents_boe := oil_equivalents_boe r; operator := operator r;
     type := type r; estado := estado r; city := city r;
     atendimento_campo := atendimento_campo r; campo := campo r;
     quantity := quantity r; code := v; status := status r |}.

Definition set_status (r : CsvRow) (v : string) : CsvRow :=
  {| scrape_datetime := scrape_datetime r; date := date r;
     installation := installation r; oil_production := oil_production r;
     gas_production := gas_production r;
     oil_equivalents_boe := oil_equivalents_boe r; operator := operator r;
     type := type r; estado := estado r; city := city r;
     atendimento_campo := atendimento_campo r; campo := campo r;
     quantity := quantity r; code := code r; status := v |}.

(** The seven dictionary-coded text fields are assigned together. *)
Definition set_texts (r : CsvRow)
    (inst oper ty est cty atend cmp : string) : CsvRow :=
  {| scrape_datetime := scrape_datetime r; date := date r;
     installation := inst; oil_production := oil_production r;
     gas_production := gas_production r;
     oil_equivalents_boe := oil_equivalents_boe r; operator := oper;
     type := ty; estado := est; city := cty;
     atendimento_campo := atend; campo := cmp;
     quantity := quantity r; code := code r; status := status r |}.

(** ** The scraper *)

Section Scraper.

(** [datetime.fromtimestamp(t).strftime('%Y-%m-%d')]: the calendar date of
    [t] seconds after the epoch in the local time zone of the machine that
    runs the scraper. [None] stands for the exceptions [fromtimestamp]
    raises on a value it cannot convert: [ValueError], [OSError] and
    [OverflowError]. *)
Variable strftime_local : float -> option string.

Definition fromtimestamp_strftime (t : float) : result string :=
  match strftime_local t with
  | Some d => Ok d
  | None => Raise OverflowError
  end.

(** *** [convert_timestamp_to_date] *)

Definition convert_timestamp_to_date (timestamp_input : pyval)
    : result string :=
  if negb (truthy timestamp_input) then Ok ""
  else
    try_except
      (parsed ← match timestamp_input with
                | VStr s =>
                    (* the inner try/except ValueError around float(s) *)
                    match float_of_str s with
                    | Some f => Ok (inl f)
                    | None =>
                        if (10 <=? String.length s)%nat && contains "-" s
                        then Ok (inr (str_prefix 10 s))
                        else Ok (inr "")
                    end
                | _ => f ← py_float timestamp_input; Ok (inl f)
                end;
       match parsed with
       | inr early => Ok early
       | inl timestamp_num =>
           if float_le_int timestamp_num 0 then Ok ""
           else
             let timestamp_sec :=
               if PrimFloat.ltb 1e10 timestamp_num
               then PrimFloat.div timestamp_num 1000
               else timestamp_num in
             fromtimestamp_strftime timestamp_sec
       end)
      [ValueError; OSError; OverflowError] (Ok "").

(** *** [extract_data_from_json] *)

(** The [C] vectors of one row group, in order; entries without [C] are
    skipped, a missing group contributes nothing. *)
Definition group_rows (group : option (list Payload.row_entry))
    : list (list pyval) :=
  match group with
  | Some rows => omap Payload.C rows
  | None => []
  end.

Definition collect_rows (ph_list : list Payload.page_block)
    : list (list pyval) :=
  fold_left
    (fun data_rows ph =>
       (data_rows ++ group_rows (Payload.DM0 ph))
         ++ group_rows (Payload.DM1 ph))
    ph_list [].

(** [isinstance(v, (int, float)) and v > 1000000000000] *)
Definition is_epoch_ms (v : pyval) : result bool :=
  py_and (Ok (isinstance_int_float v)) (py_gt_int v 1000000000000).

(** One turn of the date loop: the new [current_date]. *)
Definition next_date (current_date : string) (row_data : list pyval)
    : result string :=
  py_if (py_and (Ok (List.length row_data =? 1)%nat)
                (list_getitem row_data 0 ≫= is_epoch_ms))
    (list_getitem row_data 0 ≫= convert_timestamp_to_date)
    (py_if (py_and (Ok (4 <=? List.length row_data)%nat)
                   (list_getitem row_data 0 ≫= is_epoch_ms))
       (list_getitem row_data 0 ≫= convert_timestamp_to_date)
       (Ok current_date)).

(** The date loop; the state is [current_date] and the list built so far. *)
Definition date_step (st : string * list string) (row_data : list pyval)
    : result (string * list string) :=
  current_date ← next_date (fst st) row_data;
  Ok (current_date, snd st ++ [current_date]).

Definition assign_dates (data_rows : list (list pyval))
    : result (list string) :=
  st ← for_each date_step data_rows ("", []); Ok (snd st).

(** [results[0].get('result', {}).get('data', {})] *)
Definition result_data_of (first : Payload.result_entry)
    : Payload.result_data :=
  default Payload.no_data
    (Payload.data (default Payload.no_result (Payload.result first))).

(** [result_data.get('dsr', {}).get('DS', [])] *)
Definition ds_list_of (result_data : Payload.result_data)
    : list Payload.data_shape :=
  default [] (Payload.DS (default Payload.no_dsr (Payload.dsr result_data))).

Definition extract_data_from_json (json_data : Payload.json_data)
    : result (list (list pyval) * gmap string (list string)
              * string * list string) :=
  let results := default [] (Payload.results json_data) in
  match results with
  | [] => Raise ValueError
  | first :: _ =>
      let result_data := result_data_of first in
      let timestamp := default "" (Payload.timestamp result_data) in
      let ds_list := ds_list_of result_data in
      match ds_list with
      | [] => Raise ValueError
      | ds0 :: _ =>
          let value_dicts := default ∅ (Payload.ValueDicts ds0) in
          let ph_list := default [] (Payload.PH ds0) in
          let data_rows := collect_rows ph_list in
          row_date_assignments ← assign_dates data_rows;
          Ok (data_rows, value_dicts, timestamp, row_date_assignments)
      end
  end.

(** *** [map_data_row_to_csv] and its helpers *)

(** [get_value]: the element at [index], [None] when the vector is too
    short or the element is null. *)
Definition get_value (data_row : list pyval) (index : nat) : pyval :=
  match nth_error data_row index with
  | Some v => v
  | None => VNone
  end.

Definition is_none (v : pyval) : bool :=
  match v with VNone => true | _ => false end.

Definition lookup_text_direct (value_dicts : gmap string (list string))
    (index : pyval) (dict_key : string) : result string :=
  if negb (is_none index) && bool_decide (is_Some (value_dicts !! dict_key))
  then
    match as_int index with
    | Some i =>
        entries ← dict_getitem value_dicts dict_key;
        if ((0 <=? i) && (i <? Z.of_nat (List.length entries)))%Z then
          text_value ← list_getitem entries i;
          Ok (if truthy (VStr text_value) && truthy (VStr (strip text_value))
              then text_value else "")
        else Ok ""
    | None => Ok ""
    end
  else Ok "".

Definition get_numeric (value : pyval) : result pyval :=
  match value with
  | VNone => Ok (VStr "")
  | _ =>
      try_except
        (num ← match value with
               | VStr s =>
                   let clean_value := remove_commas s in
                   if contains "." clean_value
                      || contains "e" (lower clean_value)
                   then f ← py_float (VStr clean_value);
                        Ok (Some (VFloat f))
                   else f ← py_float (VStr clean_value);
                        n ← int_of_float f;
                        Ok (Some (VInt n))
               | _ =>
                   if isinstance_int_float value then Ok (Some value)
                   else Ok None
               end;
         match num with
         | Some num => Ok (if ne_zero num then num else VStr "")
         | None => Ok (VStr "")
         end)
        [ValueError; TypeError] (Ok (VStr ""))
  end.

Definition initial_row (timestamp row_date : string) : CsvRow :=
  {| scrape_datetime := timestamp; date := row_date; installation := "";
     oil_production := VStr ""; gas_production := VStr "";
     oil_equivalents_boe := VStr ""; operator := ""; type := "";
     estado := ""; city := ""; atendimento_campo := ""; campo := "";
     quantity := VStr ""; code := ""; status := "" |}.

(** The test of the summary branch on one element:
    [isinstance(val, (int, float, str)) and not isinstance(val, int)
     or val > 100]. *)
Definition summary_test (val : pyval) : result bool :=
  py_or (Ok (isinstance_int_float_str val && negb (isinstance_int val)))
        (py_gt_int val 100).

(** [get_numeric(data_row[i])] *)
Definition numeric_at (data_row : list pyval) (i : Z) : result pyval :=
  list_getitem data_row i ≫= get_numeric.

(** The value a production scan keeps for one element, if any: the body
    of the loop over [range(6, row_length)]. *)
Definition production_value (val : pyval) : option float :=
  if isinstance_int_float_str val then
    match float_of_repr val with
    | Ok num_val => if negb (float_eq_int num_val 0) then Some num_val else None
    | Raise _ => None
    end
  else None.

Definition production_values (data_row : list pyval) : list float :=
  omap (fun i => production_value (get_value data_row i))
       (seq 6 (List.length data_row - 6)).

(** [isinstance(val, (int, float)) and 1 <= val <= 1000
     and val == int(val)] for a collected value. *)
Definition is_quantity (val : float) : result bool :=
  py_and (Ok (float_ge_int val 1 && float_le_int val 1000))
         (n ← int_of_float val; Ok (float_eq_int val n)).

(** The search for the quantity: position and value of the first hit. *)
Fixpoint find_quantity (i : nat) (values : list float)
    : result (option (nat * float)) :=
  match values with
  | [] => Ok None
  | val :: rest =>
      py_if (is_quantity val) (Ok (Some (i, val)))
            (find_quantity (S i) rest)
  end.

(** The letters g, a-acute, s. *)
Definition gas_accented : string :=
  String "g" (String (ascii_of_N 225) (String "s" EmptyString)).

Definition type_is_gas (csv_row : CsvRow) : bool :=
  contains gas_accented (lower (type csv_row))
  || contains "gas" (lower (type csv_row)).

Definition assign_production (production_values : list float)
    (csv_row : CsvRow) : result CsvRow :=
  if (3 <=? List.length production_values)%nat then
    found ← find_quantity 0 production_values;
    match found with
    | Some (quantity_idx, val) =>
        n ← int_of_float val;
        let csv_row := set_quantity csv_row (VInt n) in
        let before_qty := firstn quantity_idx production_values in
        let after_qty := skipn (S quantity_idx) production_values in
        let csv_row :=
          match before_qty with
          | b0 :: b1 :: _ =>
              set_gas_production
                (set_oil_production csv_row (VFloat b0)) (VFloat b1)
          | [b0] =>
              if type_is_gas csv_row
              then set_gas_production csv_row (VFloat b0)
              else set_oil_production csv_row (VFloat b0)
          | [] => csv_row
          end in
        Ok match after_qty with
           | a0 :: _ => set_oil_equivalents_boe csv_row (VFloat a0)
           | [] => csv_row
           end
    | None =>
        match production_values with
        | p0 :: p1 :: p2 :: _ =>
            Ok (set_oil_equivalents_boe
                  (set_gas_production
                     (set_oil_production csv_row (VFloat p0)) (VFloat p1))
                  (VFloat p2))
        | _ => Ok csv_row
        end
    end
  else Ok csv_row.

(** The body of the loop over [range(7, min(row_length, 11))]. *)
Definition code_status_step (data_row : list pyval)
    (value_dicts : gmap string (list string))
    (csv_row : CsvRow) (i : nat) : result CsvRow :=
  let val := get_value data_row i in
  match as_int val with
  | Some n =>
      if ((0 <=? n) && (n <? 1000))%Z then
        if (i =? 7)%nat then Ok csv_row
        else if (i =? 8)%nat then
          c ← lookup_text_direct value_dicts val "D8";
          Ok (set_code csv_row c)
        else if (i =? 9)%nat then
          c ← lookup_text_direct value_dicts val "D9";
          Ok (set_status csv_row c)
        else Ok csv_row
      else Ok csv_row
  | None => Ok csv_row
  end.

(** The detail branch, entered when [row_length >= 9]. *)
Definition detail_row (data_row : list pyval)
    (value_dicts : gmap string (list string)) (csv_row : CsvRow)
    : result (option CsvRow) :=
  let installation_idx := get_value data_row 0 in
  match as_int installation_idx with
  | None => Ok None
  | Some idx =>
      if (idx <? 0)%Z then Ok None
      else
        inst ← lookup_text_direct value_dicts (get_value data_row 0) "D0";
        oper ← lookup_text_direct value_dicts (get_value data_row 1) "D1";
        ty ← lookup_text_direct value_dicts (get_value data_row 2) "D2";
        est ← lookup_text_direct value_dicts (get_value data_row 3) "D3";
        cty ← lookup_text_direct value_dicts (get_value data_row 4) "D4";
        atend ← lookup_text_direct value_dicts (get_value data_row 5) "D5";
        cmp ← lookup_text_direct value_dicts (get_value data_row 6) "D6";
        let csv_row := set_texts csv_row inst oper ty est cty atend cmp in
        if negb (truthy (VStr (installation csv_row))) then Ok None
        else
          csv_row ← assign_production (production_values data_row) csv_row;
          csv_row ← for_each (code_status_step data_row value_dicts)
                      (seq 7 (Nat.min (List.length data_row) 11 - 7))
                      csv_row;
          Ok (if truthy (VStr (installation csv_row))
                 && (truthy (oil_production csv_row)
                     || truthy (gas_production csv_row)
                     || truthy (oil_equivalents_boe csv_row))
              then Some csv_row else None)
  end.

Definition map_data_row_to_csv (data_row : list pyval)
    (value_dicts : gmap string (list string)) (timestamp row_date : string)
    : result (option CsvRow) :=
  let csv_row := initial_row timestamp row_date in
  let row_length := List.length data_row in
  if (row_length =? 0)%nat then Ok None
  else if (row_length =? 1)%nat then Ok None
  else
    py_if (py_and (Ok (row_length =? 4)%nat) (py_all summary_test data_row))
      (oil ← numeric_at data_row 0;
       gas ← numeric_at data_row 1;
       qty ← numeric_at data_row 2;
       boe ← numeric_at data_row 3;
       Ok (Some (set_oil_equivalents_boe
                   (set_quantity
                      (set_gas_production
                         (set_oil_production csv_row oil) gas) qty) boe)))
      (let first_val := get_value data_row 0 in
       py_if (is_epoch_ms first_val)
         (if (row_length =? 4)%nat then
            d ← convert_timestamp_to_date first_val;
            oil ← numeric_at data_row 1;
            gas ← numeric_at data_row 2;
            boe ← numeric_at data_row 3;
            Ok (Some (set_oil_equivalents_boe
                        (set_gas_production
                           (set_oil_production (set_date csv_row d) oil)
                           gas) boe))
          else Ok None)
         (if (9 <=? row_length)%nat
          then detail_row data_row value_dicts csv_row
          else Ok None)).

(** *** [write_csv_file] *)

Definition fieldnames : list string :=
  ["scrape_datetime"; "date"; "installation"; "oil_production";
   "gas_production"; "oil_equivalents_boe"; "operator"; "type";
   "estado"; "city"; "atendimento_campo"; "campo"; "quantity";
   "code"; "status"].

(** The record as the dict the decoder builds. *)
Definition row_items (row : CsvRow) : list (string * pyval) :=
  [("scrape_datetime", VStr (scrape_datetime row));
   ("date", VStr (date row));
   ("installation", VStr (installation row));
   ("oil_production", oil_production row);
   ("gas_production", gas_production row);
   ("oil_equivalents_boe", oil_equivalents_boe row);
   ("operator", VStr (operator row));
   ("type", VStr (type row));
   ("estado", VStr (estado row));
   ("city", VStr (city row));
   ("atendimento_campo", VStr (atendimento_campo row));
   ("campo", VStr (campo row));
   ("quantity", quantity row);
   ("code", VStr (code row));
   ("status", VStr (status row))].

(** [row.get(field, '')]; a [None] in place of a record has no [get]. *)
Definition row_get (row : option CsvRow) (field : string) : result pyval :=
  match row with
  | None => Raise AttributeError
  | Some r =>
      Ok match find (fun kv => String.eqb (fst kv) field) (row_items r) with
         | Some kv => snd kv
         | None => VStr ""
         end
  end.

(** A written cell: empty for [''] and [None], else the value whose [str]
    is written. *)
Definition clean_cell (value : pyval) : pyval :=
  match value with
  | VNone => VStr ""
  | _ => value
  end.

Definition clean_row (row : option CsvRow) : result (list pyval) :=
  for_each (fun cells field =>
              value ← row_get row field; Ok (cells ++ [clean_cell value]))
           fieldnames [].

(** The lines written so far; the first one is the header. *)
Definition file := list (list pyval).

(** The loop over [csv_data]: the file keeps what was written before an
    exception. *)
Fixpoint write_rows (csv_data : list (option CsvRow)) (f : file)
    : file * result unit :=
  match csv_data with
  | [] => (f, Ok ())
  | row :: rest =>
      match clean_row row with
      | Ok cells => write_rows rest (f ++ [cells])
      | Raise e => (f, Raise e)
      end
  end.

Definition write_csv_file (csv_data : list (option CsvRow))
    : file * result unit :=
  write_rows csv_data [map VStr fieldnames].

(** *** [process_json_to_csv] and [run] *)

(** The loop over [enumerate(data_rows)] of the [process_json_to_csv] that
    [run] calls (the later of the two definitions of that name): what the
    decoder returns is appended as it is; a row on which it raises is
    skipped with a warning. *)
Fixpoint decode_rows (i : nat) (data_rows : list (list pyval))
    (value_dicts : gmap string (list string)) (timestamp : string)
    (row_date_assignments : list string)
    (csv_data : list (option CsvRow)) : list (option CsvRow) :=
  match data_rows with
  | [] => csv_data
  | data_row :: rest =>
      let attempt :=
        row_date ← list_getitem row_date_assignments (Z.of_nat i);
        map_data_row_to_csv data_row value_dicts timestamp row_date in
      decode_rows (S i) rest value_dicts timestamp row_date_assignments
        match attempt with
        | Ok csv_row => csv_data ++ [csv_row]
        | Raise _ => csv_data
        end
  end.

(** The earlier definition of [process_json_to_csv], which the later one
    replaces when the module is loaded: it keeps the records only. *)
Fixpoint decode_rows_filtered (i : nat) (data_rows : list (list pyval))
    (value_dicts : gmap string (list string)) (timestamp : string)
    (row_date_assignments : list string)
    (csv_data : list CsvRow) : result (list CsvRow) :=
  match data_rows with
  | [] => Ok csv_data
  | row_data :: rest =>
      let row_date :=
        match nth_error row_date_assignments i with
        | Some d => d
        | None => ""
        end in
      csv_row ← map_data_row_to_csv row_data value_dicts timestamp row_date;
      decode_rows_filtered (S i) rest value_dicts timestamp
        row_date_assignments
        match csv_row with
        | Some r => csv_data ++ [r]
        | None => csv_data
        end
  end.

(** The output file before and after: [None] is a file that was never
    opened for writing. An exception is printed and raised again. The
    count printed after the write reads the written records only and
    raises nothing. *)
Definition process_json_to_csv (json_data : Payload.json_data)
    (output : option file) : option file * result unit :=
  match extract_data_from_json json_data with
  | Raise e => (output, Raise e)
  | Ok (data_rows, value_dicts, timestamp, row_date_assignments) =>
      let csv_data :=
        decode_rows 0 data_rows value_dicts timestamp
          row_date_assignments [] in
      let (f, r) := write_csv_file csv_data in
      (Some f, r)
  end.

(** Step 3 of [run], on the payload that steps 1 and 2 deliver: the file
    and the exit status of the process ([sys.exit(1)] on any exception). *)
Definition run (json_data : Payload.json_data) (output : option file)
    : option file * Z :=
  let (output', r) := process_json_to_csv json_data output in
  (output', match r with Ok _ => 0%Z | Raise _ => 1%Z end).

End Scraper.

(** ** A reference environment: local time is UTC

    [datetime.fromtimestamp] splits the float into its integral part and
    its fraction, rounds the fraction to microseconds (half to even) with
    a carry into the seconds, and rejects a value beyond the platform's
    64-bit [time_t] or a year outside 1..9999. *)

Module UTC.

(** The integer nearest to a finite float, halves to the even one. *)
Definition round_half_even (f : float) : Z :=
  match Prim2SF f with
  | S754_finite s m (Zneg k) =>
      let q := Z.shiftr (Zpos m) (Zpos k) in
      let r := (Zpos m - Z.shiftl q (Zpos k))%Z in
      let half := Z.shiftl 1 (Zpos k - 1) in
      let a := match (r ?= half)%Z with
               | Gt => (q + 1)%Z
               | Eq => if Z.even q then q else (q + 1)%Z
               | Lt => q
               end in
      if s then (- a)%Z else a
  | S754_finite s m e =>
      let a := Z.shiftl (Zpos m) e in if s then (- a)%Z else a
  | _ => 0%Z
  end.

(** Year, month and day of the day [z] days after 1970-01-01 in the
    proleptic Gregorian calendar. *)
Definition civil_from_days (z : Z) : Z * Z * Z :=
  let z := (z + 719468)%Z in
  let era := (z / 146097)%Z in
  let doe := (z - era * 146097)%Z in
  let yoe := ((doe - doe / 1460 + doe / 36524 - doe / 146096) / 365)%Z in
  let doy := (doe - (365 * yoe + yoe / 4 - yoe / 100))%Z in
  let mp := ((5 * doy + 2) / 153)%Z in
  let d := (doy - (153 * mp + 2) / 5 + 1)%Z in
  let m := (if (mp <? 10)%Z then mp + 3 else mp - 9)%Z in
  ((if (m <=? 2)%Z then yoe + era * 400 + 1 else yoe + era * 400)%Z, m, d).

Definition digit (n : Z) : ascii := ascii_of_N (48 + Z.to_N (n mod 10)).

Definition pad2 (n : Z) : string :=
  String (digit (n / 10)) (String (digit n) EmptyString).

Definition pad4 (n : Z) : string :=
  String (digit (n / 1000)) (String (digit (n / 100)) (pad2 n)).

Definition strftime_utc (t : float) : option string :=
  match int_of_float t with
  | Raise _ => None
  | Ok intpart =>
      let floatpart := PrimFloat.mul (PrimFloat.sub t (round_Z intpart)) 1e6 in
      let us := round_half_even floatpart in
      let sec := (if (1000000 <=? us)%Z then intpart + 1
                  else if (us <? 0)%Z then intpart - 1 else intpart)%Z in
      if ((sec <? - 2 ^ 63) || (2 ^ 63 <=? sec))%Z then None
      else
        let '(y, m, d) := civil_from_days (sec / 86400) in
        if ((y <? 1) || (9999 <? y))%Z then None
        else Some (String.append (pad4 y)
                    (String "-" (String.append (pad2 m) (String "-" (pad2 d)))))
  end.

End UTC.

(** ** [convert_date_format] *)

(** [datetime.strptime(s, "%m/%d/%Y")] and [strftime("%Y-%m-%d")] as the
    standard library defines them. The format becomes the regular
    expression
    [(1[0-2]|0[1-9]|[1-9])/(3[0-1]|[1-2]\d|0[1-9]|[1-9]| [1-9])/(\d\d\d\d)],
    matched at the start of the string with the alternatives tried in
    order; text left after the match, and a day the month does not have,
    are a [ValueError]. *)

Module DateFormat.

(** A piece of the pattern: the number read and the rest of the input. *)
Definition piece := list ascii -> option (Z * list ascii).

Definition in_range (lo hi : N) (c : ascii) : bool :=
  ((lo <=? Py.code c) && (Py.code c <=? hi))%N.

(** Two characters, the first in [lo1, hi1] and the second in
    [lo2, hi2], read as [int] reads them: a leading blank is skipped. *)
Definition two_chars (lo1 hi1 lo2 hi2 : N) : piece :=
  fun l =>
    match l with
    | a :: b :: r =>
        if in_range lo1 hi1 a && in_range lo2 hi2 b
        then Some ((if is_digit a then 10 * digit_val a else 0)
                   + digit_val b, r)%Z
        else None
    | _ => None
    end.

Definition one_char (lo hi : N) : piece :=
  fun l =>
    match l with
    | a :: r => if in_range lo hi a then Some (digit_val a, r) else None
    | [] => None
    end.

(** [1[0-2]|0[1-9]|[1-9]] *)
Definition month_pieces : list piece :=
  [two_chars 49 49 48 50; two_chars 48 48 49 57; one_char 49 57].

(** [3[0-1]|[1-2]\d|0[1-9]|[1-9]| [1-9]] *)
Definition day_pieces : list piece :=
  [two_chars 51 51 48 49; two_chars 49 50 48 57; two_chars 48 48 49 57;
   one_char 49 57; two_chars 32 32 49 57].

(** An alternation followed by the rest of the pattern [k]: the first
    alternative after which the rest matches. *)
Fixpoint alternation {R} (pieces : list piece)
    (k : Z -> list ascii -> option R) (l : list ascii) : option R :=
  match pieces with
  | [] => None
  | p :: others =>
      match p l with
      | Some (v, r) =>
          match k v r with
          | Some res => Some res
          | None => alternation others k l
          end
      | None => alternation others k l
      end
  end.

(** The literal [/]. *)
Definition slash {R} (k : list ascii -> option R) (l : list ascii)
    : option R :=
  match l with
  | c :: r => if Ascii.eqb c "/" then k r else None
  | [] => None
  end.

(** [\d\d\d\d] *)
Definition four_digits (l : list ascii) : option (Z * list ascii) :=
  match l with
  | a :: b :: c :: d :: r =>
      if is_digit a && is_digit b && is_digit c && is_digit d
      then Some (1000 * digit_val a + 100 * digit_val b
                 + 10 * digit_val c + digit_val d, r)%Z
      else None
  | _ => None
  end.

(** The match of the whole pattern: month, day, year and the text left. *)
Definition match_mdy (l : list ascii) : option (Z * Z * Z * list ascii) :=
  alternation month_pieces
    (fun m => slash (alternation day_pieces
       (fun d => slash (fun r =>
          match four_digits r with
          | Some (y, rest) => Some (m, d, y, rest)
          | None => None
          end))))
    l.

Definition is_leap (y : Z) : bool :=
  ((y mod 4 =? 0) && (negb (y mod 100 =? 0) || (y mod 400 =? 0)))%Z.

Definition days_in_month (y m : Z) : Z :=
  if (m =? 2)%Z then (if is_leap y then 29 else 28)%Z
  else if ((m =? 4) || (m =? 6) || (m =? 9) || (m =? 11))%Z then 30%Z
  else 31%Z.

(** A date [datetime] accepts. *)
Definition valid_date (y m d : Z) : bool :=
  ((1 <=? y) && (y <=? 9999) && (1 <=? m) && (m <=? 12)
   && (1 <=? d) && (d <=? days_in_month y m))%Z.

(** [datetime.strptime(date_str, "%m/%d/%Y")]: year, month and day. *)
Definition strptime_mdy (date_str : string) : result (Z * Z * Z) :=
  match match_mdy (list_ascii_of_string date_str) with
  | Some (m, d, y, []) =>
      if valid_date y m d then Ok (y, m, d) else Raise ValueError
  | _ => Raise ValueError
  end.

Fixpoint drop_zeros (s : string) : string :=
  match s with
  | String c r => if Ascii.eqb c "0" then drop_zeros r else s
  | EmptyString => EmptyString
  end.

(** [%Y]: four digits; below the year 1000 the C library decides whether
    the leading zeros are written ([zero_pad]). *)
Definition year_text (zero_pad : bool) (y : Z) : string :=
  if zero_pad then UTC.pad4 y else drop_zeros (UTC.pad4 y).

(** [date_obj.strftime("%Y-%m-%d")] *)
Definition strftime_ymd (zero_pad : bool) (y m d : Z) : string :=
  String.append (year_text zero_pad y)
    (String "-" (String.append (UTC.pad2 m) (String "-" (UTC.pad2 d)))).

(** [strftime("%m/%d/%Y")], the form in which the dashboard step hands the
    dates over. *)
Definition strftime_mdy (zero_pad : bool) (y m d : Z) : string :=
  String.append (UTC.pad2 m)
    (String "/" (String.append (UTC.pad2 d)
       (String "/" (year_text zero_pad y)))).

End DateFormat.

Definition convert_date_format (zero_pad : bool) (date_str : string)
    : result string :=
  try_except
    (date_obj ← DateFormat.strptime_mdy date_str;
     let '(y, m, d) := date_obj in
     Ok (DateFormat.strftime_ymd zero_pad y m d))
    [ValueError] (Ok date_str).

(** ** Vocabulary of the properties *)

(** [f] is the integer [n]. *)
Definition float_is_int (f : float) (n : Z) : Prop :=
  float_compare_int f n = Some Eq.

(** A collected production value that is an integer in [1, 1000]. *)
Definition integer_1_1000 (f : float) : Prop :=
  exists n, (1 <= n <= 1000)%Z /\ float_is_int f n.

Definition nonzero (p : float) : Prop := float_eq_int p 0 = false.

(** A numeric field that is not the empty marker. *)
Definition nonempty (v : pyval) : Prop := v <> VStr "".

(** The value of [is_epoch_ms], which never raises. *)
Definition epoch_ms (v : pyval) : bool :=
  match is_epoch_ms v with Ok b => b | Raise _ => false end.

(** The element that sets a new current date, for a row on which the date
    loop updates it: the row has one element or at least four, and its
    first element is a number above 1e12. *)
Definition date_trigger (row_data : list pyval) : option pyval :=
  match row_data with
  | v :: _ =>
      if ((List.length row_data =? 1)%nat || (4 <=? List.length row_data)%nat)
         && epoch_ms v
      then Some v else None
  | [] => None
  end.

(** The date carried into row [i]: the empty string before the first row,
    else the date of the row before. *)
Definition previous_date (dates : list string) (i : nat) : string :=
  match i with
  | O => ""
  | S j => nth j dates ""
  end.

(** An element the summary test accepts that is a number: a float, or an
    int above 100. *)
Definition summary_number (v : pyval) : bool :=
  match v with
  | VFloat _ => true
  | VInt n => (100 <? n)%Z
  | _ => false
  end.

(** The date of a positive float [t]: the calendar date of [t / 1000]
    when [t] is above 1e10, of [t] otherwise, and empty when the calendar
    conversion fails. *)
Definition date_of_seconds (env : float -> option string) (t : float)
    : string :=
  default ""
    (env (if PrimFloat.ltb 1e10 t then PrimFloat.div t 1000 else t)).

(** The coercion of a number: itself, or the empty marker for a zero. *)
Definition coerced (v : pyval) : pyval := if ne_zero v then v else VStr "".

(** Two records that agree on what the production assignment decides. *)
Definition same_production (a b : CsvRow) : Prop :=
  installation a = installation b /\ type a = type b
  /\ oil_production a = oil_production b
  /\ gas_production a = gas_production b
  /\ oil_equivalents_boe a = oil_equivalents_boe b
  /\ quantity a = quantity b.

(** The assignment rule of the detail branch for a list [pv] of at least
    three production values, as the specification words it: the first
    entry that is an integer in [1, 1000], at position [k], is the
    quantity; two or more entries before it give oil and gas, a single one
    gives gas for a gas type and oil otherwise, the entry after it gives
    BOE; without such an entry the first three are oil, gas and BOE. *)
Definition production_rule (pv : list float) (gas_type : bool) (r : CsvRow)
    : Prop :=
  (forall k val n,
      nth_error pv k = Some val ->
      (1 <= n <= 1000)%Z -> float_is_int val n ->
      Forall (fun w => ~ integer_1_1000 w) (firstn k pv) ->
      quantity r = VInt n
      /\ ((2 <= k)%nat ->
          exists b0 b1,
            nth_error pv 0 = Some b0 /\ nth_error pv 1 = Some b1
            /\ oil_production r = VFloat b0 /\ gas_production r = VFloat b1)
      /\ (k = 1%nat ->
          exists b0,
            nth_error pv 0 = Some b0
            /\ if gas_type
               then gas_production r = VFloat b0 /\ oil_production r = VStr ""
               else oil_production r = VFloat b0 /\ gas_production r = VStr "")
      /\ (forall a, nth_error pv (S k) = Some a ->
                    oil_equivalents_boe r = VFloat a))
  /\ (Forall (fun w => ~ integer_1_1000 w) pv ->
      exists p0 p1 p2,
        firstn 3 pv = [p0; p1; p2]
        /\ oil_production r = VFloat p0 /\ gas_production r = VFloat p1
        /\ oil_equivalents_boe r = VFloat p2 /\ quantity r = VStr "").

(** ** Sample inputs *)

Module Sample.

(** The type name G-a-acute-s, in Latin-1. *)
Definition gas_name : string :=
  String "G" (String (ascii_of_N 225) (String "s" EmptyString)).

Definition dicts : gmap string (list string) :=
  {[ "D0" := ["P-1"; " "]; "D2" := [gas_name; "Oil"] ]}.

(** A detail row whose production values are 120.5, 30.2, 5 and 800.1. *)
Definition detail : list pyval :=
  [VInt 0; VInt 0; VInt 0; VInt 0; VInt 0; VInt 0; VInt 0; VInt 0; VInt 0;
   VFloat 120.5; VStr "30.2"; VInt 5; VStr "800.1"].

Definition summary : list pyval :=
  [VFloat 500.5; VInt 200; VFloat 0; VInt 1000].

Definition small_integers : list pyval :=
  [VInt 5; VInt 3; VInt 2; VInt 1].

Definition stamped_floats : list pyval :=
  [VInt 1700000000000; VFloat 200.5; VFloat 300.5; VFloat 400.5].

Definition stamped : list pyval :=
  [VInt 1700000000000; VInt 5; VNone; VStr "3"].

(** A payload with one page block whose detail group holds [rows]. *)
Definition payload_of (rows : list (list pyval)) : Payload.json_data :=
  let page :=
    {| Payload.DM0 := None;
       Payload.DM1 := Some (map (fun c => {| Payload.C := Some c |}) rows) |} in
  let shape :=
    {| Payload.ValueDicts := Some dicts; Payload.PH := Some [page] |} in
  let body :=
    {| Payload.timestamp := Some "2024-01-01T00:00:00";
       Payload.dsr := Some {| Payload.DS := Some [shape] |} |} in
  {| Payload.results :=
       Some [ {| Payload.result := Some {| Payload.data := Some body |} |} ] |}.

Definition no_results : Payload.json_data := {| Payload.results := Some [] |}.

(** The record of [detail] in the UTC environment. *)
Definition detail_record : CsvRow :=
  Eval vm_compute in
    match map_data_row_to_csv UTC.strftime_utc detail dicts
            "2024-01-01T00:00:00" "" with
    | Ok (Some r) => r
    | _ => initial_row "" ""
    end.

End Sample.

(** ** Vocabulary of the further properties *)

(** A numeric field as the data model has it: the empty marker, or a
    number that is not zero. *)
Definition numeric_field (v : pyval) : Prop :=
  v = VStr "" \/ (isinstance_int_float v = true /\ ne_zero v = true).

(** The text [lookup_text_direct] returns. *)
Definition resolved (value_dicts : gmap string (list string))
    (index : pyval) (dict_key : string) : string :=
  match lookup_text_direct value_dicts index dict_key with
  | Ok s => s
  | Raise _ => ""
  end.

(** The text of a code or status position: resolved when the element is
    an int in [0, 1000), empty otherwise. *)
Definition indexed_text (value_dicts : gmap string (list string))
    (val : pyval) (dict_key : string) : string :=
  match as_int val with
  | Some n =>
      if ((0 <=? n) && (n <? 1000))%Z
      then resolved value_dicts val dict_key else ""
  | None => ""
  end.

(** Two records that differ in code and status at most. *)
Definition same_core (a b : CsvRow) : Prop :=
  scrape_datetime a = scrape_datetime b /\ date a = date b
  /\ installation a = installation b
  /\ oil_production a = oil_production b
  /\ gas_production a = gas_production b
  /\ oil_equivalents_boe a = oil_equivalents_boe b
  /\ operator a = operator b /\ type a = type b /\ estado a = estado b
  /\ city a = city b /\ atendimento_campo a = atendimento_campo b
  /\ campo a = campo b /\ quantity a = quantity b.

(** A production field after the assignment: as before, or one of the
    collected values. *)
Definition assigned_from (pv : list float) (before after : pyval) : Prop :=
  after = before \/ exists p, In p pv /\ after = VFloat p.

(** The final test of the detail branch. *)
Definition accepted (r : CsvRow) : bool :=
  truthy (VStr (installation r))
  && (truthy (oil_production r) || truthy (gas_production r)
      || truthy (oil_equivalents_boe r)).

(** The cells of the line written for a record, in the order of
    [fieldnames]. *)
Definition row_cells (r : CsvRow) : list pyval :=
  map (fun kv => clean_cell (snd kv)) (row_items r).

(** The record the detail branch builds before the production assignment. *)
Definition detail_texts (value_dicts : gmap string (list string))
    (data_row : list pyval) (csv_row : CsvRow) : CsvRow :=
  set_texts csv_row
    (resolved value_dicts (get_value data_row 0) "D0")
    (resolved value_dicts (get_value data_row 1) "D1")
    (resolved value_dicts (get_value data_row 2) "D2")
    (resolved value_dicts (get_value data_row 3) "D3")
    (resolved value_dicts (get_value data_row 4) "D4")
    (resolved value_dicts (get_value data_row 5) "D5")
    (resolved value_dicts (get_value data_row 6) "D6").

(** A row that the branch for timestamped summary rows takes: four
    elements, the summary test before it false, the first element a
    number above 1e12. *)
Definition timestamped_row (data_row : list pyval) : bool :=
  (List.length data_row =? 4)%nat
  && match py_all summary_test data_row with
     | Ok false => true
     | _ => false
     end
  && epoch_ms (get_value data_row 0).

(** The two records a row of four elements can give. *)
Definition summary_record (timestamp row_date : string)
    (oil gas qty boe : pyval) : CsvRow :=
  set_oil_equivalents_boe
    (set_quantity
       (set_gas_production
          (set_oil_production (initial_row timestamp row_date) oil) gas)
       qty) boe.

Definition stamped_record (timestamp row_date d : string)
    (oil gas boe : pyval) : CsvRow :=
  set_oil_equivalents_boe
    (set_gas_production
       (set_oil_production (set_date (initial_row timestamp row_date) d)
          oil) gas) boe.

(** Inputs of whole runs. *)
Module Runs.

Definition timestamp : string := "2024-01-01T00:00:00".

(** A date marker, a detail row and a summary row. *)
Definition marked : list (list pyval) :=
  [[VInt 1700000000000]; Sample.detail; Sample.summary].

Definition unmarked : list (list pyval) := [Sample.detail; Sample.summary].

(** The records of [unmarked] in the UTC environment. *)
Definition records : list CsvRow :=
  Eval vm_compute in
    omap id
      (decode_rows UTC.strftime_utc 0 unmarked Sample.dicts timestamp
         [""; ""] []).

(** The record of [Sample.stamped] in the UTC environment. *)
Definition stamped_row : CsvRow :=
  Eval vm_compute in
    match map_data_row_to_csv UTC.strftime_utc Sample.stamped Sample.dicts
            timestamp "2024-01-01" with
    | Ok (Some r) => r
    | _ => initial_row "" ""
    end.

End Runs.

(** ** Properties *)

Lemma bind_Ok {A B} (a : A) (f : A -> result B) : (Ok a ≫= f) = f a.
Proof. reflexivity. Qed.

Lemma bind_Raise {A B} (e : exn) (f : A -> result B) :
  (Raise e ≫= f) = Raise e.
Proof. reflexivity. Qed.

(** Inversion of [x ≫= f = Ok _]: [x] returned. *)
Ltac bind_inv H :=
  match type of H with
  | (mbind _ ?x) = _ =>
      let E := fresh "E" in
      destruct x eqn:E;
      [rewrite bind_Ok in H | rewrite bind_Raise in H; discriminate H]
  end.

(** Reduction of the record projections and setters only. *)
Ltac fields :=
  cbn [scrape_datetime date installation oil_production gas_production
       oil_equivalents_boe operator type estado city atendimento_campo
       campo quantity code status set_date set_oil_production
       set_gas_production set_oil_equivalents_boe
       set_quantity set_code set_status set_texts initial_row].

Lemma list_getitem_in_range {A} (l : list A) (i : Z) :
  (0 <= i < Z.of_nat (List.length l))%Z ->
  exists x, nth_error l (Z.to_nat i) = Some x /\ list_getitem l i = Ok x.
Proof.
  intros [H0 H1]. unfold list_getitem.
  destruct (Z.ltb_spec i 0) as [Hneg|_]; [lia|].
  destruct (Z.leb_spec 0 i) as [_|Hneg]; [|lia].
  destruct (Z.ltb_spec i (Z.of_nat (List.length l))) as [_|Hge]; [|lia].
  simpl. destruct (nth_error l (Z.to_nat i)) as [x|] eqn:E.
  - exists x. split; reflexivity.
  - apply nth_error_None in E. lia.
Qed.

Lemma truthy_str (s : string) : truthy (VStr s) = true <-> s <> "".
Proof.
  simpl. destruct (String.eqb_spec s ""); simpl; split; intros; congruence.
Qed.

(** C8. [lookup_text_direct] is total: it returns a string for every
    index value and dictionary name and never raises. The string is the
    dictionary's entry only when the name is a known dictionary, the index
    is an integer with [0 <= index < len], and the entry is not blank after
    trimming; in that case the entry is returned, and in every other case
    the result is the empty string. *)
Theorem lookup_text_direct_total
    (value_dicts : gmap string (list string)) (index : pyval)
    (dict_key : string) :
  exists s,
    lookup_text_direct value_dicts index dict_key = Ok s
    /\ (s = ""
        \/ exists i entries,
             as_int index = Some i
             /\ value_dicts !! dict_key = Some entries
             /\ (0 <= i < Z.of_nat (List.length entries))%Z
             /\ nth_error entries (Z.to_nat i) = Some s
             /\ strip s <> "")
    /\ (forall i entries e,
          as_int index = Some i ->
          value_dicts !! dict_key = Some entries ->
          (0 <= i < Z.of_nat (List.length entries))%Z ->
          nth_error entries (Z.to_nat i) = Some e ->
          strip e <> "" ->
          s = e).
Proof.
  unfold lookup_text_direct.
  destruct (value_dicts !! dict_key) as [entries|] eqn:Hd.
  2:{ exists "". rewrite bool_decide_eq_false_2 by (intros [? ?]; discriminate).
      rewrite andb_false_r. split; [reflexivity|]. split; [now left|].
      intros; discriminate. }
  rewrite bool_decide_eq_true_2 by eauto. rewrite andb_true_r.
  destruct (as_int index) as [i|] eqn:Hi.
  2:{ exists "". split; [destruct (negb (is_none index)); reflexivity|].
      split; [now left|]. intros; discriminate. }
  assert (Hnn : negb (is_none index) = true) by (destruct index; simpl in *; congruence).
  rewrite Hnn. unfold dict_getitem. rewrite Hd. rewrite bind_Ok.
  destruct ((0 <=? i)%Z && (i <? Z.of_nat (List.length entries))%Z) eqn:Hr.
  - apply andb_true_iff in Hr. destruct Hr as [H0 H1].
    apply Z.leb_le in H0. apply Z.ltb_lt in H1.
    destruct (list_getitem_in_range entries i (conj H0 H1)) as (x & Hx & Hg).
    rewrite Hg, bind_Ok.
    destruct (truthy (VStr x) && truthy (VStr (strip x))) eqn:Ht.
    + exists x. split; [reflexivity|].
      apply andb_true_iff in Ht. destruct Ht as [_ Ht]. apply truthy_str in Ht.
      split.
      * right. exists i, entries. repeat split; auto.
      * intros i' en' e Hi' Hen' _ Hn _. congruence.
    + exists "". split; [reflexivity|]. split; [now left|].
      intros i' en' e Hi' Hen' _ Hn Hs.
      assert (e = x) by congruence. subst e.
      apply andb_false_iff in Ht. destruct Ht as [Ht|Ht].
      * exfalso. apply Hs. 
        assert (x = "") as ->.
        { destruct (String.eqb_spec x ""); auto. simpl in Ht.
          destruct (String.eqb_spec x ""); simpl in *; congruence. }
        reflexivity.
      * exfalso. simpl in Ht. destruct (String.eqb_spec (strip x) ""); simpl in *; congruence.
  - exists "". split; [reflexivity|]. split; [now left|].
    intros i' en' e Hi' Hen' Hrange _ _. exfalso.
    assert (i' = i) by congruence. assert (en' = entries) by congruence. subst.
    apply andb_false_iff in Hr. destruct Hr as [Hr|Hr].
    + apply Z.leb_gt in Hr. lia.
    + apply Z.ltb_ge in Hr. lia.
Qed.

Lemma lookup_text_direct_ok (value_dicts : gmap string (list string))
    (index : pyval) (dict_key : string) :
  exists s, lookup_text_direct value_dicts index dict_key = Ok s.
Proof.
  unfold lookup_text_direct.
  destruct (negb (is_none index) && bool_decide (is_Some (value_dicts !! dict_key)))
    eqn:Hc; [|eauto].
  apply andb_true_iff in Hc as [_ Hc]. apply bool_decide_eq_true_1 in Hc.
  destruct Hc as [entries Hd].
  destruct (as_int index) as [i|]; [|eauto].
  unfold dict_getitem. rewrite Hd, bind_Ok.
  destruct ((0 <=? i)%Z && (i <? Z.of_nat (List.length entries))%Z) eqn:Hr;
    [|eauto].
  apply andb_true_iff in Hr as [H0 H1].
  apply Z.leb_le in H0. apply Z.ltb_lt in H1.
  unfold list_getitem.
  destruct (Z.ltb_spec i 0); [lia|].
  destruct (Z.leb_spec 0 i); [|lia].
  destruct (Z.ltb_spec i (Z.of_nat (List.length entries))); [|lia].
  cbn [andb].
  destruct (nth_error entries (Z.to_nat i)) as [x|] eqn:E.
  - rewrite bind_Ok. eauto.
  - apply nth_error_None in E. lia.
Qed.


Lemma get_numeric_number (v : pyval) :
  isinstance_int_float v = true ->
  get_numeric v = Ok (if ne_zero v then v else VStr "").
Proof. destruct v; simpl; intros H; try discriminate; reflexivity. Qed.

Lemma get_numeric_result (v r : pyval) :
  get_numeric v = Ok r ->
  r = VStr "" \/ (isinstance_int_float r = true /\ ne_zero r = true).
Proof.
  destruct v; simpl; intros H; try (injection H as <-; now left).
  - destruct b; injection H as <-; [right; split; reflexivity | now left].
  - destruct (negb (n =? 0)%Z) eqn:E; injection H as <-; [right; split; auto | now left].
  - destruct (negb (float_eq_int f 0)) eqn:E; injection H as <-; [right; split; auto | now left].
  - unfold py_float in H.
    destruct (float_of_str (remove_commas s)) as [f|];
      destruct (contains "." (remove_commas s) || contains "e" (lower (remove_commas s)));
      simpl in H; try (injection H as <-; now left).
    + destruct (negb (float_eq_int f 0)) eqn:E; injection H as <-; [right; split; auto | now left].
    + destruct (int_of_float f) as [n|e]; simpl in H.
      * destruct (negb (n =? 0)%Z) eqn:E; injection H as <-; [right; split; auto | now left].
      * destruct e; simpl in H; try discriminate; injection H as <-; now left.
Qed.




Lemma float_is_int_compare (f : float) (n b : Z) :
  float_is_int f n -> float_compare_int f b = Some (n ?= b)%Z.
Proof.
  unfold float_is_int, float_compare_int.
  destruct (Prim2SF f) as [s|s| |s m e]; try discriminate.
  - intros H. destruct n; [reflexivity | discriminate H..].
  - destruct s; discriminate.
  - intros H. injection H as H. f_equal.
    destruct e as [|p|k]; apply Z.compare_eq in H.
    + rewrite <- H. reflexivity.
    + rewrite <- H. reflexivity.
    + rewrite H. symmetry. apply Zmult_compare_compat_r.
      apply Z.lt_gt, Z.pow_pos_nonneg; lia.
Qed.

Lemma float_is_int_trunc (f : float) (n : Z) :
  float_is_int f n -> int_of_float f = Ok n.
Proof.
  unfold float_is_int, float_compare_int, int_of_float.
  destruct (Prim2SF f) as [s|s| |s m e]; try discriminate.
  - intros H. destruct n; [reflexivity | discriminate H..].
  - destruct s; discriminate.
  - intros H. injection H as H. f_equal.
    destruct e as [|p|k]; apply Z.compare_eq in H.
    + rewrite Z.shiftl_0_r. rewrite <- H. destruct s; simpl; lia.
    + rewrite Z.shiftl_mul_pow2 by lia. rewrite <- H. destruct s; lia.
    + rewrite Z.shiftr_div_pow2 by lia.
      assert (Hp : (0 < 2 ^ Z.pos k)%Z) by (apply Z.pow_pos_nonneg; lia).
      destruct s.
      * assert (Hm : (Z.pos m = (- n) * 2 ^ Z.pos k)%Z) by lia.
        rewrite Hm, Z.div_mul by lia. lia.
      * rewrite H, Z.div_mul by lia. reflexivity.
Qed.

Lemma is_quantity_total (val : float) :
  is_quantity val = Ok false
  \/ is_quantity val = Ok true
     /\ exists n, int_of_float val = Ok n /\ float_is_int val n.
Proof.
  unfold is_quantity, py_and. rewrite bind_Ok.
  destruct (float_ge_int val 1 && float_le_int val 1000) eqn:Hr; [|now left].
  apply andb_true_iff in Hr as [Hge Hle].
  assert (Hi : exists n, int_of_float val = Ok n).
  { unfold float_ge_int, float_le_int, float_compare_int in Hge, Hle.
    unfold int_of_float.
    destruct (Prim2SF val) as [s|s| |s m e]; try discriminate; eauto.
    destruct s; discriminate. }
  destruct Hi as [n Hi]. rewrite Hi, bind_Ok.
  destruct (float_eq_int val n) eqn:He; [right|now left].
  split; [reflexivity|]. exists n. split; [reflexivity|].
  unfold float_eq_int in He. unfold float_is_int.
  destruct (float_compare_int val n) as [[]|]; congruence.
Qed.

Lemma is_quantity_true (val : float) :
  is_quantity val = Ok true <-> integer_1_1000 val.
Proof.
  split.
  - intros H. destruct (is_quantity_total val) as [Hf|(_ & n & Hi & Hn)];
      [congruence|].
    exists n. split; [|exact Hn].
    unfold is_quantity, py_and in H. rewrite bind_Ok in H.
    destruct (float_ge_int val 1 && float_le_int val 1000) eqn:Hr;
      [|discriminate].
    apply andb_true_iff in Hr as [Hge Hle].
    unfold float_ge_int in Hge. unfold float_le_int in Hle.
    rewrite (float_is_int_compare val n 1 Hn) in Hge.
    rewrite (float_is_int_compare val n 1000 Hn) in Hle.
    destruct (Z.compare_spec n 1); destruct (Z.compare_spec n 1000);
      try discriminate; lia.
  - intros (n & Hr & Hn). unfold is_quantity, py_and, float_ge_int, float_le_int.
    rewrite (float_is_int_compare val n 1 Hn), (float_is_int_compare val n 1000 Hn).
    rewrite (float_is_int_trunc val n Hn). rewrite !bind_Ok.
    unfold float_eq_int. rewrite Hn.
    destruct (Z.compare_spec n 1); destruct (Z.compare_spec n 1000);
      try reflexivity; lia.
Qed.

Lemma is_quantity_false (val : float) :
  is_quantity val = Ok false <-> ~ integer_1_1000 val.
Proof.
  split.
  - intros H Hq. apply is_quantity_true in Hq. congruence.
  - intros H. destruct (is_quantity_total val) as [Hf|(Ht & _)]; [exact Hf|].
    exfalso. apply H. apply is_quantity_true. exact Ht.
Qed.

Lemma find_quantity_spec (values : list float) :
  forall i,
    (find_quantity i values = Ok None
     /\ Forall (fun v => ~ integer_1_1000 v) values)
    \/ exists k val,
         find_quantity i values = Ok (Some ((i + k)%nat, val))
         /\ nth_error values k = Some val
         /\ integer_1_1000 val
         /\ Forall (fun v => ~ integer_1_1000 v) (firstn k values).
Proof.
  induction values as [|v rest IH]; intros i.
  - left. split; [reflexivity | apply List.Forall_nil].
  - cbn [find_quantity]. unfold py_if.
    destruct (is_quantity_total v) as [Hf|(Ht & _)].
    + rewrite Hf, bind_Ok. apply is_quantity_false in Hf.
      destruct (IH (S i)) as [(Hn & Hall)|(k & val & Hk & Hnth & Hq & Hall)].
      * left. split; [exact Hn | apply List.Forall_cons; assumption].
      * right. exists (S k), val. rewrite Hk.
        replace (i + S k)%nat with (S i + k)%nat by lia.
        split; [reflexivity|]. split; [exact Hnth|]. split; [exact Hq|].
        cbn [firstn]. apply List.Forall_cons; assumption.
    + rewrite Ht, bind_Ok. right. exists 0%nat, v.
      rewrite Nat.add_0_r. split; [reflexivity|]. split; [reflexivity|].
      split; [apply is_quantity_true; exact Ht | apply List.Forall_nil].
Qed.

Lemma skipn_nth_error {A} (l : list A) :
  forall n a, nth_error l n = Some a -> exists t, skipn n l = a :: t.
Proof.
  induction l as [|x l IH]; intros [|n] a H; try discriminate.
  - injection H as <-. eexists; reflexivity.
  - simpl in *. eauto.
Qed.

Lemma Forall_firstn_nth {A} (P : A -> Prop) (l : list A) :
  forall k j a, Forall P (firstn k l) -> (j < k)%nat ->
                nth_error l j = Some a -> P a.
Proof.
  induction l as [|x l IH]; intros k j a Hall Hlt Hn.
  - destruct j; discriminate.
  - destruct k as [|k]; [lia|]. cbn [firstn] in Hall.
    apply Forall_cons_iff in Hall as [Hx Hall].
    destruct j as [|j]; simpl in Hn.
    + injection Hn as <-. exact Hx.
    + apply (IH k j a Hall); [lia | exact Hn].
Qed.

Lemma truthy_nonzero (p : float) : nonzero p -> truthy (VFloat p) = true.
Proof. unfold nonzero. simpl. intros ->. reflexivity. Qed.

Lemma float_is_int_unique (f : float) (n m : Z) :
  float_is_int f n -> float_is_int f m -> n = m.
Proof.
  intros Hn Hm. apply float_is_int_trunc in Hn, Hm. congruence.
Qed.

Lemma assign_production_rule (pv : list float) (csv_row : CsvRow) :
  (3 <= List.length pv)%nat ->
  Forall nonzero pv ->
  oil_production csv_row = VStr "" ->
  gas_production csv_row = VStr "" ->
  oil_equivalents_boe csv_row = VStr "" ->
  quantity csv_row = VStr "" ->
  exists r,
    assign_production pv csv_row = Ok r
    /\ installation r = installation csv_row
    /\ type r = type csv_row
    /\ truthy (oil_production r) || truthy (gas_production r)
       || truthy (oil_equivalents_boe r) = true
    /\ production_rule pv (type_is_gas csv_row) r.
Proof.
  intros Hlen Hnz Hoil Hgas Hboe Hqty.
  destruct pv as [|p0 [|p1 [|p2 rest]]]; try (simpl in Hlen; lia).
  apply Forall_cons_iff in Hnz as [Hz0 Hnz].
  apply Forall_cons_iff in Hnz as [Hz1 Hnz].
  apply Forall_cons_iff in Hnz as [Hz2 Hnz].
  apply truthy_nonzero in Hz0, Hz1, Hz2.
  unfold assign_production.
  replace (3 <=? List.length (p0 :: p1 :: p2 :: rest))%nat with true
    by (symmetry; apply Nat.leb_le; exact Hlen).
  destruct (find_quantity_spec (p0 :: p1 :: p2 :: rest) 0)
    as [(Hfind & Hnone)|(k0 & val0 & Hfind & Hnth0 & Hq0 & Hbefore)].
  - rewrite Hfind, bind_Ok. eexists. split; [reflexivity|].
    split; [reflexivity|]. split; [reflexivity|].
    split; [fields; rewrite Hz0; reflexivity|].
    split.
    + intros k val n Hk Hr Hn _. exfalso.
      apply nth_error_In in Hk.
      rewrite List.Forall_forall in Hnone. apply (Hnone val Hk).
      exists n. split; assumption.
    + intros _. exists p0, p1, p2. fields. rewrite Hqty. repeat split.
  - rewrite Hfind, bind_Ok. cbn [Nat.add].
    destruct Hq0 as (n0 & Hr0 & Hn0).
    rewrite (float_is_int_trunc val0 n0 Hn0), bind_Ok.
    assert (Hfirst : forall k val n,
               nth_error (p0 :: p1 :: p2 :: rest) k = Some val ->
               (1 <= n <= 1000)%Z -> float_is_int val n ->
               Forall (fun w => ~ integer_1_1000 w)
                      (firstn k (p0 :: p1 :: p2 :: rest)) ->
               k = k0 /\ n = n0).
    { intros k val n Hk Hr Hn Hall.
      assert (k = k0).
      { destruct (Nat.lt_trichotomy k k0) as [Hlt|[Heq|Hgt]]; [|exact Heq|].
        - exfalso. apply (Forall_firstn_nth _ _ _ _ _ Hbefore Hlt Hk).
          exists n. split; assumption.
        - exfalso. apply (Forall_firstn_nth _ _ _ _ _ Hall Hgt Hnth0).
          exists n0. split; assumption. }
      subst k. split; [reflexivity|].
      assert (val = val0) by congruence. subst val.
      eapply float_is_int_unique; eassumption. }
    eexists. split; [reflexivity|].
    destruct k0 as [|[|k0]].
    + (* the quantity comes first *)
      cbn [firstn skipn]. split; [reflexivity|]. split; [reflexivity|].
      split; [fields; rewrite Hz1, !orb_true_r; reflexivity|].
      split.
      * intros k val n Hk Hr Hn Hall.
        destruct (Hfirst k val n Hk Hr Hn Hall) as [-> ->].
        split; [reflexivity|]. split; [lia|]. split; [lia|].
        intros a Ha. cbn [nth_error] in Ha. injection Ha as <-. reflexivity.
      * intros Hall. exfalso. apply Forall_cons_iff in Hall as [Hc _].
        cbn [nth_error] in Hnth0. injection Hnth0 as <-. apply Hc.
        exists n0. split; assumption.
    + (* one value before the quantity *)
      cbn [firstn skipn].
      change (type_is_gas (set_quantity csv_row (VInt n0)))
        with (type_is_gas csv_row).
      split; [destruct (type_is_gas csv_row); reflexivity|].
      split; [destruct (type_is_gas csv_row); reflexivity|].
      split; [destruct (type_is_gas csv_row); fields; rewrite Hz0, ?orb_true_r;
              reflexivity|].
      split.
      * intros k val n Hk Hr Hn Hall.
        destruct (Hfirst k val n Hk Hr Hn Hall) as [-> ->].
        split; [destruct (type_is_gas csv_row); reflexivity|].
        split; [lia|]. split.
        -- intros _. exists p0. split; [reflexivity|].
           destruct (type_is_gas csv_row); fields; rewrite ?Hoil, ?Hgas; split; reflexivity.
        -- intros a Ha. cbn [nth_error] in Ha. injection Ha as <-.
           destruct (type_is_gas csv_row); reflexivity.
      * intros Hall. exfalso.
        rewrite List.Forall_forall in Hall.
        apply (Hall val0 (nth_error_In _ _ Hnth0)).
        exists n0. split; assumption.
    + (* at least two values before the quantity *)
      cbn [firstn].
      destruct (skipn (S (S (S k0))) (p0 :: p1 :: p2 :: rest)) as [|a0 t] eqn:Hs.
      * split; [reflexivity|]. split; [reflexivity|].
        split; [fields; rewrite Hz0; reflexivity|].
        split.
        -- intros k val n Hk Hr Hn Hall.
           destruct (Hfirst k val n Hk Hr Hn Hall) as [-> ->].
           split; [reflexivity|]. split.
           ++ intros _. exists p0, p1. repeat split.
           ++ split; [lia|]. intros a Ha.
              destruct (skipn_nth_error _ _ _ Ha) as [t Ht]. congruence.
        -- intros Hall. exfalso.
           rewrite List.Forall_forall in Hall.
           apply (Hall val0 (nth_error_In _ _ Hnth0)).
           exists n0. split; assumption.
      * split; [reflexivity|]. split; [reflexivity|].
        split; [fields; rewrite Hz0; reflexivity|].
        split.
        -- intros k val n Hk Hr Hn Hall.
           destruct (Hfirst k val n Hk Hr Hn Hall) as [-> ->].
           split; [reflexivity|]. split.
           ++ intros _. exists p0, p1. repeat split.
           ++ split; [lia|]. intros a Ha.
              destruct (skipn_nth_error _ _ _ Ha) as [t' Ht].
              assert (a = a0) by congruence. subst a. reflexivity.
        -- intros Hall. exfalso.
           rewrite List.Forall_forall in Hall.
           apply (Hall val0 (nth_error_In _ _ Hnth0)).
           exists n0. split; assumption.
Qed.

Lemma code_status_step_keeps (data_row : list pyval)
    (value_dicts : gmap string (list string)) (csv_row : CsvRow) (i : nat) :
  exists r, code_status_step data_row value_dicts csv_row i = Ok r
            /\ same_production r csv_row.
Proof.
  unfold code_status_step, same_production.
  destruct (as_int (get_value data_row i)) as [n|];
    [|exists csv_row; repeat split].
  destruct ((0 <=? n)%Z && (n <? 1000)%Z); [|exists csv_row; repeat split].
  destruct (i =? 7)%nat; [exists csv_row; repeat split|].
  destruct (i =? 8)%nat.
  { destruct (lookup_text_direct_ok value_dicts (get_value data_row i) "D8")
      as [c Hc]. rewrite Hc, bind_Ok. eexists. split; [reflexivity|].
    repeat split. }
  destruct (i =? 9)%nat; [|exists csv_row; repeat split].
  destruct (lookup_text_direct_ok value_dicts (get_value data_row i) "D9")
    as [c Hc]. rewrite Hc, bind_Ok. eexists. split; [reflexivity|].
  repeat split.
Qed.

Lemma code_status_loop_keeps (data_row : list pyval)
    (value_dicts : gmap string (list string)) (indices : list nat) :
  forall csv_row,
  exists r,
    for_each (code_status_step data_row value_dicts) indices csv_row = Ok r
    /\ same_production r csv_row.
Proof.
  induction indices as [|i rest IH]; intros csv_row.
  - exists csv_row. split; [reflexivity|]. repeat split.
  - cbn [for_each].
    destruct (code_status_step_keeps data_row value_dicts csv_row i)
      as (r1 & H1 & S1).
    rewrite H1, bind_Ok. destruct (IH r1) as (r & Hr & Sr).
    exists r. split; [exact Hr|].
    unfold same_production in *. intuition congruence.
Qed.

Lemma production_values_nonzero (data_row : list pyval) :
  Forall nonzero (production_values data_row).
Proof.
  unfold production_values.
  generalize (seq 6 (List.length data_row - 6)). intros l.
  induction l as [|i l IH]; [apply List.Forall_nil|].
  cbn [omap list_omap].
  destruct (production_value (get_value data_row i)) as [p|] eqn:Hp;
    [|exact IH].
  apply List.Forall_cons; [|exact IH].
  unfold production_value in Hp.
  destruct (isinstance_int_float_str _); [|discriminate].
  destruct (float_of_repr _) as [num|]; [|discriminate].
  destruct (float_eq_int num 0) eqn:Hz; [discriminate|].
  injection Hp as <-. exact Hz.
Qed.

Section Properties.

Variable env : float -> option string.

Lemma convert_falsy (v : pyval) :
  truthy v = false -> convert_timestamp_to_date env v = Ok "".
Proof.
  intros H. unfold convert_timestamp_to_date. rewrite H. reflexivity.
Qed.

Lemma convert_parsed (v : pyval) (t : float) :
  truthy v = true ->
  py_float v = Ok t ->
  convert_timestamp_to_date env v
  = Ok (if float_le_int t 0 then "" else date_of_seconds env t).
Proof.
  intros Ht Hf. unfold convert_timestamp_to_date. rewrite Ht.
  cbn [negb].
  assert (Hp : (match v with
                | VStr s =>
                    match float_of_str s with
                    | Some f => Ok (inl f)
                    | None =>
                        if (10 <=? String.length s)%nat && contains "-" s
                        then Ok (inr (str_prefix 10 s)) else Ok (inr "")
                    end
                | _ => py_float v ≫= fun f => Ok (inl f)
                end) = (Ok (inl t) : result (float + string))).
  { destruct v; try (rewrite Hf; reflexivity).
    simpl in Hf. destruct (float_of_str s); [congruence | discriminate]. }
  rewrite Hp, bind_Ok.
  destruct (float_le_int t 0); [reflexivity|].
  unfold date_of_seconds, fromtimestamp_strftime.
  destruct (env _); reflexivity.
Qed.

Lemma convert_unparsed (s : string) :
  float_of_str s = None ->
  truthy (VStr s) = true ->
  convert_timestamp_to_date env (VStr s)
  = Ok (if (10 <=? String.length s)%nat && contains "-" s
        then str_prefix 10 s else "").
Proof.
  intros Hs Ht. unfold convert_timestamp_to_date. rewrite Ht, Hs.
  cbn [negb].
  destruct ((10 <=? String.length s)%nat && contains "-" s); reflexivity.
Qed.

Lemma py_float_number (v : pyval) :
  isinstance_int_float v = true ->
  (exists t, py_float v = Ok t) \/ py_float v = Raise OverflowError.
Proof.
  destruct v; simpl; intros H; try discriminate; eauto.
  unfold float_of_int. destruct (is_infinity (round_Z n)); eauto.
Qed.

Lemma convert_returns (v : pyval) :
  isinstance_int_float_str v = true ->
  exists d, convert_timestamp_to_date env v = Ok d.
Proof.
  intros Hv.
  destruct (truthy v) eqn:Ht; [|exists ""; apply convert_falsy; exact Ht].
  destruct v; simpl in Hv; try discriminate.
  - destruct (py_float_number (VBool b) eq_refl) as [[t Hf]|Hf];
      [|discriminate].
    rewrite (convert_parsed _ t Ht Hf). eauto.
  - destruct (py_float_number (VInt n) eq_refl) as [[t Hf]|Hf].
    + rewrite (convert_parsed _ t Ht Hf). eauto.
    + unfold convert_timestamp_to_date. rewrite Ht, Hf. simpl. eauto.
  - rewrite (convert_parsed (VFloat f) f Ht eq_refl). eauto.
  - destruct (float_of_str s) as [t|] eqn:Hs.
    + assert (Hf : py_float (VStr s) = Ok t)
        by (simpl; rewrite Hs; reflexivity).
      rewrite (convert_parsed _ t Ht Hf). eauto.
    + rewrite (convert_unparsed s Hs Ht). eauto.
Qed.

Lemma convert_number (v : pyval) :
  isinstance_int_float v = true ->
  exists d, convert_timestamp_to_date env v = Ok d.
Proof.
  intros H. apply convert_returns. unfold isinstance_int_float_str.
  unfold isinstance_int_float in H. rewrite H. reflexivity.
Qed.

(** C10. [convert_timestamp_to_date] returns a string on every str, int
    and float and never raises. A falsy input, a number whose float value
    is not positive, and a string that neither parses as a float nor is at
    least 10 characters long with a hyphen give the empty string. A
    positive value above 1e10 is divided by 1000 before the calendar
    conversion (epoch milliseconds), a positive value up to 1e10 is
    converted as it is (epoch seconds); the result is empty when the
    calendar conversion fails. A string that does not parse as a float,
    is at least 10 characters long and contains a hyphen gives its first
    10 characters. *)
Theorem convert_timestamp_to_date_total (v : pyval) :
  isinstance_int_float_str v = true ->
  (exists d, convert_timestamp_to_date env v = Ok d)
  /\ (truthy v = false -> convert_timestamp_to_date env v = Ok "")
  /\ (forall t, py_float v = Ok t -> float_le_int t 0 = true ->
        convert_timestamp_to_date env v = Ok "")
  /\ (forall t, truthy v = true -> py_float v = Ok t ->
        float_le_int t 0 = false -> PrimFloat.ltb 1e10 t = true ->
        convert_timestamp_to_date env v
        = Ok (default "" (env (PrimFloat.div t 1000))))
  /\ (forall t, truthy v = true -> py_float v = Ok t ->
        float_le_int t 0 = false -> PrimFloat.ltb 1e10 t = false ->
        convert_timestamp_to_date env v = Ok (default "" (env t)))
  /\ (forall s, v = VStr s -> float_of_str s = None ->
        (10 <= String.length s)%nat -> contains "-" s = true ->
        convert_timestamp_to_date env v = Ok (str_prefix 10 s))
  /\ (forall s, v = VStr s -> float_of_str s = None ->
        ((String.length s < 10)%nat \/ contains "-" s = false) ->
        convert_timestamp_to_date env v = Ok "").
Proof.
  intros Hv.
  split; [exact (convert_returns v Hv)|].
  split; [exact (convert_falsy v)|].
  split; [|split; [|split; [|split]]].
  - intros t Hf Hle. destruct (truthy v) eqn:Ht; [|apply convert_falsy, Ht].
    rewrite (convert_parsed _ t Ht Hf), Hle. reflexivity.
  - intros t Ht Hf Hle Hms. rewrite (convert_parsed _ t Ht Hf), Hle.
    unfold date_of_seconds. rewrite Hms. reflexivity.
  - intros t Ht Hf Hle Hms. rewrite (convert_parsed _ t Ht Hf), Hle.
    unfold date_of_seconds. rewrite Hms. reflexivity.
  - intros s -> Hs Hlen Hc.
    assert (Ht : truthy (VStr s) = true).
    { simpl. destruct s; [simpl in Hlen; lia | reflexivity]. }
    rewrite (convert_unparsed s Hs Ht), Hc.
    destruct (Nat.leb_spec 10 (String.length s)); [reflexivity | lia].
  - intros s -> Hs Hno.
    destruct (truthy (VStr s)) eqn:Ht; [|apply convert_falsy, Ht].
    rewrite (convert_unparsed s Hs Ht).
    destruct Hno as [Hlen|Hc].
    + destruct (Nat.leb_spec 10 (String.length s)); [lia | reflexivity].
    + rewrite Hc, andb_false_r. reflexivity.
Qed.

Lemma is_epoch_ms_ok (v : pyval) : is_epoch_ms v = Ok (epoch_ms v).
Proof. destruct v; reflexivity. Qed.

Lemma epoch_ms_number (v : pyval) :
  epoch_ms v = true -> isinstance_int_float v = true.
Proof. destruct v; simpl; intros H; try discriminate; reflexivity. Qed.

Lemma next_date_spec (current_date : string) (row_data : list pyval) :
  match date_trigger row_data with
  | Some v => exists d, convert_timestamp_to_date env v = Ok d
                        /\ next_date env current_date row_data = Ok d
  | None => next_date env current_date row_data = Ok current_date
  end.
Proof.
  unfold date_trigger, next_date.
  destruct row_data as [|v rest]; [vm_compute; reflexivity|].
  assert (Hg : list_getitem (v :: rest) 0 = Ok v) by reflexivity.
  rewrite Hg, !bind_Ok, is_epoch_ms_ok.
  set (c1 := (List.length (v :: rest) =? 1)%nat).
  set (c2 := (4 <=? List.length (v :: rest))%nat).
  clearbody c1 c2.
  destruct (epoch_ms v) eqn:He.
  - destruct (convert_number v (epoch_ms_number v He)) as [d Hd].
    destruct c1, c2; simpl; try (exists d; rewrite Hd; auto); reflexivity.
  - destruct c1, c2; reflexivity.
Qed.

Lemma date_loop_scan (data_rows : list (list pyval)) :
  forall (current_date : string) (acc : list string),
  exists last ds,
    for_each (date_step env) data_rows (current_date, acc) = Ok (last, acc ++ ds)
    /\ List.length ds = List.length data_rows
    /\ forall i row,
         nth_error data_rows i = Some row ->
         exists d,
           nth_error ds i = Some d
           /\ match date_trigger row with
              | Some v => convert_timestamp_to_date env v = Ok d
              | None => d = match i with
                            | O => current_date
                            | S j => nth j ds ""
                            end
              end.
Proof.
  induction data_rows as [|row rest IH]; intros current_date acc.
  - exists current_date, []. simpl. rewrite app_nil_r. repeat split.
    intros [|i] r H; discriminate.
  - assert (Hstep : exists d0,
               next_date env current_date row = Ok d0
               /\ match date_trigger row with
                  | Some v => convert_timestamp_to_date env v = Ok d0
                  | None => d0 = current_date
                  end).
    { pose proof (next_date_spec current_date row) as H.
      destruct (date_trigger row).
      - destruct H as (d & Hd & Hn). eauto.
      - eauto. }
    destruct Hstep as (d0 & Hn & Hd0).
    destruct (IH d0 (acc ++ [d0])) as (last & ds & Hloop & Hlen & Hscan).
    exists last, (d0 :: ds). split; [|split].
    + change (for_each (date_step env) (row :: rest) (current_date, acc))
        with (date_step env (current_date, acc) row
                ≫= for_each (date_step env) rest).
      assert (Hs : date_step env (current_date, acc) row = Ok (d0, acc ++ [d0])).
      { unfold date_step. cbn [fst snd]. rewrite Hn. reflexivity. }
      rewrite Hs, bind_Ok.
      rewrite Hloop, <- app_assoc. reflexivity.
    + simpl. congruence.
    + intros [|i] r Hr; simpl in Hr.
      * injection Hr as <-. exists d0. split; [reflexivity|exact Hd0].
      * destruct (Hscan i r Hr) as (d & Hd & Hm). exists d. split; [exact Hd|].
        destruct (date_trigger r); [exact Hm|].
        destruct i as [|j]; simpl; exact Hm.
Qed.

Lemma assign_dates_scan (data_rows : list (list pyval)) :
  exists dates,
    assign_dates env data_rows = Ok dates
    /\ List.length dates = List.length data_rows
    /\ forall i row,
         nth_error data_rows i = Some row ->
         exists d,
           nth_error dates i = Some d
           /\ match date_trigger row with
              | Some v => convert_timestamp_to_date env v = Ok d
              | None => d = previous_date dates i
              end.
Proof.
  destruct (date_loop_scan data_rows "" []) as (last & ds & Hloop & Hlen & Hscan).
  exists ds. unfold assign_dates. rewrite Hloop. simpl. repeat split; auto.
Qed.

(** C4, as the code has it. The extractor raises [ValueError] or returns
    one date per row vector, and the dates are those of a forward scan
    from the empty string: a row vector of length 1 or of length at least
    4 whose first element is a number above 1e12 gets the converted date
    of that element, and every other row gets the date of the row before
    it (the empty string for the first row). *)
Theorem extract_dates_forward_scan (json_data : Payload.json_data) :
  match extract_data_from_json env json_data with
  | Raise e => e = ValueError
  | Ok (data_rows, _, _, row_date_assignments) =>
      List.length row_date_assignments = List.length data_rows
      /\ forall i row,
           nth_error data_rows i = Some row ->
           exists d,
             nth_error row_date_assignments i = Some d
             /\ match date_trigger row with
                | Some v => convert_timestamp_to_date env v = Ok d
                | None => d = previous_date row_date_assignments i
                end
  end.
Proof.
  unfold extract_data_from_json.
  destruct (default [] (Payload.results json_data)) as [|first ?]; [reflexivity|].
  destruct (ds_list_of (result_data_of first)) as [|ds0 ?]; [reflexivity|].
  destruct (assign_dates_scan (collect_rows (default [] (Payload.PH ds0))))
    as (dates & Ha & Hlen & Hscan).
  rewrite Ha. simpl. split; assumption.
Qed.

(** C6. On a payload whose results list is missing or empty, or whose
    first result has a missing or empty DS list, the extractor raises
    [ValueError]; [process_json_to_csv] raises it again without opening
    the output file, and the run ends with exit status 1. *)
Theorem structural_error_aborts (json_data : Payload.json_data)
    (output : option file) :
  (default [] (Payload.results json_data) = []
   \/ exists first rest,
        Payload.results json_data = Some (first :: rest)
        /\ ds_list_of (result_data_of first) = []) ->
  extract_data_from_json env json_data = Raise ValueError
  /\ process_json_to_csv env json_data output = (output, Raise ValueError)
  /\ run env json_data output = (output, 1%Z).
Proof.
  intros H.
  assert (He : extract_data_from_json env json_data = Raise ValueError).
  { unfold extract_data_from_json. destruct H as [H|(first & rest & Hr & Hd)].
    - rewrite H. reflexivity.
    - rewrite Hr. simpl. rewrite Hd. reflexivity. }
  split; [exact He|].
  assert (Hp : process_json_to_csv env json_data output = (output, Raise ValueError)).
  { unfold process_json_to_csv. rewrite He. reflexivity. }
  split; [exact Hp|]. unfold run. rewrite Hp. reflexivity.
Qed.
Lemma summary_number_test (v : pyval) :
  summary_number v = true -> summary_test v = Ok true.
Proof.
  destruct v; simpl; intros H; try discriminate; [|reflexivity].
  unfold summary_test. simpl. rewrite H. reflexivity.
Qed.

Lemma summary_number_numeric (v : pyval) :
  summary_number v = true -> get_numeric v = Ok (coerced v).
Proof. destruct v; simpl; intros H; try discriminate; reflexivity. Qed.

Lemma coerced_not_zero (v : pyval) : coerced v = VStr "" \/ ne_zero (coerced v) = true.
Proof. unfold coerced. destruct (ne_zero v) eqn:E; auto. Qed.

Lemma map_summary (v0 v1 v2 v3 : pyval)
    (value_dicts : gmap string (list string)) (timestamp row_date : string) :
  py_all summary_test [v0; v1; v2; v3] = Ok true ->
  map_data_row_to_csv env [v0; v1; v2; v3] value_dicts timestamp row_date
  = (oil ← get_numeric v0; gas ← get_numeric v1;
     qty ← get_numeric v2; boe ← get_numeric v3;
     Ok (Some (set_oil_equivalents_boe
                 (set_quantity
                    (set_gas_production
                       (set_oil_production (initial_row timestamp row_date) oil)
                       gas) qty) boe))).
Proof.
  intros H. unfold map_data_row_to_csv. cbn [List.length Nat.eqb].
  unfold py_if, py_and at 1. rewrite bind_Ok, H, bind_Ok. reflexivity.
Qed.

Lemma map_timestamped (v0 v1 v2 v3 : pyval)
    (value_dicts : gmap string (list string)) (timestamp row_date : string) :
  py_all summary_test [v0; v1; v2; v3] = Ok false ->
  is_epoch_ms v0 = Ok true ->
  map_data_row_to_csv env [v0; v1; v2; v3] value_dicts timestamp row_date
  = (d ← convert_timestamp_to_date env v0;
     oil ← get_numeric v1; gas ← get_numeric v2; boe ← get_numeric v3;
     Ok (Some (set_oil_equivalents_boe
                 (set_gas_production
                    (set_oil_production
                       (set_date (initial_row timestamp row_date) d) oil)
                    gas) boe))).
Proof.
  intros H He. unfold map_data_row_to_csv. cbn [List.length Nat.eqb].
  unfold py_if, py_and at 1. rewrite bind_Ok, H, bind_Ok.
  cbn [get_value nth_error]. rewrite He, bind_Ok. reflexivity.
Qed.

(** C3, as the code has it. For every row vector of length 4 whose
    elements are each a float or an int above 100, the decoder returns a
    record whose oil_production, gas_production, quantity and
    oil_equivalents_boe are the coerced values of elements 0, 1, 2 and 3,
    a zero giving the empty marker, and whose date is the date passed
    in. *)
Theorem summary_row_fields (data_row : list pyval)
    (value_dicts : gmap string (list string)) (timestamp row_date : string) :
  List.length data_row = 4%nat ->
  Forall (fun v => summary_number v = true) data_row ->
  exists v0 v1 v2 v3 r,
    data_row = [v0; v1; v2; v3]
    /\ map_data_row_to_csv env data_row value_dicts timestamp row_date
       = Ok (Some r)
    /\ get_numeric v0 = Ok (oil_production r)
    /\ get_numeric v1 = Ok (gas_production r)
    /\ get_numeric v2 = Ok (quantity r)
    /\ get_numeric v3 = Ok (oil_equivalents_boe r)
    /\ date r = row_date
    /\ Forall (fun x => x = VStr "" \/ ne_zero x = true)
         [oil_production r; gas_production r; quantity r;
          oil_equivalents_boe r].
Proof.
  intros Hlen Hall.
  destruct data_row as [|v0 [|v1 [|v2 [|v3 [|? ?]]]]]; try discriminate.
  apply Forall_cons_iff in Hall as [H0 Hall].
  apply Forall_cons_iff in Hall as [H1 Hall].
  apply Forall_cons_iff in Hall as [H2 Hall].
  apply Forall_cons_iff in Hall as [H3 _].
  assert (Hsum : py_all summary_test [v0; v1; v2; v3] = Ok true).
  { simpl. rewrite !summary_number_test by assumption. reflexivity. }
  eexists v0, v1, v2, v3, _. split; [reflexivity|]. split.
  { rewrite (map_summary _ _ _ _ _ _ _ Hsum).
    rewrite !summary_number_numeric by assumption. rewrite !bind_Ok. reflexivity. }
  cbn [oil_production gas_production quantity oil_equivalents_boe date
       set_oil_equivalents_boe set_quantity set_gas_production
       set_oil_production initial_row].
  rewrite !summary_number_numeric by assumption.
  repeat split; auto.
  repeat (apply List.Forall_cons; [apply coerced_not_zero|]).
  apply List.Forall_nil.
Qed.

(** The branch for timestamped summary rows, when a row reaches it. For
    every row vector of length 4 whose first element is a number above
    1e12, that the summary test before it does not take (the test of all
    four elements is false), and whose elements 1 to 3 coerce, the decoder
    returns a record whose date is the converted date of element 0, whose
    oil_production, gas_production and oil_equivalents_boe are the coerced
    elements 1, 2 and 3, and whose quantity is empty. *)
Theorem timestamped_summary_fields (v0 v1 v2 v3 oil gas boe : pyval)
    (value_dicts : gmap string (list string)) (timestamp row_date : string) :
  is_epoch_ms v0 = Ok true ->
  py_all summary_test [v0; v1; v2; v3] = Ok false ->
  get_numeric v1 = Ok oil ->
  get_numeric v2 = Ok gas ->
  get_numeric v3 = Ok boe ->
  exists d r,
    convert_timestamp_to_date env v0 = Ok d
    /\ map_data_row_to_csv env [v0; v1; v2; v3] value_dicts timestamp row_date
       = Ok (Some r)
    /\ date r = d
    /\ oil_production r = oil
    /\ gas_production r = gas
    /\ oil_equivalents_boe r = boe
    /\ quantity r = VStr "".
Proof.
  intros He Hsum H1 H2 H3.
  destruct (convert_number v0) as [d Hd].
  { destruct v0; simpl in He; try discriminate; reflexivity. }
  eexists d, _. split; [exact Hd|]. split.
  { rewrite (map_timestamped _ _ _ _ _ _ _ Hsum He).
    rewrite Hd, H1, H2, H3, !bind_Ok. reflexivity. }
  repeat split.
Qed.

Lemma float_gt_not_zero (f : float) :
  float_gt_int f 1000000000000 = true -> float_eq_int f 0 = false.
Proof.
  unfold float_gt_int, float_eq_int, float_compare_int.
  destruct (Prim2SF f) as [sg|sg| |sg m e]; try discriminate.
  - destruct sg; [discriminate | reflexivity].
  - destruct e as [|p|k].
    + destruct ((if sg then Z.neg m else Z.pos m) * 2 ^ 0
                ?= 1000000000000)%Z eqn:E; try discriminate.
      intros _. apply Z.compare_gt_iff in E.
      destruct ((if sg then Z.neg m else Z.pos m) * 2 ^ 0 ?= 0)%Z eqn:E0;
        try reflexivity.
      apply Z.compare_eq in E0. lia.
    + destruct ((if sg then Z.neg m else Z.pos m) * 2 ^ Z.pos p
                ?= 1000000000000)%Z eqn:E; try discriminate.
      intros _. apply Z.compare_gt_iff in E.
      destruct ((if sg then Z.neg m else Z.pos m) * 2 ^ Z.pos p ?= 0)%Z
        eqn:E0; try reflexivity.
      apply Z.compare_eq in E0. lia.
    + destruct ((if sg then Z.neg m else Z.pos m)
                ?= 1000000000000 * 2 ^ Z.pos k)%Z eqn:E; try discriminate.
      intros _. apply Z.compare_gt_iff in E.
      assert (Hp : (0 < 2 ^ Z.pos k)%Z) by (apply Z.pow_pos_nonneg; lia).
      destruct ((if sg then Z.neg m else Z.pos m) ?= 0 * 2 ^ Z.pos k)%Z
        eqn:E0; try reflexivity.
      apply Z.compare_eq in E0. nia.
Qed.

(** A number above 1e12 passes the summary test and coerces to itself. *)
Lemma epoch_ms_summary_number (v : pyval) :
  is_epoch_ms v = Ok true -> summary_number v = true /\ coerced v = v.
Proof.
  destruct v as [|b|n|f|s|l|d]; cbn; intros H; try discriminate.
  - destruct b; discriminate.
  - injection H as H. apply Z.ltb_lt in H. split.
    + apply Z.ltb_lt. lia.
    + unfold coerced. cbn. destruct (Z.eqb_spec n 0); [lia | reflexivity].
  - injection H as H. split; [reflexivity|].
    unfold coerced. cbn. rewrite (float_gt_not_zero f H). reflexivity.
Qed.

(** The summary test is false on an int not above 100 (a bool is one)
    and on nothing else. *)
Lemma summary_test_false (v : pyval) :
  summary_test v = Ok false ->
  exists n, as_int v = Some n /\ (n <= 100)%Z.
Proof.
  destruct v as [|b|n|f|s|l|d]; cbn; intros H; try discriminate.
  - exists (Z.b2z b). split; [reflexivity|]. destruct b; cbn; lia.
  - injection H as H. apply Z.ltb_ge in H. exists n. split; [reflexivity|].
    exact H.
Qed.

(** C2, where the code departs from it. A row vector of length 4 whose
    first element is a number above 1e12 and whose elements 1 to 3 are
    floats or ints above 100 never reaches the branch written for
    timestamped summary rows: the summary test before it accepts the
    timestamp too, so the record carries the timestamp as oil_production,
    elements 1, 2 and 3 as gas_production, quantity and
    oil_equivalents_boe, and the date passed in, not the converted one.
    The timestamped branch is reached only when one of elements 1 to 3 is
    an int not above 100 or a bool. *)
Theorem timestamped_row_shadowed (v0 v1 v2 v3 : pyval)
    (value_dicts : gmap string (list string)) (timestamp row_date : string) :
  is_epoch_ms v0 = Ok true ->
  (Forall (fun v => summary_number v = true) [v1; v2; v3] ->
   exists r,
     map_data_row_to_csv env [v0; v1; v2; v3] value_dicts timestamp row_date
     = Ok (Some r)
     /\ date r = row_date
     /\ oil_production r = v0
     /\ gas_production r = coerced v1
     /\ quantity r = coerced v2
     /\ oil_equivalents_boe r = coerced v3)
  /\ (py_all summary_test [v0; v1; v2; v3] = Ok false ->
      Exists (fun v => exists n, as_int v = Some n /\ (n <= 100)%Z)
        [v1; v2; v3]).
Proof.
  intros He. destruct (epoch_ms_summary_number v0 He) as [H0 Hc0].
  pose proof (summary_number_test v0 H0) as Ht0.
  split.
  - intros Hall.
    apply Forall_cons_iff in Hall as [H1 Hall].
    apply Forall_cons_iff in Hall as [H2 Hall].
    apply Forall_cons_iff in Hall as [H3 _].
    assert (Hsum : py_all summary_test [v0; v1; v2; v3] = Ok true).
    { cbn [py_all]. rewrite !summary_number_test by assumption.
      reflexivity. }
    eexists. split.
    { rewrite (map_summary _ _ _ _ _ _ _ Hsum).
      rewrite !summary_number_numeric by assumption.
      rewrite !bind_Ok. reflexivity. }
    cbn [oil_production gas_production quantity oil_equivalents_boe date
         set_oil_equivalents_boe set_quantity set_gas_production
         set_oil_production initial_row].
    split; [reflexivity|]. split; [exact Hc0|].
    split; [reflexivity|]. split; reflexivity.
  - cbn [py_all]. rewrite Ht0, bind_Ok. intros H.
    destruct (summary_test v1) as [[|]|e1] eqn:E1;
      [rewrite bind_Ok in H
      | apply Exists_cons_hd, summary_test_false, E1
      | rewrite bind_Raise in H; discriminate H].
    apply Exists_cons_tl.
    destruct (summary_test v2) as [[|]|e2] eqn:E2;
      [rewrite bind_Ok in H
      | apply Exists_cons_hd, summary_test_false, E2
      | rewrite bind_Raise in H; discriminate H].
    apply Exists_cons_tl.
    destruct (summary_test v3) as [[|]|e3] eqn:E3;
      [rewrite bind_Ok in H; discriminate H
      | apply Exists_cons_hd, summary_test_false, E3
      | rewrite bind_Raise in H; discriminate H].
Qed.

(** C9, at its failing input. The row of the string ["Infinity"] and three
    floats passes the summary test, but coercing the string converts an
    infinite float to an int: [OverflowError], which the coercion does not
    catch. The decoder raises it, and the decode loop skips the row. *)
Theorem summary_row_infinity_raises
    (value_dicts : gmap string (list string)) (timestamp row_date : string) :
  py_all summary_test
    [VStr "Infinity"; VFloat 150.5; VFloat 200.5; VFloat 300.5] = Ok true
  /\ float_of_str "Infinity" = Some infinity
  /\ get_numeric (VStr "Infinity") = Raise OverflowError
  /\ map_data_row_to_csv env
       [VStr "Infinity"; VFloat 150.5; VFloat 200.5; VFloat 300.5]
       value_dicts timestamp row_date = Raise OverflowError
  /\ decode_rows env 0
       [[VStr "Infinity"; VFloat 150.5; VFloat 200.5; VFloat 300.5]]
       value_dicts timestamp [row_date] [] = [].
Proof.
  assert (Hn : get_numeric (VStr "Infinity") = Raise OverflowError)
    by (vm_compute; reflexivity).
  assert (Hs : py_all summary_test
            [VStr "Infinity"; VFloat 150.5; VFloat 200.5; VFloat 300.5]
          = Ok true) by reflexivity.
  assert (Hm : map_data_row_to_csv env
       [VStr "Infinity"; VFloat 150.5; VFloat 200.5; VFloat 300.5]
       value_dicts timestamp row_date = Raise OverflowError).
  { rewrite (map_summary _ _ _ _ _ _ _ Hs), Hn. reflexivity. }
  split; [exact Hs|]. split; [vm_compute; reflexivity|].
  split; [exact Hn|]. split; [exact Hm|].
  cbn [decode_rows]. 
  assert (Hg : list_getitem [row_date] (Z.of_nat 0) = Ok row_date) by reflexivity.
  rewrite Hg, bind_Ok, Hm. reflexivity.
Qed.

Lemma detail_row_accepts (data_row : list pyval)
    (value_dicts : gmap string (list string)) (csv_row r : CsvRow) :
  detail_row data_row value_dicts csv_row = Ok (Some r) ->
  installation r <> ""
  /\ (nonempty (oil_production r) \/ nonempty (gas_production r)
      \/ nonempty (oil_equivalents_boe r)).
Proof.
  unfold detail_row. intros H.
  destruct (as_int (get_value data_row 0)) as [idx|]; [|discriminate].
  destruct (idx <? 0)%Z; [discriminate|].
  do 7 bind_inv H.
  destruct (negb _); [discriminate|].
  do 2 bind_inv H.
  match type of H with
  | Ok (if ?c then _ else _) = _ => destruct c eqn:Hc; [|discriminate]
  end.
  injection H as ->.
  apply andb_true_iff in Hc as [Hi Hp].
  split.
  - simpl in Hi. destruct (String.eqb_spec (installation r) "");
      [discriminate|assumption].
  - assert (Ht : forall v, truthy v = true -> nonempty v).
    { intros v Hv ->. discriminate. }
    apply orb_true_iff in Hp as [Hp|Hp]; [apply orb_true_iff in Hp as [Hp|Hp]|]; auto.
Qed.

Lemma map_accepts (data_row : list pyval)
    (value_dicts : gmap string (list string)) (timestamp row_date : string)
    (r : CsvRow) :
  map_data_row_to_csv env data_row value_dicts timestamp row_date
  = Ok (Some r) ->
  (List.length data_row = 4%nat /\ installation r = "")
  \/ (9 <= List.length data_row)%nat
     /\ installation r <> ""
     /\ (nonempty (oil_production r) \/ nonempty (gas_production r)
         \/ nonempty (oil_equivalents_boe r)).
Proof.
  unfold map_data_row_to_csv. intros H.
  destruct (List.length data_row =? 0)%nat; [discriminate|].
  destruct (List.length data_row =? 1)%nat; [discriminate|].
  unfold py_if at 1 in H. bind_inv H. destruct a.
  - left. unfold py_and in E. rewrite bind_Ok in E.
    destruct (Nat.eqb_spec (List.length data_row) 4); [|discriminate].
    split; [assumption|].
    do 4 bind_inv H. injection H as <-. reflexivity.
  - clear E. unfold py_if at 1 in H. bind_inv H. destruct a.
    + destruct (Nat.eqb_spec (List.length data_row) 4); [|discriminate].
      left. split; [assumption|].
      do 4 bind_inv H. injection H as <-. reflexivity.
    + destruct (Nat.leb_spec 9 (List.length data_row)); [|discriminate].
      right. split; [assumption|]. eapply detail_row_accepts; eassumption.
Qed.

Lemma decode_rows_from (data_rows : list (list pyval))
    (value_dicts : gmap string (list string)) (timestamp : string)
    (row_date_assignments : list string) (r : CsvRow) :
  forall (i : nat) (csv_data : list (option CsvRow)),
    In (Some r)
       (decode_rows env i data_rows value_dicts timestamp
          row_date_assignments csv_data) ->
    In (Some r) csv_data
    \/ exists data_row row_date,
         In data_row data_rows
         /\ map_data_row_to_csv env data_row value_dicts timestamp row_date
            = Ok (Some r).
Proof.
  induction data_rows as [|data_row rest IH]; intros i csv_data H.
  - left. exact H.
  - cbn [decode_rows] in H. apply IH in H. destruct H as [H|H].
    + destruct (list_getitem row_date_assignments (Z.of_nat i)) as [row_date|e];
        [rewrite bind_Ok in H | rewrite bind_Raise in H; now left].
      destruct (map_data_row_to_csv env data_row value_dicts timestamp row_date)
        as [o|e] eqn:Hm; [|now left].
      apply in_app_or in H. destruct H as [H|H]; [now left|].
      destruct H as [H|[]]. subst o. right.
      exists data_row, row_date. split; [now left | exact Hm].
    + right. destruct H as (dr & rd & Hin & Hm).
      exists dr, rd. split; [now right | exact Hm].
Qed.

(** C1, as the code has it. Every record in the list the decode loop
    passes to the writer comes from a row vector of length 4 (a summary
    row, whose record has an empty installation) or from a row vector of
    length at least 9, and then has a non-empty installation and at least
    one of oil_production, gas_production and oil_equivalents_boe
    non-empty. *)
Theorem emitted_records_invariant (data_rows : list (list pyval))
    (value_dicts : gmap string (list string)) (timestamp : string)
    (row_date_assignments : list string) (r : CsvRow) :
  In (Some r)
     (decode_rows env 0 data_rows value_dicts timestamp
        row_date_assignments []) ->
  exists data_row,
    In data_row data_rows
    /\ ((List.length data_row = 4%nat /\ installation r = "")
        \/ (9 <= List.length data_row)%nat
           /\ installation r <> ""
           /\ (nonempty (oil_production r) \/ nonempty (gas_production r)
               \/ nonempty (oil_equivalents_boe r))).
Proof.
  intros H. apply decode_rows_from in H. destruct H as [[]|H].
  destruct H as (data_row & row_date & Hin & Hm).
  exists data_row. split; [exact Hin|]. eapply map_accepts; eassumption.
Qed.

Lemma map_detail (data_row : list pyval)
    (value_dicts : gmap string (list string)) (timestamp row_date : string) :
  (9 <= List.length data_row)%nat ->
  is_epoch_ms (get_value data_row 0) = Ok false ->
  map_data_row_to_csv env data_row value_dicts timestamp row_date
  = detail_row data_row value_dicts (initial_row timestamp row_date).
Proof.
  intros Hlen He. unfold map_data_row_to_csv.
  destruct (Nat.eqb_spec (List.length data_row) 0); [lia|].
  destruct (Nat.eqb_spec (List.length data_row) 1); [lia|].
  destruct (Nat.eqb_spec (List.length data_row) 4); [lia|].
  destruct (Nat.leb_spec 9 (List.length data_row)); [|lia].
  unfold py_if, py_and. rewrite !bind_Ok, He, bind_Ok. reflexivity.
Qed.

Lemma detail_row_assigns (data_row : list pyval)
    (value_dicts : gmap string (list string)) (timestamp row_date : string)
    (idx : Z) (inst : string) :
  (9 <= List.length data_row)%nat ->
  as_int (get_value data_row 0) = Some idx ->
  (0 <= idx <= 1000000000000)%Z ->
  lookup_text_direct value_dicts (get_value data_row 0) "D0" = Ok inst ->
  inst <> "" ->
  (3 <= List.length (production_values data_row))%nat ->
  exists r,
    map_data_row_to_csv env data_row value_dicts timestamp row_date
    = Ok (Some r)
    /\ installation r = inst
    /\ lookup_text_direct value_dicts (get_value data_row 2) "D2"
       = Ok (type r)
    /\ production_rule (production_values data_row) (type_is_gas r) r.
Proof.
  intros Hlen Hidx Hrange Hinst Hne Hpv.
  assert (He : is_epoch_ms (get_value data_row 0) = Ok false).
  { destruct (get_value data_row 0); simpl in Hidx; try discriminate;
      injection Hidx as <-.
    - destruct b; reflexivity.
    - unfold is_epoch_ms, py_and. cbn.
      destruct (Z.ltb_spec 1000000000000 n); [lia | reflexivity]. }
  rewrite (map_detail _ _ _ _ Hlen He). unfold detail_row.
  rewrite Hidx. destruct (Z.ltb_spec idx 0); [lia|].
  rewrite Hinst, bind_Ok.
  destruct (lookup_text_direct_ok value_dicts (get_value data_row 1) "D1") as [oper ->].
  destruct (lookup_text_direct_ok value_dicts (get_value data_row 2) "D2") as [ty Hty].
  destruct (lookup_text_direct_ok value_dicts (get_value data_row 3) "D3") as [est ->].
  destruct (lookup_text_direct_ok value_dicts (get_value data_row 4) "D4") as [cty ->].
  destruct (lookup_text_direct_ok value_dicts (get_value data_row 5) "D5") as [atend ->].
  destruct (lookup_text_direct_ok value_dicts (get_value data_row 6) "D6") as [cmp ->].
  rewrite Hty, !bind_Ok.
  set (row0 := set_texts (initial_row timestamp row_date)
                 inst oper ty est cty atend cmp).
  assert (Hti : truthy (VStr (installation row0)) = true).
  { subst row0. fields. simpl. destruct (String.eqb_spec inst ""); [contradiction|reflexivity]. }
  rewrite Hti. cbn [negb].
  destruct (assign_production_rule (production_values data_row) row0 Hpv
              (production_values_nonzero data_row)
              eq_refl eq_refl eq_refl eq_refl)
    as (r1 & Ha & Hi1 & Ht1 & Htruthy & Hrule).
  rewrite Ha, bind_Ok.
  destruct (code_status_loop_keeps data_row value_dicts
              (seq 7 (Nat.min (List.length data_row) 11 - 7)) r1)
    as (r & Hloop & Hi & Ht & Ho & Hg & Hb & Hq).
  rewrite Hloop, bind_Ok.
  rewrite Hi, Hi1, Hti, Ho, Hg, Hb, Htruthy. cbn [andb].
  exists r. split; [reflexivity|].
  split; [rewrite Hi, Hi1; reflexivity|].
  split; [rewrite Ht, Ht1; reflexivity|].
  assert (Hgas : type_is_gas r = type_is_gas row0).
  { unfold type_is_gas. rewrite Ht, Ht1. reflexivity. }
  rewrite Hgas. unfold production_rule in *.
  rewrite Ho, Hg, Hb, Hq. exact Hrule.
Qed.
(** C5. A detail row (length at least 9, a non-negative installation
    index that resolves to a non-empty name) with at least three collected
    production values is decoded to a record. If [val], at position [k], is
    the first value that is an integer [n] in [1, 1000], the quantity is
    [n]; when two or more values precede it the first two are
    oil_production and gas_production; when exactly one precedes it, it is
    gas_production if the resolved type contains "gas" with or without the
    accent in any case, and oil_production otherwise; the value after it
    is oil_equivalents_boe. If no value is an integer in [1, 1000] the
    first three values are oil_production, gas_production and
    oil_equivalents_boe. *)
Theorem detail_row_production (data_row : list pyval)
    (value_dicts : gmap string (list string)) (timestamp row_date : string)
    (idx : Z) (inst : string) :
  (9 <= List.length data_row)%nat ->
  as_int (get_value data_row 0) = Some idx ->
  (0 <= idx <= 1000000000000)%Z ->
  lookup_text_direct value_dicts (get_value data_row 0) "D0" = Ok inst ->
  inst <> "" ->
  (3 <= List.length (production_values data_row))%nat ->
  exists r,
    map_data_row_to_csv env data_row value_dicts timestamp row_date
    = Ok (Some r)
    /\ installation r = inst
    /\ lookup_text_direct value_dicts (get_value data_row 2) "D2"
       = Ok (type r)
    /\ (forall k val n,
          nth_error (production_values data_row) k = Some val ->
          (1 <= n <= 1000)%Z -> float_is_int val n ->
          Forall (fun w => ~ integer_1_1000 w)
                 (firstn k (production_values data_row)) ->
          quantity r = VInt n
          /\ ((2 <= k)%nat ->
              exists b0 b1,
                nth_error (production_values data_row) 0 = Some b0
                /\ nth_error (production_values data_row) 1 = Some b1
                /\ oil_production r = VFloat b0
                /\ gas_production r = VFloat b1)
          /\ (k = 1%nat ->
              exists b0,
                nth_error (production_values data_row) 0 = Some b0
                /\ if contains gas_accented (lower (type r))
                      || contains "gas" (lower (type r))
                   then gas_production r = VFloat b0
                        /\ oil_production r = VStr ""
                   else oil_production r = VFloat b0
                        /\ gas_production r = VStr "")
          /\ (forall a,
                nth_error (production_values data_row) (S k) = Some a ->
                oil_equivalents_boe r = VFloat a))
    /\ (Forall (fun w => ~ integer_1_1000 w) (production_values data_row) ->
        exists p0 p1 p2,
          firstn 3 (production_values data_row) = [p0; p1; p2]
          /\ oil_production r = VFloat p0 /\ gas_production r = VFloat p1
          /\ oil_equivalents_boe r = VFloat p2 /\ quantity r = VStr "").
Proof.
  intros Hlen Hidx Hrange Hinst Hne Hpv.
  destruct (detail_row_assigns data_row value_dicts timestamp row_date
              idx inst Hlen Hidx Hrange Hinst Hne Hpv)
    as (r & Hm & Hi & Hty & Hrule).
  exists r. split; [exact Hm|]. split; [exact Hi|]. split; [exact Hty|].
  exact Hrule.
Qed.

End Properties.

(** ** The properties at sample inputs, in the UTC environment *)

Lemma lookup_text_direct_total_witness :
  lookup_text_direct Sample.dicts (VInt 0) "D0" = Ok "P-1".
Proof.
  destruct (lookup_text_direct_total Sample.dicts (VInt 0) "D0")
    as (s & Hs & _ & Hentry).
  rewrite Hs. f_equal.
  apply (Hentry 0%Z ["P-1"; " "]).
  - reflexivity.
  - vm_compute. reflexivity.
  - simpl. lia.
  - reflexivity.
  - vm_compute. discriminate.
Defined.


Lemma convert_timestamp_to_date_total_witness :
  convert_timestamp_to_date UTC.strftime_utc (VInt 1700000000000)
  = Ok "2023-11-14".
Proof.
  destruct (convert_timestamp_to_date_total UTC.strftime_utc
              (VInt 1700000000000) eq_refl) as (_ & _ & _ & Hms & _).
  rewrite (Hms 1700000000000%float); vm_compute; reflexivity.
Defined.

Lemma extract_dates_forward_scan_witness :
  match extract_data_from_json UTC.strftime_utc
          (Sample.payload_of [[VInt 1700000000000]; Sample.detail]) with
  | Ok (data_rows, _, _, row_date_assignments) =>
      List.length row_date_assignments = List.length data_rows
  | Raise _ => False
  end.
Proof.
  pose proof (extract_dates_forward_scan UTC.strftime_utc
                (Sample.payload_of [[VInt 1700000000000]; Sample.detail]))
    as H.
  destruct (extract_data_from_json UTC.strftime_utc
              (Sample.payload_of [[VInt 1700000000000]; Sample.detail]))
    as [[[[data_rows vd] ts] dates]|e] eqn:E.
  - exact (proj1 H).
  - vm_compute in E. discriminate E.
Defined.

Lemma structural_error_aborts_witness :
  run UTC.strftime_utc Sample.no_results None = (None, 1%Z).
Proof.
  apply (structural_error_aborts UTC.strftime_utc Sample.no_results None).
  left. reflexivity.
Defined.

Lemma summary_row_fields_witness :
  exists r,
    map_data_row_to_csv UTC.strftime_utc Sample.summary Sample.dicts
      "2024-01-01T00:00:00" "2023-11-14" = Ok (Some r)
    /\ oil_production r = VFloat 500.5
    /\ gas_production r = VInt 200
    /\ quantity r = VStr ""
    /\ oil_equivalents_boe r = VInt 1000
    /\ date r = "2023-11-14".
Proof.
  destruct (summary_row_fields UTC.strftime_utc Sample.summary Sample.dicts
              "2024-01-01T00:00:00" "2023-11-14")
    as (v0 & v1 & v2 & v3 & r & Hrow & Hm & H0 & H1 & H2 & H3 & Hd & _).
  - reflexivity.
  - unfold Sample.summary.
    repeat (apply List.Forall_cons; [reflexivity|]). apply List.Forall_nil.
  - injection Hrow as <- <- <- <-.
    exists r. split; [exact Hm|].
    assert (E0 : get_numeric (VFloat 500.5) = Ok (VFloat 500.5))
      by (vm_compute; reflexivity).
    assert (E1 : get_numeric (VInt 200) = Ok (VInt 200))
      by (vm_compute; reflexivity).
    assert (E2 : get_numeric (VFloat 0) = Ok (VStr ""))
      by (vm_compute; reflexivity).
    assert (E3 : get_numeric (VInt 1000) = Ok (VInt 1000))
      by (vm_compute; reflexivity).
    rewrite E0 in H0. rewrite E1 in H1. rewrite E2 in H2. rewrite E3 in H3.
    injection H0 as H0. injection H1 as H1.
    injection H2 as H2. injection H3 as H3.
    split; [symmetry; exact H0|]. split; [symmetry; exact H1|].
    split; [symmetry; exact H2|]. split; [symmetry; exact H3|].
    exact Hd.
Defined.

Lemma timestamped_summary_fields_witness :
  exists r,
    map_data_row_to_csv UTC.strftime_utc Sample.stamped Sample.dicts
      "2024-01-01T00:00:00" "" = Ok (Some r)
    /\ date r = "2023-11-14"
    /\ oil_production r = VInt 5
    /\ gas_production r = VStr ""
    /\ oil_equivalents_boe r = VInt 3
    /\ quantity r = VStr "".
Proof.
  destruct (timestamped_summary_fields UTC.strftime_utc
              (VInt 1700000000000) (VInt 5) VNone (VStr "3")
              (VInt 5) (VStr "") (VInt 3)
              Sample.dicts "2024-01-01T00:00:00" "")
    as (d & r & Hd & Hm & Hdate & Ho & Hg & Hb & Hq);
    try (vm_compute; reflexivity).
  exists r. split; [exact Hm|].
  assert (Ed : convert_timestamp_to_date UTC.strftime_utc
                 (VInt 1700000000000) = Ok "2023-11-14")
    by (vm_compute; reflexivity).
  rewrite Ed in Hd. injection Hd as Hd.
  split; [rewrite Hdate; symmetry; exact Hd|].
  split; [exact Ho|]. split; [exact Hg|]. split; [exact Hb | exact Hq].
Defined.

Lemma timestamped_row_shadowed_witness :
  convert_timestamp_to_date UTC.strftime_utc (VInt 1700000000000)
  = Ok "2023-11-14"
  /\ exists r,
       map_data_row_to_csv UTC.strftime_utc Sample.stamped_floats
         Sample.dicts "2024-01-01T00:00:00" "2024-01-01" = Ok (Some r)
       /\ date r = "2024-01-01"
       /\ oil_production r = VInt 1700000000000
       /\ gas_production r = VFloat 200.5
       /\ quantity r = VFloat 300.5
       /\ oil_equivalents_boe r = VFloat 400.5.
Proof.
  split; [vm_compute; reflexivity|].
  destruct (timestamped_row_shadowed UTC.strftime_utc
              (VInt 1700000000000) (VFloat 200.5) (VFloat 300.5)
              (VFloat 400.5) Sample.dicts "2024-01-01T00:00:00"
              "2024-01-01") as [Hrec _].
  - reflexivity.
  - destruct Hrec as (r & Hm & Hd & Ho & Hg & Hq & Hb).
    + repeat (apply List.Forall_cons; [reflexivity|]). apply List.Forall_nil.
    + exists r. split; [exact Hm|]. split; [exact Hd|].
      split; [exact Ho|]. split; [exact Hg|]. split; [exact Hq | exact Hb].
Defined.

Lemma emitted_records_invariant_witness :
  exists r data_row,
    In (Some r)
       (decode_rows UTC.strftime_utc 0
          [Sample.small_integers; Sample.summary; Sample.detail]
          Sample.dicts "2024-01-01T00:00:00" [""; ""; ""] [])
    /\ In data_row [Sample.small_integers; Sample.summary; Sample.detail]
    /\ ((List.length data_row = 4%nat /\ installation r = "")
        \/ (9 <= List.length data_row)%nat
           /\ installation r <> ""
           /\ (nonempty (oil_production r) \/ nonempty (gas_production r)
               \/ nonempty (oil_equivalents_boe r))).
Proof.
  assert (H : In (Some Sample.detail_record)
                (decode_rows UTC.strftime_utc 0
                   [Sample.small_integers; Sample.summary; Sample.detail]
                   Sample.dicts "2024-01-01T00:00:00" [""; ""; ""] [])).
  { vm_compute. right. right. left. reflexivity. }
  destruct (emitted_records_invariant UTC.strftime_utc _ _ _ _ _ H)
    as (data_row & Hin & Hinv).
  exists Sample.detail_record, data_row.
  split; [exact H|]. split; [exact Hin | exact Hinv].
Defined.

Lemma detail_row_production_witness :
  exists r,
    map_data_row_to_csv UTC.strftime_utc Sample.detail Sample.dicts
      "2024-01-01T00:00:00" "2023-11-14" = Ok (Some r)
    /\ type r = Sample.gas_name
    /\ quantity r = VInt 5
    /\ oil_production r = VFloat 120.5
    /\ gas_production r = VFloat 30.2
    /\ oil_equivalents_boe r = VFloat 800.1.
Proof.
  assert (Hpv : production_values Sample.detail
                = [120.5; 30.2; 5; 800.1]%float)
    by (vm_compute; reflexivity).
  destruct (detail_row_production UTC.strftime_utc Sample.detail
              Sample.dicts "2024-01-01T00:00:00" "2023-11-14" 0%Z "P-1")
    as (r & Hm & _ & Hty & Hq & _).
  - simpl. lia.
  - reflexivity.
  - lia.
  - vm_compute. reflexivity.
  - discriminate.
  - rewrite Hpv. simpl. lia.
  - exists r. split; [exact Hm|].
    assert (Et : lookup_text_direct Sample.dicts
                   (get_value Sample.detail 2) "D2" = Ok Sample.gas_name)
      by (vm_compute; reflexivity).
    rewrite Et in Hty. injection Hty as Hty.
    split; [symmetry; exact Hty|].
    rewrite Hpv in Hq.
    destruct (Hq 2%nat 5%float 5%Z) as (Hqty & Hog & _ & Hboe).
    + reflexivity.
    + lia.
    + vm_compute. reflexivity.
    + cbn [firstn].
      apply List.Forall_cons;
        [apply is_quantity_false; vm_compute; reflexivity|].
      apply List.Forall_cons;
        [apply is_quantity_false; vm_compute; reflexivity|].
      apply List.Forall_nil.
    + split; [exact Hqty|].
      destruct (Hog (Nat.le_refl 2)) as (b0 & b1 & Hb0 & Hb1 & Ho & Hg).
      injection Hb0 as <-. injection Hb1 as <-.
      split; [exact Ho|]. split; [exact Hg|].
      apply Hboe. reflexivity.
Defined.

(** ** Inputs on which the specification's wording fails *)

(** C1. A summary row is emitted with an empty installation. *)
Lemma summary_record_without_installation :
  exists r,
    In (Some r)
       (decode_rows UTC.strftime_utc 0 [Sample.summary] Sample.dicts
          "2024-01-01T00:00:00" [""] [])
    /\ installation r = "".
Proof.
  eexists. split.
  - vm_compute. left. reflexivity.
  - reflexivity.
Qed.

(** C3. A length-4 row of small integers is all numeric and is
    discarded. *)
Lemma small_integer_row_discarded :
  Forall (fun v => isinstance_int_float v = true) Sample.small_integers
  /\ map_data_row_to_csv UTC.strftime_utc Sample.small_integers
       Sample.dicts "2024-01-01T00:00:00" "" = Ok None.
Proof.
  split.
  - unfold Sample.small_integers.
    repeat (apply List.Forall_cons; [reflexivity|]). apply List.Forall_nil.
  - vm_compute. reflexivity.
Qed.

(** C4. A row of length 2 whose first element is above 1e12 does not
    update the current date. *)
Lemma date_not_updated_on_short_row :
  epoch_ms (VInt 1700000000000) = true
  /\ convert_timestamp_to_date UTC.strftime_utc (VInt 1700000000000)
     = Ok "2023-11-14"
  /\ match extract_data_from_json UTC.strftime_utc
             (Sample.payload_of [[VInt 1700000000000; VInt 5]]) with
     | Ok (data_rows, _, _, row_date_assignments) =>
         data_rows = [[VInt 1700000000000; VInt 5]]
         /\ row_date_assignments = [""]
     | Raise _ => False
     end.
Proof.
  split; [reflexivity|]. split; [vm_compute; reflexivity|].
  vm_compute. split; reflexivity.
Qed.

(** A discarded row reaches the writer as [None] in the [process_json_to_csv]
    that [run] calls: the writer raises on it after the header, and the
    run fails. The earlier definition of the same name keeps records
    only. *)
Example discarded_row_reaches_writer :
  decode_rows UTC.strftime_utc 0 [Sample.small_integers] Sample.dicts
    "2024-01-01T00:00:00" [""] [] = [None]
  /\ decode_rows_filtered UTC.strftime_utc 0 [Sample.small_integers]
       Sample.dicts "2024-01-01T00:00:00" [""] [] = Ok []
  /\ run UTC.strftime_utc (Sample.payload_of [Sample.small_integers]) None
     = (Some [map VStr fieldnames], 1%Z).
Proof.
  split; [vm_compute; reflexivity|]. split; vm_compute; reflexivity.
Qed.

(** ** Properties of [convert_date_format] *)

(** Case analysis on an integer variable [x] known to lie in a range that
    starts at [lo]; [fuel] bounds the number of cases. *)
Ltac enum_from x lo fuel :=
  lazymatch fuel with
  | O => exfalso; lia
  | S ?f =>
      destruct (Z.eq_dec x lo) as [->|?];
      [| let lo' := eval compute in (lo + 1)%Z in enum_from x lo' f]
  end.

Lemma digit_enum (n : Z) :
  In (UTC.digit n)
     ["0"; "1"; "2"; "3"; "4"; "5"; "6"; "7"; "8"; "9"]%char
  /\ is_digit (UTC.digit n) = true
  /\ digit_val (UTC.digit n) = (n mod 10)%Z.
Proof.
  unfold UTC.digit.
  pose proof (Z.mod_pos_bound n 10 ltac:(lia)) as Hb.
  set (k := (n mod 10)%Z) in *. clearbody k.
  enum_from k 0%Z 10%nat; (split; [cbn; tauto | split; reflexivity]).
Qed.

Lemma digit_not_slash (n : Z) : UTC.digit n <> "/"%char.
Proof.
  destruct (digit_enum n) as (H & _).
  cbn in H. intros E. rewrite E in H.
  repeat (destruct H as [H|H]; [discriminate H|]). exact H.
Qed.

Lemma four_digits_pad4 (y : Z) (rest : list ascii) :
  (0 <= y <= 9999)%Z ->
  DateFormat.four_digits (list_ascii_of_string (UTC.pad4 y) ++ rest)
  = Some (y, rest).
Proof.
  intros Hy. unfold UTC.pad4, UTC.pad2. cbn [list_ascii_of_string app].
  unfold DateFormat.four_digits.
  destruct (digit_enum (y / 1000)) as (_ & D1 & V1).
  destruct (digit_enum (y / 100)) as (_ & D2 & V2).
  destruct (digit_enum (y / 10)) as (_ & D3 & V3).
  destruct (digit_enum y) as (_ & D4 & V4).
  rewrite D1, D2, D3, D4, V1, V2, V3, V4. cbn [andb].
  f_equal. f_equal. Z.div_mod_to_equations. lia.
Qed.

Lemma month_alternation {R} (K : Z -> list ascii -> option R)
    (m : Z) (rest : list ascii) :
  (1 <= m <= 12)%Z ->
  DateFormat.alternation DateFormat.month_pieces
    (fun v => DateFormat.slash (K v))
    (UTC.digit (m / 10) :: UTC.digit m :: "/"%char :: rest)
  = K m rest.
Proof.
  intros Hm.
  enum_from m 1%Z 12%nat; vm_compute; destruct (K _ rest); reflexivity.
Qed.

Lemma day_alternation {R} (K : Z -> list ascii -> option R)
    (d : Z) (rest : list ascii) :
  (1 <= d <= 31)%Z ->
  DateFormat.alternation DateFormat.day_pieces
    (fun v => DateFormat.slash (K v))
    (UTC.digit (d / 10) :: UTC.digit d :: "/"%char :: rest)
  = K d rest.
Proof.
  intros Hd.
  enum_from d 1%Z 31%nat; vm_compute; destruct (K _ rest); reflexivity.
Qed.

Lemma valid_date_bounds (y m d : Z) :
  DateFormat.valid_date y m d = true ->
  (1 <= y <= 9999 /\ 1 <= m <= 12 /\ 1 <= d <= 31)%Z.
Proof.
  unfold DateFormat.valid_date, DateFormat.days_in_month. intros H.
  repeat (apply andb_true_iff in H as [H ?]).
  repeat match goal with
         | H : (_ <=? _)%Z = true |- _ => apply Z.leb_le in H
         end.
  destruct (m =? 2)%Z; [destruct (DateFormat.is_leap y)|];
    [| |destruct ((m =? 4) || (m =? 6) || (m =? 9) || (m =? 11))%Z]; lia.
Qed.

Lemma drop_zeros_pad4 (y : Z) :
  (1000 <= y <= 9999)%Z -> DateFormat.drop_zeros (UTC.pad4 y) = UTC.pad4 y.
Proof.
  intros Hy. unfold UTC.pad4. cbn [DateFormat.drop_zeros].
  destruct (digit_enum (y / 1000)) as (Hin & _ & Hv).
  destruct (Ascii.eqb_spec (UTC.digit (y / 1000)) "0"); [|reflexivity].
  exfalso. rewrite e in Hv. change (digit_val "0") with 0%Z in Hv.
  Z.div_mod_to_equations. lia.
Qed.

Lemma year_text_pad4 (zero_pad : bool) (y : Z) :
  (1 <= y <= 9999)%Z -> zero_pad = true \/ (1000 <= y)%Z ->
  DateFormat.year_text zero_pad y = UTC.pad4 y.
Proof.
  intros Hy [->|H]; [reflexivity|]. unfold DateFormat.year_text.
  destruct zero_pad; [reflexivity|]. apply drop_zeros_pad4. lia.
Qed.

Lemma list_ascii_append (a b : string) :
  list_ascii_of_string (String.append a b)
  = list_ascii_of_string a ++ list_ascii_of_string b.
Proof.
  induction a as [|c a IH]; [reflexivity|].
  change (c :: list_ascii_of_string (String.append a b)
          = c :: (list_ascii_of_string a ++ list_ascii_of_string b)).
  rewrite IH. reflexivity.
Qed.

Lemma strptime_formatted (y m d : Z) :
  DateFormat.valid_date y m d = true ->
  DateFormat.strptime_mdy
    (String.append (UTC.pad2 m)
       (String "/" (String.append (UTC.pad2 d) (String "/" (UTC.pad4 y)))))
  = Ok (y, m, d).
Proof.
  intros Hv. destruct (valid_date_bounds y m d Hv) as (Hy & Hm & Hd).
  unfold DateFormat.strptime_mdy, DateFormat.match_mdy.
  unfold UTC.pad2 at 1 2.
  repeat (rewrite list_ascii_append || cbn [list_ascii_of_string app]).
  rewrite (month_alternation
             (fun m0 =>
                DateFormat.alternation DateFormat.day_pieces
                  (fun d0 =>
                     DateFormat.slash
                       (fun r =>
                          match DateFormat.four_digits r with
                          | Some (y0, rest) => Some (m0, d0, y0, rest)
                          | None => None
                          end))) m _ Hm).
  rewrite (day_alternation
             (fun d0 r =>
                match DateFormat.four_digits r with
                | Some (y0, rest) => Some (m, d0, y0, rest)
                | None => None
                end) d _ Hd).
  pose proof (four_digits_pad4 y [] ltac:(lia)) as H4.
  rewrite app_nil_r in H4. rewrite H4, Hv. reflexivity.
Qed.

(** X1. A calendar date written as MM/dd/YYYY with two-digit month and
    day and a four-digit year is converted to the same date written as
    YYYY-MM-dd. *)
Theorem convert_date_format_round_trip (zero_pad : bool) (y m d : Z) :
  DateFormat.valid_date y m d = true ->
  zero_pad = true \/ (1000 <= y)%Z ->
  convert_date_format zero_pad (DateFormat.strftime_mdy zero_pad y m d)
  = Ok (DateFormat.strftime_ymd zero_pad y m d).
Proof.
  intros Hv Hy. destruct (valid_date_bounds y m d Hv) as (Hb & _).
  unfold convert_date_format, DateFormat.strftime_mdy.
  rewrite (year_text_pad4 zero_pad y Hb Hy), (strptime_formatted y m d Hv).
  reflexivity.
Qed.

(** What a successful match needs: a slash in the input. *)
Lemma alternation_inv {R} (pieces : list DateFormat.piece)
    (K : Z -> list ascii -> option R) (l : list ascii) (res : R) :
  DateFormat.alternation pieces K l = Some res ->
  exists p v r, In p pieces /\ p l = Some (v, r) /\ K v r = Some res.
Proof.
  induction pieces as [|p others IH]; [discriminate|].
  cbn [DateFormat.alternation]. intros H.
  destruct (p l) as [[v r]|] eqn:Hp.
  - destruct (K v r) as [res'|] eqn:Hk.
    + injection H as <-. exists p, v, r. split; [now left|]. split; assumption.
    + destruct (IH H) as (p' & v' & r' & Hin & Hp' & Hk').
      exists p', v', r'. split; [now right|]. split; assumption.
  - destruct (IH H) as (p' & v' & r' & Hin & Hp' & Hk').
    exists p', v', r'. split; [now right|]. split; assumption.
Qed.

Lemma two_chars_rest (lo1 hi1 lo2 hi2 : N) (l r : list ascii) (v : Z) :
  DateFormat.two_chars lo1 hi1 lo2 hi2 l = Some (v, r) ->
  exists a b, l = a :: b :: r.
Proof.
  unfold DateFormat.two_chars. destruct l as [|a [|b t]]; try discriminate.
  destruct (_ && _); [|discriminate]. intros H. injection H as _ <-. eauto.
Qed.

Lemma one_char_rest (lo hi : N) (l r : list ascii) (v : Z) :
  DateFormat.one_char lo hi l = Some (v, r) -> exists a, l = a :: r.
Proof.
  unfold DateFormat.one_char. destruct l as [|a t]; try discriminate.
  destruct (DateFormat.in_range lo hi a); [|discriminate].
  intros H. injection H as _ <-. eauto.
Qed.

Lemma slash_inv {R} (k : list ascii -> option R) (l : list ascii) (res : R) :
  DateFormat.slash k l = Some res -> exists r, l = "/"%char :: r.
Proof.
  unfold DateFormat.slash. destruct l as [|c r]; [discriminate|].
  destruct (Ascii.eqb_spec c "/"); [|discriminate]. subst c. eauto.
Qed.

Lemma match_mdy_slash (l : list ascii) (x : Z * Z * Z * list ascii) :
  DateFormat.match_mdy l = Some x -> In "/"%char l.
Proof.
  unfold DateFormat.match_mdy. intros H.
  apply alternation_inv in H as (p & v & r & Hin & Hp & Hk).
  apply slash_inv in Hk as [r' ->].
  cbn in Hin.
  destruct Hin as [<-|[<-|[<-|[]]]].
  - apply two_chars_rest in Hp as (a & b & ->). cbn. tauto.
  - apply two_chars_rest in Hp as (a & b & ->). cbn. tauto.
  - apply one_char_rest in Hp as (a & ->). cbn. tauto.
Qed.

Lemma drop_zeros_chars (s : string) (c : ascii) :
  In c (list_ascii_of_string (DateFormat.drop_zeros s)) ->
  In c (list_ascii_of_string s).
Proof.
  induction s as [|a s IH]; [intros []|].
  cbn [DateFormat.drop_zeros]. destruct (Ascii.eqb a "0"); [|exact id].
  intros H. right. exact (IH H).
Qed.

Lemma strftime_ymd_no_slash (zero_pad : bool) (y m d : Z) :
  ~ In "/"%char
      (list_ascii_of_string (DateFormat.strftime_ymd zero_pad y m d)).
Proof.
  unfold DateFormat.strftime_ymd. rewrite list_ascii_append.
  intros H. apply in_app_or in H as [H|H].
  - assert (Hp : In "/"%char (list_ascii_of_string (UTC.pad4 y))).
    { unfold DateFormat.year_text in H. destruct zero_pad; [exact H|].
      apply drop_zeros_chars. exact H. }
    cbn in Hp.
    repeat (destruct Hp as [Hp|Hp]; [exact (digit_not_slash _ Hp)|]).
    exact Hp.
  - cbn in H.
    repeat (destruct H as [H|H];
            [first [discriminate H | exact (digit_not_slash _ H)]|]).
    exact H.
Qed.

Lemma convert_without_slash (zero_pad : bool) (s : string) :
  ~ In "/"%char (list_ascii_of_string s) ->
  convert_date_format zero_pad s = Ok s.
Proof.
  intros H. unfold convert_date_format, DateFormat.strptime_mdy.
  destruct (DateFormat.match_mdy (list_ascii_of_string s)) as [x|] eqn:Hm;
    [|reflexivity].
  exfalso. apply H. exact (match_mdy_slash _ _ Hm).
Qed.

(** X2. [convert_date_format] never raises, and converting its result
    again changes nothing: a converted date has no slash, and a string
    without a slash is returned as it is. *)
Theorem convert_date_format_idempotent (zero_pad : bool) (s : string) :
  exists t,
    convert_date_format zero_pad s = Ok t
    /\ convert_date_format zero_pad t = Ok t
    /\ (~ In "/"%char (list_ascii_of_string s) -> t = s).
Proof.
  destruct (DateFormat.strptime_mdy s) as [[[y m] d]|e] eqn:Hp.
  - exists (DateFormat.strftime_ymd zero_pad y m d).
    split; [unfold convert_date_format; rewrite Hp; reflexivity|].
    split; [apply convert_without_slash, strftime_ymd_no_slash|].
    intros Hs. pose proof (convert_without_slash zero_pad s Hs) as Hc.
    unfold convert_date_format in Hc. rewrite Hp in Hc.
    cbn in Hc. congruence.
  - assert (He : e = ValueError).
    { unfold DateFormat.strptime_mdy in Hp.
      destruct (DateFormat.match_mdy _) as [[[[m d] y] [|? ?]]|];
        try congruence.
      destruct (DateFormat.valid_date y m d); congruence. }
    subst e.
    assert (Hc : convert_date_format zero_pad s = Ok s).
    { unfold convert_date_format. rewrite Hp. reflexivity. }
    exists s. split; [exact Hc|]. split; [exact Hc|]. reflexivity.
Qed.

(** ** Further properties of the decoder *)

Lemma lookup_resolved (value_dicts : gmap string (list string))
    (index : pyval) (dict_key : string) :
  lookup_text_direct value_dicts index dict_key
  = Ok (resolved value_dicts index dict_key).
Proof.
  unfold resolved.
  destruct (lookup_text_direct_ok value_dicts index dict_key) as [s ->].
  reflexivity.
Qed.

Lemma in_firstn {A} (x : A) (l : list A) :
  forall n, In x (firstn n l) -> In x l.
Proof.
  induction l as [|a l IH]; intros [|n] H; try contradiction.
  cbn [firstn] in H. destruct H as [->|H]; [now left | right; eauto].
Qed.

Lemma in_skipn {A} (x : A) (l : list A) :
  forall n, In x (skipn n l) -> In x l.
Proof.
  induction l as [|a l IH]; intros [|n] H; try contradiction; auto.
  right. exact (IH n H).
Qed.

Lemma same_core_refl (r : CsvRow) : same_core r r.
Proof. unfold same_core. repeat split. Qed.

Lemma same_core_trans (a b c : CsvRow) :
  same_core a b -> same_core b c -> same_core a c.
Proof. unfold same_core. intuition congruence. Qed.

(** The production assignment on any list of values: it returns, keeps
    the text fields, and fills each production field from the list. *)
Lemma assign_production_fields (pv : list float) (csv_row : CsvRow) :
  exists r,
    assign_production pv csv_row = Ok r
    /\ ((List.length pv < 3)%nat -> r = csv_row)
    /\ scrape_datetime r = scrape_datetime csv_row
    /\ date r = date csv_row
    /\ installation r = installation csv_row
    /\ operator r = operator csv_row /\ type r = type csv_row
    /\ estado r = estado csv_row /\ city r = city csv_row
    /\ atendimento_campo r = atendimento_campo csv_row
    /\ campo r = campo csv_row
    /\ code r = code csv_row /\ status r = status csv_row
    /\ assigned_from pv (oil_production csv_row) (oil_production r)
    /\ assigned_from pv (gas_production csv_row) (gas_production r)
    /\ assigned_from pv (oil_equivalents_boe csv_row)
         (oil_equivalents_boe r)
    /\ (quantity r = quantity csv_row
        \/ exists n, (1 <= n <= 1000)%Z /\ quantity r = VInt n).
Proof.
  unfold assign_production.
  destruct (Nat.leb_spec 3 (List.length pv)) as [Hlen|Hlen].
  2:{ exists csv_row. split; [reflexivity|]. split; [reflexivity|].
      unfold assigned_from. repeat split; auto. }
  destruct (find_quantity_spec pv 0)
    as [(Hfind & _)|(k & val & Hfind & Hnth & (n & Hn & Hint) & _)].
  - rewrite Hfind, bind_Ok.
    destruct pv as [|p0 [|p1 [|p2 rest]]]; try (cbn in Hlen; lia).
    eexists. split; [reflexivity|]. split; [cbn; lia|].
    unfold assigned_from. fields.
    repeat (split; [reflexivity|]).
    split; [right; exists p0; split; [cbn; tauto | reflexivity]|].
    split; [right; exists p1; split; [cbn; tauto | reflexivity]|].
    split; [right; exists p2; split; [cbn; tauto | reflexivity]|].
    left. reflexivity.
  - rewrite Hfind, bind_Ok. cbn [Nat.add].
    rewrite (float_is_int_trunc val n Hint), bind_Ok.
    change (type_is_gas (set_quantity csv_row (VInt n)))
      with (type_is_gas csv_row).
    assert (Hb : forall b, In b (firstn k pv) -> In b pv)
      by (intros b; apply in_firstn).
    assert (Ha : forall a, In a (skipn (S k) pv) -> In a pv)
      by (intros a; apply in_skipn).
    destruct (firstn k pv) as [|b0 [|b1 bs]];
      destruct (skipn (S k) pv) as [|a0 as_];
      try destruct (type_is_gas csv_row);
      (eexists; split; [reflexivity|]; split; [intros; lia|];
       unfold assigned_from; fields;
       repeat (split; [reflexivity|]);
       do 3 (split;
             [first [left; reflexivity
                    | right; eexists; (split; [|reflexivity]);
                      first [apply Hb; cbn; tauto | apply Ha; cbn; tauto]]|]);
       right; exists n; split; [exact Hn | reflexivity]).
Qed.

(** One step of the code and status loop at each of its indices. *)
Lemma code_status_step_core (data_row : list pyval)
    (value_dicts : gmap string (list string)) (csv_row : CsvRow) (i : nat) :
  exists r,
    code_status_step data_row value_dicts csv_row i = Ok r
    /\ same_core r csv_row
    /\ code r = (if (i =? 8)%nat
                 then match as_int (get_value data_row 8) with
                      | Some n =>
                          if ((0 <=? n) && (n <? 1000))%Z
                          then resolved value_dicts (get_value data_row 8)
                                 "D8"
                          else code csv_row
                      | None => code csv_row
                      end
                 else code csv_row)
    /\ status r = (if (i =? 9)%nat
                   then match as_int (get_value data_row 9) with
                        | Some n =>
                            if ((0 <=? n) && (n <? 1000))%Z
                            then resolved value_dicts (get_value data_row 9)
                                   "D9"
                            else status csv_row
                        | None => status csv_row
                        end
                   else status csv_row).
Proof.
  unfold code_status_step.
  destruct (Nat.eqb_spec i 8) as [->|H8].
  - cbn [Nat.eqb].
    destruct (as_int (get_value data_row 8)) as [n|];
      [|exists csv_row; split; [reflexivity|];
        split; [apply same_core_refl|]; split; reflexivity].
    destruct ((0 <=? n)%Z && (n <? 1000)%Z);
      [|exists csv_row; split; [reflexivity|];
        split; [apply same_core_refl|]; split; reflexivity].
    rewrite lookup_resolved, bind_Ok. eexists. split; [reflexivity|].
    split; [unfold same_core; repeat split|]. split; reflexivity.
  - destruct (Nat.eqb_spec i 9) as [->|H9].
    + cbn [Nat.eqb].
      destruct (as_int (get_value data_row 9)) as [n|];
        [|exists csv_row; split; [reflexivity|];
          split; [apply same_core_refl|]; split; reflexivity].
      destruct ((0 <=? n)%Z && (n <? 1000)%Z);
        [|exists csv_row; split; [reflexivity|];
          split; [apply same_core_refl|]; split; reflexivity].
      rewrite lookup_resolved, bind_Ok. eexists. split; [reflexivity|].
      split; [unfold same_core; repeat split|]. split; reflexivity.
    + exists csv_row.
      split; [|split; [apply same_core_refl|]; split; reflexivity].
      destruct (as_int (get_value data_row i)) as [n|]; [|reflexivity].
      destruct ((0 <=? n)%Z && (n <? 1000)%Z); [|reflexivity].
      destruct (i =? 7)%nat; reflexivity.
Qed.

Lemma get_value_beyond (data_row : list pyval) (i : nat) :
  (List.length data_row <= i)%nat -> get_value data_row i = VNone.
Proof.
  intros H. unfold get_value.
  destruct (nth_error data_row i) eqn:E; [|reflexivity].
  assert (nth_error data_row i <> None) as Hn by congruence.
  apply nth_error_Some in Hn. lia.
Qed.

Lemma code_status_loop_result (data_row : list pyval)
    (value_dicts : gmap string (list string)) (csv_row : CsvRow) :
  (9 <= List.length data_row)%nat ->
  code csv_row = "" -> status csv_row = "" ->
  exists r,
    for_each (code_status_step data_row value_dicts)
      (seq 7 (Nat.min (List.length data_row) 11 - 7)) csv_row = Ok r
    /\ same_core r csv_row
    /\ code r = indexed_text value_dicts (get_value data_row 8) "D8"
    /\ status r = indexed_text value_dicts (get_value data_row 9) "D9".
Proof.
  intros Hlen Hcode Hstatus.
  destruct (code_status_step_core data_row value_dicts csv_row 7)
    as (r7 & E7 & S7 & C7 & T7).
  destruct (code_status_step_core data_row value_dicts r7 8)
    as (r8 & E8 & S8 & C8 & T8).
  destruct (code_status_step_core data_row value_dicts r8 9)
    as (r9 & E9 & S9 & C9 & T9).
  destruct (code_status_step_core data_row value_dicts r9 10)
    as (r10 & E10 & S10 & C10 & T10).
  cbn [Nat.eqb] in C7, T7, C8, T8, C9, T9, C10, T10.
  assert (H8 : code r8
               = indexed_text value_dicts (get_value data_row 8) "D8").
  { rewrite C8, C7, Hcode. unfold indexed_text.
    destruct (as_int (get_value data_row 8)) as [n|]; [|reflexivity].
    destruct ((0 <=? n)%Z && (n <? 1000)%Z); reflexivity. }
  assert (H9 : status r9
               = indexed_text value_dicts (get_value data_row 9) "D9").
  { rewrite T9, T8, T7, Hstatus. unfold indexed_text.
    destruct (as_int (get_value data_row 9)) as [n|]; [|reflexivity].
    destruct ((0 <=? n)%Z && (n <? 1000)%Z); reflexivity. }
  assert (Hcases : (List.length data_row = 9 \/ List.length data_row = 10
                    \/ 11 <= List.length data_row)%nat) by lia.
  destruct Hcases as [H|[H|H]].
  - replace (Nat.min (List.length data_row) 11 - 7)%nat with 2%nat by lia.
    cbn [seq for_each]. rewrite E7, bind_Ok, E8, bind_Ok.
    exists r8. split; [reflexivity|].
    split; [exact (same_core_trans _ _ _ S8 S7)|]. split; [exact H8|].
    rewrite T8, T7, Hstatus.
    rewrite (get_value_beyond data_row 9) by lia. reflexivity.
  - replace (Nat.min (List.length data_row) 11 - 7)%nat with 3%nat by lia.
    cbn [seq for_each]. rewrite E7, bind_Ok, E8, bind_Ok, E9, bind_Ok.
    exists r9. split; [reflexivity|].
    split; [exact (same_core_trans _ _ _ S9 (same_core_trans _ _ _ S8 S7))|].
    split; [rewrite C9; exact H8 | exact H9].
  - replace (Nat.min (List.length data_row) 11 - 7)%nat with 4%nat by lia.
    cbn [seq for_each].
    rewrite E7, bind_Ok, E8, bind_Ok, E9, bind_Ok, E10, bind_Ok.
    exists r10. split; [reflexivity|].
    split; [exact (same_core_trans _ _ _ S10
                     (same_core_trans _ _ _ S9
                        (same_core_trans _ _ _ S8 S7)))|].
    split; [rewrite C10, C9; exact H8 | rewrite T10; exact H9].
Qed.

(** The detail branch never raises: it rejects the row at the index test
    or the installation test, or it assigns, runs the code and status
    loop, and applies the final test. *)
Lemma detail_row_struct (data_row : list pyval)
    (value_dicts : gmap string (list string)) (csv_row : CsvRow) :
  (9 <= List.length data_row)%nat ->
  code csv_row = "" -> status csv_row = "" ->
  (detail_row data_row value_dicts csv_row = Ok None
   /\ (as_int (get_value data_row 0) = None
       \/ (exists idx, as_int (get_value data_row 0) = Some idx
                       /\ (idx < 0)%Z)
       \/ resolved value_dicts (get_value data_row 0) "D0" = ""))
  \/ exists idx r1 r,
       as_int (get_value data_row 0) = Some idx /\ (0 <= idx)%Z
       /\ resolved value_dicts (get_value data_row 0) "D0" <> ""
       /\ assign_production (production_values data_row)
            (detail_texts value_dicts data_row csv_row) = Ok r1
       /\ same_core r r1
       /\ code r = indexed_text value_dicts (get_value data_row 8) "D8"
       /\ status r = indexed_text value_dicts (get_value data_row 9) "D9"
       /\ detail_row data_row value_dicts csv_row
          = Ok (if accepted r then Some r else None).
Proof.
  intros Hlen Hcode Hstatus. unfold detail_row.
  destruct (as_int (get_value data_row 0)) as [idx|] eqn:Hidx;
    [|left; split; [reflexivity | left; reflexivity]].
  destruct (Z.ltb_spec idx 0) as [Hneg|Hpos];
    [left; split; [reflexivity | right; left; exists idx; auto]|].
  rewrite !lookup_resolved, !bind_Ok.
  change (set_texts csv_row _ _ _ _ _ _ _)
    with (detail_texts value_dicts data_row csv_row).
  set (row0 := detail_texts value_dicts data_row csv_row).
  assert (Hinst : installation row0
                  = resolved value_dicts (get_value data_row 0) "D0")
    by reflexivity.
  rewrite Hinst.
  destruct (String.eqb_spec
              (resolved value_dicts (get_value data_row 0) "D0") "")
    as [He|Hne].
  { left. split; [|right; right; exact He].
    cbn [truthy]. rewrite He. reflexivity. }
  assert (Ht : truthy (VStr (resolved value_dicts (get_value data_row 0)
                               "D0")) = true).
  { cbn [truthy].
    destruct (String.eqb_spec
                (resolved value_dicts (get_value data_row 0) "D0") "");
      [contradiction | reflexivity]. }
  rewrite Ht. cbn [negb].
  destruct (assign_production_fields (production_values data_row) row0)
    as (r1 & Ha & _ & _ & _ & _ & _ & _ & _ & _ & _ & _ & Hc1 & Hs1 & _).
  rewrite Ha, bind_Ok.
  destruct (code_status_loop_result data_row value_dicts r1 Hlen)
    as (r & Hloop & Hcore & Hc & Hs).
  { rewrite Hc1. exact Hcode. }
  { rewrite Hs1. exact Hstatus. }
  rewrite Hloop, bind_Ok.
  right. exists idx, r1, r.
  split; [reflexivity|]. split; [exact Hpos|]. split; [exact Hne|].
  split; [reflexivity|]. split; [exact Hcore|]. split; [exact Hc|].
  split; [exact Hs|]. reflexivity.
Qed.

Section DecoderShape.

Variable env : float -> option string.

Lemma map_short (data_row : list pyval)
    (value_dicts : gmap string (list string)) (timestamp row_date : string) :
  List.length data_row <> 4%nat -> (List.length data_row < 9)%nat ->
  map_data_row_to_csv env data_row value_dicts timestamp row_date = Ok None.
Proof.
  intros H4 H9. unfold map_data_row_to_csv.
  destruct (List.length data_row =? 0)%nat; [reflexivity|].
  destruct (List.length data_row =? 1)%nat; [reflexivity|].
  destruct (Nat.eqb_spec (List.length data_row) 4); [contradiction|].
  destruct (Nat.leb_spec 9 (List.length data_row)); [lia|].
  unfold py_if, py_and. rewrite !bind_Ok, is_epoch_ms_ok, bind_Ok.
  destruct (epoch_ms (get_value data_row 0)); reflexivity.
Qed.

Lemma map_long (data_row : list pyval)
    (value_dicts : gmap string (list string)) (timestamp row_date : string) :
  (9 <= List.length data_row)%nat ->
  map_data_row_to_csv env data_row value_dicts timestamp row_date
  = if epoch_ms (get_value data_row 0) then Ok None
    else detail_row data_row value_dicts (initial_row timestamp row_date).
Proof.
  intros H9. unfold map_data_row_to_csv.
  destruct (Nat.eqb_spec (List.length data_row) 0); [lia|].
  destruct (Nat.eqb_spec (List.length data_row) 1); [lia|].
  destruct (Nat.eqb_spec (List.length data_row) 4); [lia|].
  destruct (Nat.leb_spec 9 (List.length data_row)); [|lia].
  unfold py_if, py_and. rewrite !bind_Ok, is_epoch_ms_ok, bind_Ok.
  reflexivity.
Qed.

Lemma map_four (v0 v1 v2 v3 : pyval)
    (value_dicts : gmap string (list string)) (timestamp row_date : string) :
  map_data_row_to_csv env [v0; v1; v2; v3] value_dicts timestamp row_date
  = (py_all summary_test [v0; v1; v2; v3] ≫= fun b : bool =>
     if b then
       oil ← get_numeric v0; gas ← get_numeric v1;
       qty ← get_numeric v2; boe ← get_numeric v3;
       Ok (Some (summary_record timestamp row_date oil gas qty boe))
     else if epoch_ms v0 then
       d ← convert_timestamp_to_date env v0;
       oil ← get_numeric v1; gas ← get_numeric v2; boe ← get_numeric v3;
       Ok (Some (stamped_record timestamp row_date d oil gas boe))
     else Ok None).
Proof.
  unfold map_data_row_to_csv. cbn [List.length Nat.eqb Nat.leb].
  unfold py_if, py_and at 1. rewrite bind_Ok.
  destruct (py_all summary_test [v0; v1; v2; v3]) as [[|]|e];
    [reflexivity| |reflexivity].
  rewrite !bind_Ok. cbn [get_value nth_error].
  rewrite is_epoch_ms_ok, bind_Ok.
  destruct (epoch_ms v0); reflexivity.
Qed.

End DecoderShape.

Lemma summary_test_raise (v : pyval) (e : exn) :
  summary_test v = Raise e -> e = TypeError.
Proof.
  unfold summary_test, py_or. rewrite bind_Ok.
  destruct (isinstance_int_float_str v && negb (isinstance_int v));
    [discriminate|].
  destruct v; cbn; congruence.
Qed.

Lemma py_all_summary_raise (l : list pyval) (e : exn) :
  py_all summary_test l = Raise e -> e = TypeError.
Proof.
  induction l as [|v l IH]; [discriminate|]. cbn [py_all].
  destruct (summary_test v) as [[|]|e'] eqn:Hv.
  - rewrite bind_Ok. exact IH.
  - rewrite bind_Ok. discriminate.
  - rewrite bind_Raise. intros H. injection H as <-.
    exact (summary_test_raise v e' Hv).
Qed.

Lemma int_of_float_overflow (f : float) :
  int_of_float f = Raise OverflowError
  <-> exists s, Prim2SF f = S754_infinity s.
Proof.
  unfold int_of_float. destruct (Prim2SF f) as [s|s| |s m e]; split;
    try discriminate; try (intros [s' H]; discriminate H); eauto.
Qed.

(** X3. [get_numeric] raises on one kind of input only: a string without
    a decimal point and without the letter e that, commas removed, reads
    as an infinite float (such as "inf" or "Infinity"); the exception is
    [OverflowError]. *)
Theorem get_numeric_raises (v : pyval) (e : exn) :
  get_numeric v = Raise e
  <-> e = OverflowError
      /\ exists s f sign,
           v = VStr s
           /\ contains "." (remove_commas s) = false
           /\ contains "e" (lower (remove_commas s)) = false
           /\ float_of_str (remove_commas s) = Some f
           /\ Prim2SF f = S754_infinity sign.
Proof.
  split.
  - destruct v as [|b|n|f|s|l|d];
      try (rewrite get_numeric_number by reflexivity; discriminate);
      try (cbn; discriminate).
    + unfold get_numeric, py_float.
      destruct (float_of_str (remove_commas s)) as [f|] eqn:Hf.
      2:{ destruct (contains "." (remove_commas s)
                    || contains "e" (lower (remove_commas s)));
            cbn; discriminate. }
      destruct (contains "." (remove_commas s)
                || contains "e" (lower (remove_commas s))) eqn:Hc.
      { cbn. destruct (negb (float_eq_int f 0)); discriminate. }
      apply orb_false_iff in Hc as [Hdot He].
      rewrite bind_Ok.
      destruct (int_of_float f) as [n|e'] eqn:Hi.
      { cbn. destruct (negb (n =? 0)%Z); discriminate. }
      rewrite bind_Raise.
      assert (He' : e' = ValueError \/ e' = OverflowError).
      { unfold int_of_float in Hi.
        destruct (Prim2SF f); try discriminate; injection Hi as <-; auto. }
      destruct He' as [-> | ->]; [cbn; discriminate|].
      cbn. intros H. injection H as <-. split; [reflexivity|].
      apply int_of_float_overflow in Hi as [sign Hs].
      exists s, f, sign. repeat split; assumption.
  - intros (-> & s & f & sign & -> & Hdot & He & Hf & Hs).
    unfold get_numeric, py_float. rewrite Hdot, He, Hf. cbn [orb].
    rewrite bind_Ok.
    assert (Hi : int_of_float f = Raise OverflowError)
      by (apply int_of_float_overflow; eauto).
    rewrite Hi. reflexivity.
Qed.

Lemma get_numeric_raise (v : pyval) (e : exn) :
  get_numeric v = Raise e -> e = OverflowError.
Proof.
  destruct v as [|b|n|f|s|l|d];
    try (rewrite get_numeric_number by reflexivity; discriminate);
    try (cbn; discriminate).
  unfold get_numeric, py_float.
  destruct (float_of_str (remove_commas s)) as [f|].
  2:{ destruct (contains "." (remove_commas s)
                || contains "e" (lower (remove_commas s)));
        cbn; discriminate. }
  destruct (contains "." (remove_commas s)
            || contains "e" (lower (remove_commas s))).
  { rewrite !bind_Ok. destruct (ne_zero (VFloat f)); cbn; discriminate. }
  rewrite bind_Ok.
  destruct (int_of_float f) as [n|e'] eqn:Hi.
  { rewrite !bind_Ok. destruct (ne_zero (VInt n)); cbn; discriminate. }
  rewrite bind_Raise. unfold int_of_float in Hi.
  destruct (Prim2SF f); try discriminate Hi; injection Hi as <-;
    cbn; intros H; try discriminate H; injection H as <-; reflexivity.
Qed.

Lemma numeric_field_result (v r : pyval) :
  get_numeric v = Ok r -> numeric_field r.
Proof. exact (get_numeric_result v r). Qed.

Lemma numeric_field_empty : numeric_field (VStr "").
Proof. left. reflexivity. Qed.

Lemma numeric_field_assigned (pv : list float) (after : pyval) :
  Forall nonzero pv -> assigned_from pv (VStr "") after ->
  numeric_field after.
Proof.
  intros Hnz [->|(p & Hin & ->)]; [apply numeric_field_empty|].
  right. split; [reflexivity|].
  rewrite List.Forall_forall in Hnz. specialize (Hnz p Hin).
  unfold nonzero in Hnz. cbn. rewrite Hnz. reflexivity.
Qed.

Section DecoderFacts.

Variable env : float -> option string.

(** X4. A row vector whose length is neither 4 nor at least 9 is
    discarded, whatever it holds: the empty vector, the one-element
    timestamp markers, and every length from 2 to 8 except 4. *)
Theorem short_rows_discarded (data_row : list pyval)
    (value_dicts : gmap string (list string)) (timestamp row_date : string) :
  List.length data_row <> 4%nat -> (List.length data_row < 9)%nat ->
  map_data_row_to_csv env data_row value_dicts timestamp row_date = Ok None.
Proof. apply map_short. Qed.

Lemma detail_row_returns (data_row : list pyval)
    (value_dicts : gmap string (list string)) (timestamp row_date : string) :
  (9 <= List.length data_row)%nat ->
  exists o,
    detail_row data_row value_dicts (initial_row timestamp row_date) = Ok o.
Proof.
  intros H9.
  destruct (detail_row_struct data_row value_dicts
              (initial_row timestamp row_date) H9 eq_refl eq_refl)
    as [(H & _)|(idx & r1 & r & _ & _ & _ & _ & _ & _ & _ & H)]; eauto.
Qed.

(** X5. The decoder can raise on a row vector of length 4 only, and then
    only a [TypeError] (from ordering a null or a container against 100)
    or an [OverflowError] (from coercing an infinite string); on every
    other row vector it returns. *)
Theorem decoder_raises_on_four_only (data_row : list pyval)
    (value_dicts : gmap string (list string)) (timestamp row_date : string)
    (e : exn) :
  map_data_row_to_csv env data_row value_dicts timestamp row_date = Raise e ->
  List.length data_row = 4%nat /\ (e = TypeError \/ e = OverflowError).
Proof.
  intros H.
  destruct (Nat.eq_dec (List.length data_row) 4) as [H4|H4].
  - split; [exact H4|].
    destruct data_row as [|v0 [|v1 [|v2 [|v3 [|? ?]]]]]; try discriminate.
    rewrite map_four in H.
    destruct (py_all summary_test [v0; v1; v2; v3]) as [[|]|e'] eqn:Hs.
    + rewrite bind_Ok in H. right.
      destruct (get_numeric v0) eqn:G0;
        [rewrite bind_Ok in H
        |rewrite bind_Raise in H; injection H as <-;
         exact (get_numeric_raise _ _ G0)].
      destruct (get_numeric v1) eqn:G1;
        [rewrite bind_Ok in H
        |rewrite bind_Raise in H; injection H as <-;
         exact (get_numeric_raise _ _ G1)].
      destruct (get_numeric v2) eqn:G2;
        [rewrite bind_Ok in H
        |rewrite bind_Raise in H; injection H as <-;
         exact (get_numeric_raise _ _ G2)].
      destruct (get_numeric v3) eqn:G3;
        [rewrite bind_Ok in H; discriminate H
        |rewrite bind_Raise in H; injection H as <-;
         exact (get_numeric_raise _ _ G3)].
    + rewrite bind_Ok in H. right.
      destruct (epoch_ms v0) eqn:He; [|discriminate H].
      destruct (convert_number env v0 (epoch_ms_number v0 He)) as [d Hd].
      rewrite Hd, bind_Ok in H.
      destruct (get_numeric v1) eqn:G1;
        [rewrite bind_Ok in H
        |rewrite bind_Raise in H; injection H as <-;
         exact (get_numeric_raise _ _ G1)].
      destruct (get_numeric v2) eqn:G2;
        [rewrite bind_Ok in H
        |rewrite bind_Raise in H; injection H as <-;
         exact (get_numeric_raise _ _ G2)].
      destruct (get_numeric v3) eqn:G3;
        [rewrite bind_Ok in H; discriminate H
        |rewrite bind_Raise in H; injection H as <-;
         exact (get_numeric_raise _ _ G3)].
    + rewrite bind_Raise in H. injection H as <-. left.
      exact (py_all_summary_raise _ _ Hs).
  - exfalso.
    destruct (Nat.lt_ge_cases (List.length data_row) 9) as [H9|H9].
    + rewrite (map_short env _ _ _ _ H4 H9) in H. discriminate H.
    + rewrite (map_long env _ _ _ _ H9) in H.
      destruct (epoch_ms (get_value data_row 0)); [discriminate H|].
      destruct (detail_row_returns data_row value_dicts timestamp row_date H9)
        as [o Ho].
      rewrite Ho in H. discriminate H.
Qed.

(** What a returned record is made of. *)
Lemma map_record_inv (data_row : list pyval)
    (value_dicts : gmap string (list string)) (timestamp row_date : string)
    (r : CsvRow) :
  map_data_row_to_csv env data_row value_dicts timestamp row_date
  = Ok (Some r) ->
  (exists v0 v1 v2 v3 oil gas qty boe,
      data_row = [v0; v1; v2; v3]
      /\ py_all summary_test data_row = Ok true
      /\ get_numeric v0 = Ok oil /\ get_numeric v1 = Ok gas
      /\ get_numeric v2 = Ok qty /\ get_numeric v3 = Ok boe
      /\ r = summary_record timestamp row_date oil gas qty boe)
  \/ (exists v0 v1 v2 v3 d oil gas boe,
        data_row = [v0; v1; v2; v3]
        /\ py_all summary_test data_row = Ok false
        /\ epoch_ms v0 = true
        /\ convert_timestamp_to_date env v0 = Ok d
        /\ get_numeric v1 = Ok oil /\ get_numeric v2 = Ok gas
        /\ get_numeric v3 = Ok boe
        /\ r = stamped_record timestamp row_date d oil gas boe)
  \/ ((9 <= List.length data_row)%nat
      /\ epoch_ms (get_value data_row 0) = false
      /\ detail_row data_row value_dicts (initial_row timestamp row_date)
         = Ok (Some r)).
Proof.
  intros H.
  destruct (Nat.eq_dec (List.length data_row) 4) as [H4|H4].
  - destruct data_row as [|v0 [|v1 [|v2 [|v3 [|? ?]]]]]; try discriminate.
    rewrite map_four in H.
    destruct (py_all summary_test [v0; v1; v2; v3]) as [[|]|e'] eqn:Hs;
      [rewrite bind_Ok in H | rewrite bind_Ok in H
      | rewrite bind_Raise in H; discriminate H].
    + left. do 4 bind_inv H. injection H as <-.
      do 8 eexists.
      repeat (split; [first [reflexivity | eassumption]|]). reflexivity.
    + right. left. destruct (epoch_ms v0) eqn:He; [|discriminate H].
      do 4 bind_inv H. injection H as <-.
      do 8 eexists.
      repeat (split; [first [reflexivity | eassumption]|]). reflexivity.
  - right. right.
    destruct (Nat.lt_ge_cases (List.length data_row) 9) as [H9|H9].
    + rewrite (map_short env _ _ _ _ H4 H9) in H. discriminate H.
    + rewrite (map_long env _ _ _ _ H9) in H.
      destruct (epoch_ms (get_value data_row 0)); [discriminate H|].
      auto.
Qed.
End DecoderFacts.




Section RecordFacts.

Variable env : float -> option string.

(** The record of an accepted detail row. *)
Lemma detail_record_inv (data_row : list pyval)
    (value_dicts : gmap string (list string)) (timestamp row_date : string)
    (r : CsvRow) :
  (9 <= List.length data_row)%nat ->
  detail_row data_row value_dicts (initial_row timestamp row_date)
  = Ok (Some r) ->
  exists idx r1,
    as_int (get_value data_row 0) = Some idx /\ (0 <= idx)%Z
    /\ resolved value_dicts (get_value data_row 0) "D0" <> ""
    /\ assign_production (production_values data_row)
         (detail_texts value_dicts data_row
            (initial_row timestamp row_date)) = Ok r1
    /\ same_core r r1
    /\ code r = indexed_text value_dicts (get_value data_row 8) "D8"
    /\ status r = indexed_text value_dicts (get_value data_row 9) "D9"
    /\ accepted r = true.
Proof.
  intros H9 H.
  destruct (detail_row_struct data_row value_dicts
              (initial_row timestamp row_date) H9 eq_refl eq_refl)
    as [(Hn & _)|(idx & r1 & r' & Hi & Hp & Hne & Ha & Hc & Hco & Hst & Hd)].
  - congruence.
  - rewrite Hd in H. destruct (accepted r') eqn:Hacc; [|discriminate H].
    injection H as <-. exists idx, r1.
    split; [exact Hi|]. split; [exact Hp|]. split; [exact Hne|].
    split; [exact Ha|]. split; [exact Hc|]. split; [exact Hco|].
    split; [exact Hst | exact Hacc].
Qed.

(** X7. Every numeric field of a returned record is the empty marker or a
    number that is not zero: a zero is never written. *)
Theorem record_numeric_fields (data_row : list pyval)
    (value_dicts : gmap string (list string)) (timestamp row_date : string)
    (r : CsvRow) :
  map_data_row_to_csv env data_row value_dicts timestamp row_date
  = Ok (Some r) ->
  numeric_field (oil_production r) /\ numeric_field (gas_production r)
  /\ numeric_field (oil_equivalents_boe r) /\ numeric_field (quantity r).
Proof.
  intros H. apply map_record_inv in H.
  destruct H as [H|[H|H]].
  - destruct H as (v0 & v1 & v2 & v3 & oil & gas & qty & boe
                   & _ & _ & G0 & G1 & G2 & G3 & ->).
    unfold summary_record. fields.
    split; [exact (numeric_field_result _ _ G0)|].
    split; [exact (numeric_field_result _ _ G1)|].
    split; [exact (numeric_field_result _ _ G3)|].
    exact (numeric_field_result _ _ G2).
  - destruct H as (v0 & v1 & v2 & v3 & d & oil & gas & boe
                   & _ & _ & _ & _ & G1 & G2 & G3 & ->).
    unfold stamped_record. fields.
    split; [exact (numeric_field_result _ _ G1)|].
    split; [exact (numeric_field_result _ _ G2)|].
    split; [exact (numeric_field_result _ _ G3)|].
    apply numeric_field_empty.
  - destruct H as (H9 & _ & H).
    destruct (detail_record_inv _ _ _ _ _ H9 H)
      as (idx & r1 & _ & _ & _ & Ha & Hcore & _ & _ & _).
    destruct (assign_production_fields (production_values data_row)
                (detail_texts value_dicts data_row
                   (initial_row timestamp row_date)))
      as (r1' & Ha' & _ & _ & _ & _ & _ & _ & _ & _ & _ & _ & _ & _
          & Ho & Hg & Hb & Hq).
    assert (r1' = r1) by congruence. subst r1'.
    destruct Hcore as (_ & _ & _ & Co & Cg & Cb & _ & _ & _ & _ & _ & _ & Cq).
    rewrite Co, Cg, Cb, Cq.
    pose proof (production_values_nonzero data_row) as Hnz.
    split; [exact (numeric_field_assigned _ _ Hnz Ho)|].
    split; [exact (numeric_field_assigned _ _ Hnz Hg)|].
    split; [exact (numeric_field_assigned _ _ Hnz Hb)|].
    destruct Hq as [Hq|(n & Hn & Hq)]; rewrite Hq.
    + apply numeric_field_empty.
    + right. split; [reflexivity|]. cbn.
      destruct (Z.eqb_spec n 0); [lia | reflexivity].
Qed.

(** X8. Every returned record carries the response timestamp. Its date
    is decided by the branch that built it: the date converted from the
    first element when the row is a timestamped summary row (length 4,
    first element above 1e12, not taken by the summary test), and the
    inferred date passed in for every other row. *)
Theorem record_timestamp_and_date (data_row : list pyval)
    (value_dicts : gmap string (list string)) (timestamp row_date : string)
    (r : CsvRow) :
  map_data_row_to_csv env data_row value_dicts timestamp row_date
  = Ok (Some r) ->
  scrape_datetime r = timestamp
  /\ if timestamped_row data_row
     then convert_timestamp_to_date env (get_value data_row 0)
          = Ok (date r)
     else date r = row_date.
Proof.
  intros H. apply map_record_inv in H.
  destruct H as [H|[H|H]].
  - destruct H as (v0 & v1 & v2 & v3 & oil & gas & qty & boe
                   & -> & Hs & _ & _ & _ & _ & ->).
    split; [reflexivity|].
    unfold timestamped_row. rewrite Hs, andb_false_r. reflexivity.
  - destruct H as (v0 & v1 & v2 & v3 & d & oil & gas & boe
                   & -> & Hs & He & Hd & _ & _ & _ & ->).
    split; [reflexivity|].
    unfold timestamped_row. rewrite Hs.
    cbn [List.length Nat.eqb andb get_value nth_error]. rewrite He.
    exact Hd.
  - destruct H as (H9 & _ & H).
    destruct (detail_record_inv _ _ _ _ _ H9 H)
      as (idx & r1 & _ & _ & _ & Ha & Hcore & _ & _ & _).
    destruct (assign_production_fields (production_values data_row)
                (detail_texts value_dicts data_row
                   (initial_row timestamp row_date)))
      as (r1' & Ha' & _ & Hts & Hdt & _).
    assert (r1' = r1) by congruence. subst r1'.
    destruct Hcore as (Cts & Cdt & _).
    split; [rewrite Cts, Hts; reflexivity|].
    unfold timestamped_row.
    destruct (Nat.eqb_spec (List.length data_row) 4) as [E|_]; [lia|].
    cbn [andb]. rewrite Cdt, Hdt. reflexivity.
Qed.

(** X9. The text fields of the record of a detail row: the seven
    dictionary lookups of elements 0 to 6 in D0 to D6, the code from
    element 8 in D8 and the status from element 9 in D9 when that element
    is an int in [0, 1000) and empty otherwise; elements 7 and 10 are
    read and ignored. *)
Theorem detail_record_texts (data_row : list pyval)
    (value_dicts : gmap string (list string)) (timestamp row_date : string)
    (r : CsvRow) :
  (9 <= List.length data_row)%nat ->
  map_data_row_to_csv env data_row value_dicts timestamp row_date
  = Ok (Some r) ->
  installation r = resolved value_dicts (get_value data_row 0) "D0"
  /\ operator r = resolved value_dicts (get_value data_row 1) "D1"
  /\ type r = resolved value_dicts (get_value data_row 2) "D2"
  /\ estado r = resolved value_dicts (get_value data_row 3) "D3"
  /\ city r = resolved value_dicts (get_value data_row 4) "D4"
  /\ atendimento_campo r
     = resolved value_dicts (get_value data_row 5) "D5"
  /\ campo r = resolved value_dicts (get_value data_row 6) "D6"
  /\ code r = indexed_text value_dicts (get_value data_row 8) "D8"
  /\ status r = indexed_text value_dicts (get_value data_row 9) "D9".
Proof.
  intros H9 H. apply map_record_inv in H.
  destruct H as [H|[H|H]].
  - destruct H as (v0 & v1 & v2 & v3 & ? & ? & ? & ? & -> & _).
    cbn in H9. lia.
  - destruct H as (v0 & v1 & v2 & v3 & ? & ? & ? & ? & -> & _).
    cbn in H9. lia.
  - destruct H as (_ & _ & H).
    destruct (detail_record_inv _ _ _ _ _ H9 H)
      as (idx & r1 & _ & _ & _ & Ha & Hcore & Hcode & Hstatus & _).
    destruct (assign_production_fields (production_values data_row)
                (detail_texts value_dicts data_row
                   (initial_row timestamp row_date)))
      as (r1' & Ha' & _ & _ & _ & Hi & Hop & Hty & Hes & Hci & Hat & Hca
          & _).
    assert (r1' = r1) by congruence. subst r1'.
    destruct Hcore
      as (_ & _ & Ci & _ & _ & _ & Cop & Cty & Ces & Cci & Cat & Cca & _).
    split; [rewrite Ci, Hi; reflexivity|].
    split; [rewrite Cop, Hop; reflexivity|].
    split; [rewrite Cty, Hty; reflexivity|].
    split; [rewrite Ces, Hes; reflexivity|].
    split; [rewrite Cci, Hci; reflexivity|].
    split; [rewrite Cat, Hat; reflexivity|].
    split; [rewrite Cca, Hca; reflexivity|].
    split; [exact Hcode | exact Hstatus].
Qed.

Lemma index_not_epoch (v : pyval) (idx : Z) :
  as_int v = Some idx ->
  (epoch_ms v = false <-> (idx <= 1000000000000)%Z).
Proof.
  destruct v; cbn; intros H; try discriminate; injection H as <-.
  - destruct b; cbn; split; intros; [lia|reflexivity|lia|reflexivity].
  - unfold epoch_ms, is_epoch_ms, py_and. cbn.
    destruct (Z.ltb_spec 1000000000000 n); split; intros; try lia;
      congruence.
Qed.

(** X10. A row vector of length at least 9 never makes the decoder raise.
    It gives a record exactly when its first element is an int (or a
    bool) from 0 to 1e12 whose installation name resolves to a non-empty
    text and at least three production values are collected; in every
    other case it is discarded. *)
Theorem detail_row_kept_iff (data_row : list pyval)
    (value_dicts : gmap string (list string)) (timestamp row_date : string) :
  (9 <= List.length data_row)%nat ->
  let kept :=
    exists idx,
      as_int (get_value data_row 0) = Some idx
      /\ (0 <= idx <= 1000000000000)%Z
      /\ resolved value_dicts (get_value data_row 0) "D0" <> ""
      /\ (3 <= List.length (production_values data_row))%nat in
  ((exists r,
       map_data_row_to_csv env data_row value_dicts timestamp row_date
       = Ok (Some r)) <-> kept)
  /\ (map_data_row_to_csv env data_row value_dicts timestamp row_date
      = Ok None <-> ~ kept).
Proof.
  intros H9 kept.
  assert (Hfwd : forall r,
             map_data_row_to_csv env data_row value_dicts timestamp row_date
             = Ok (Some r) -> kept).
  { intros r H. apply map_record_inv in H.
    destruct H as [H|[H|H]].
    - destruct H as (v0 & v1 & v2 & v3 & ? & ? & ? & ? & -> & _).
      cbn in H9. lia.
    - destruct H as (v0 & v1 & v2 & v3 & ? & ? & ? & ? & -> & _).
      cbn in H9. lia.
    - destruct H as (_ & He & H).
      destruct (detail_record_inv _ _ _ _ _ H9 H)
        as (idx & r1 & Hidx & Hpos & Hne & Ha & Hcore & _ & _ & Hacc).
      exists idx. split; [exact Hidx|].
      split; [split; [exact Hpos | apply (index_not_epoch _ _ Hidx), He]|].
      split; [exact Hne|].
      destruct (Nat.le_gt_cases 3 (List.length (production_values data_row)))
        as [Hl|Hl]; [exact Hl|exfalso].
      destruct (assign_production_fields (production_values data_row)
                  (detail_texts value_dicts data_row
                     (initial_row timestamp row_date)))
        as (r1' & Ha' & Hsame & _).
      assert (r1' = r1) by congruence. subst r1'.
      specialize (Hsame Hl). subst r1.
      destruct Hcore as (_ & _ & _ & Co & Cg & Cb & _).
      unfold accepted in Hacc. rewrite Co, Cg, Cb in Hacc.
      cbn in Hacc. rewrite andb_false_r in Hacc. discriminate Hacc. }
  assert (Hbwd : kept ->
             exists r,
               map_data_row_to_csv env data_row value_dicts timestamp
                 row_date = Ok (Some r)).
  { intros (idx & Hidx & [Hpos Hmax] & Hne & Hl).
    rewrite (map_long env _ _ _ _ H9).
    rewrite (proj2 (index_not_epoch _ _ Hidx) Hmax).
    destruct (detail_row_struct data_row value_dicts
                (initial_row timestamp row_date) H9 eq_refl eq_refl)
      as [(_ & [Hn|[(i & Hi & Hneg)|He]])
         |(i & r1 & r & _ & _ & _ & Ha & Hcore & _ & _ & Hd)].
    - congruence.
    - assert (i = idx) by congruence. lia.
    - contradiction.
    - rewrite Hd.
      destruct (assign_production_rule (production_values data_row)
                  (detail_texts value_dicts data_row
                     (initial_row timestamp row_date)) Hl
                  (production_values_nonzero data_row)
                  eq_refl eq_refl eq_refl eq_refl)
        as (r1' & Ha' & Hi1 & _ & Htruthy & _).
      assert (r1' = r1) by congruence. subst r1'.
      destruct Hcore as (_ & _ & Ci & Co & Cg & Cb & _).
      assert (Hacc : accepted r = true).
      { unfold accepted. rewrite Ci, Co, Cg, Cb, Hi1, Htruthy.
        rewrite andb_true_r. cbn.
        destruct (String.eqb_spec
                    (resolved value_dicts (get_value data_row 0) "D0") "");
          [contradiction | reflexivity]. }
      rewrite Hacc. eauto. }
  split; [split; [intros [r H]; exact (Hfwd r H) | exact Hbwd]|].
  split.
  - intros Hn Hk. destruct (Hbwd Hk) as [r Hr]. congruence.
  - intros Hn.
    rewrite (map_long env _ _ _ _ H9).
    destruct (epoch_ms (get_value data_row 0)) eqn:He; [reflexivity|].
    destruct (detail_row_returns data_row value_dicts timestamp
                row_date H9) as [[r|] Ho]; [|exact Ho].
    exfalso. apply Hn. apply (Hfwd r).
    rewrite (map_long env _ _ _ _ H9), He. exact Ho.
Qed.

End RecordFacts.

(** ** Properties of the writer and of the pipeline *)

Lemma clean_row_some (r : CsvRow) : clean_row (Some r) = Ok (row_cells r).
Proof. reflexivity. Qed.

Lemma clean_row_none : clean_row None = Raise AttributeError.
Proof. reflexivity. Qed.

Lemma write_rows_records (rs : list CsvRow) :
  forall f, write_rows (map Some rs) f = (f ++ map row_cells rs, Ok ()).
Proof.
  induction rs as [|r rs IH]; intros f.
  - cbn. rewrite app_nil_r. reflexivity.
  - cbn [map write_rows]. rewrite clean_row_some, IH, <- app_assoc.
    reflexivity.
Qed.

Lemma write_rows_stop (rs : list CsvRow) (rest : list (option CsvRow)) :
  forall f,
    write_rows (map Some rs ++ None :: rest) f
    = (f ++ map row_cells rs, Raise AttributeError).
Proof.
  induction rs as [|r rs IH]; intros f.
  - cbn [map app write_rows]. rewrite clean_row_none, app_nil_r.
    reflexivity.
  - cbn [map app write_rows]. rewrite clean_row_some, IH, <- app_assoc.
    reflexivity.
Qed.

Lemma row_cells_shape (r : CsvRow) :
  List.length (row_cells r) = 15%nat
  /\ Forall (fun c => c <> VNone) (row_cells r).
Proof.
  split; [reflexivity|].
  unfold row_cells, row_items. cbn [map snd].
  repeat (apply List.Forall_cons;
          [first [discriminate
                 | unfold clean_cell;
                   match goal with
                   | |- match ?v with _ => _ end <> _ =>
                       destruct v; discriminate
                   end]|]).
  apply List.Forall_nil.
Qed.

(** X11. Given records only, [write_csv_file] writes the header line and
    then one line per record, in order, and returns; every line has the 15
    columns of the header, and no cell is a null. *)
Theorem write_csv_file_records (rs : list CsvRow) :
  write_csv_file (map Some rs)
  = (map VStr fieldnames :: map row_cells rs, Ok ())
  /\ List.length (fst (write_csv_file (map Some rs))) = S (List.length rs)
  /\ Forall (fun line => List.length line = 15%nat
                         /\ Forall (fun c => c <> VNone) line)
       (fst (write_csv_file (map Some rs))).
Proof.
  assert (H : write_csv_file (map Some rs)
              = (map VStr fieldnames :: map row_cells rs, Ok ())).
  { unfold write_csv_file. rewrite write_rows_records. reflexivity. }
  split; [exact H|]. rewrite H. cbn [fst]. split.
  - cbn [List.length]. rewrite length_map. reflexivity.
  - apply List.Forall_cons.
    + split; [reflexivity|].
      unfold fieldnames. cbn [map].
      repeat (apply List.Forall_cons; [discriminate|]).
      apply List.Forall_nil.
    + apply List.Forall_forall. intros line Hin.
      apply in_map_iff in Hin as (r & <- & _). apply row_cells_shape.
Qed.

(** X12. When the list holds a [None], [write_csv_file] raises
    [AttributeError] at the first one: the file keeps the header and the
    lines of the records before it, and nothing after it is written. *)
Theorem write_csv_file_stops_at_none (rs : list CsvRow)
    (rest : list (option CsvRow)) :
  write_csv_file (map Some rs ++ None :: rest)
  = (map VStr fieldnames :: map row_cells rs, Raise AttributeError).
Proof.
  unfold write_csv_file. rewrite write_rows_stop. reflexivity.
Qed.

Lemma write_rows_none (l : list (option CsvRow)) :
  In None l ->
  forall f, exists more,
    write_rows l f = (f ++ more, Raise AttributeError).
Proof.
  induction l as [|[r|] l IH]; intros Hin f.
  - contradiction.
  - destruct Hin as [Hin|Hin]; [discriminate|].
    cbn [write_rows]. rewrite clean_row_some.
    destruct (IH Hin (f ++ [row_cells r])) as [more Hm].
    exists (row_cells r :: more). rewrite Hm, <- app_assoc. reflexivity.
  - exists []. cbn [write_rows]. rewrite clean_row_none, app_nil_r.
    reflexivity.
Qed.

Lemma collect_rows_from (ph_list : list Payload.page_block) :
  forall acc,
    fold_left
      (fun data_rows ph =>
         (data_rows ++ group_rows (Payload.DM0 ph))
           ++ group_rows (Payload.DM1 ph))
      ph_list acc
    = acc ++ flat_map
               (fun ph => group_rows (Payload.DM0 ph)
                            ++ group_rows (Payload.DM1 ph))
               ph_list.
Proof.
  induction ph_list as [|ph rest IH]; intros acc.
  - cbn. rewrite app_nil_r. reflexivity.
  - cbn [fold_left flat_map]. rewrite IH, <- !app_assoc. reflexivity.
Qed.

(** X13. The row vectors are gathered page block by page block, the DM0
    group of a block before its DM1 group and each group in its own order;
    entries without a C vector and missing groups contribute nothing. So
    the rows of two lists of page blocks put end to end are the rows of
    the first followed by the rows of the second. *)
Theorem collect_rows_order (phs1 phs2 : list Payload.page_block) :
  collect_rows (phs1 ++ phs2) = collect_rows phs1 ++ collect_rows phs2
  /\ collect_rows phs1
     = flat_map
         (fun ph => omap Payload.C (default [] (Payload.DM0 ph))
                      ++ omap Payload.C (default [] (Payload.DM1 ph)))
         phs1.
Proof.
  assert (Hflat : forall phs,
             collect_rows phs
             = flat_map
                 (fun ph => group_rows (Payload.DM0 ph)
                              ++ group_rows (Payload.DM1 ph)) phs).
  { intros phs. unfold collect_rows. rewrite collect_rows_from.
    reflexivity. }
  split.
  - rewrite !Hflat. apply flat_map_app.
  - rewrite Hflat. apply flat_map_ext. intros ph.
    unfold group_rows.
    destruct (Payload.DM0 ph); destruct (Payload.DM1 ph); reflexivity.
Qed.

Section Pipeline.

Variable env : float -> option string.

Lemma extract_inv (json_data : Payload.json_data)
    (data_rows : list (list pyval))
    (value_dicts : gmap string (list string)) (timestamp : string)
    (row_date_assignments : list string) :
  extract_data_from_json env json_data
  = Ok (data_rows, value_dicts, timestamp, row_date_assignments) ->
  assign_dates env data_rows = Ok row_date_assignments
  /\ List.length row_date_assignments = List.length data_rows.
Proof.
  unfold extract_data_from_json. intros H.
  destruct (default [] (Payload.results json_data)) as [|first ?];
    [discriminate|].
  destruct (ds_list_of (result_data_of first)) as [|ds0 ?]; [discriminate|].
  destruct (assign_dates_scan env
              (collect_rows (default [] (Payload.PH ds0))))
    as (dates & Ha & Hlen & _).
  rewrite Ha, bind_Ok in H. injection H as <- _ _ <-.
  split; assumption.
Qed.

(** X14. Extraction succeeds whenever the results list and the DS list of
    its first entry are non-empty, whatever else is missing: only the
    first result and the first DS block are read, a missing timestamp is
    the empty string, missing dictionaries are empty, missing page blocks
    give no rows, and a date is assigned to every row. *)
Theorem extract_succeeds (json_data : Payload.json_data)
    (first : Payload.result_entry) (rest : list Payload.result_entry)
    (ds0 : Payload.data_shape) (more : list Payload.data_shape) :
  Payload.results json_data = Some (first :: rest) ->
  ds_list_of (result_data_of first) = ds0 :: more ->
  exists row_date_assignments,
    extract_data_from_json env json_data
    = Ok (collect_rows (default [] (Payload.PH ds0)),
          default ∅ (Payload.ValueDicts ds0),
          default "" (Payload.timestamp (result_data_of first)),
          row_date_assignments)
    /\ List.length row_date_assignments
       = List.length (collect_rows (default [] (Payload.PH ds0))).
Proof.
  intros Hr Hd. unfold extract_data_from_json. rewrite Hr.
  change (default [] (Some (first :: rest))) with (first :: rest).
  cbv beta iota zeta. rewrite Hd.
  destruct (assign_dates_scan env
              (collect_rows (default [] (Payload.PH ds0))))
    as (dates & Ha & Hlen & _).
  exists dates. rewrite Ha, bind_Ok. split; [reflexivity | exact Hlen].
Qed.

Lemma decode_rows_keeps (data_rows : list (list pyval))
    (value_dicts : gmap string (list string)) (timestamp : string)
    (row_date_assignments : list string) (x : option CsvRow) :
  forall i csv_data,
    In x csv_data ->
    In x (decode_rows env i data_rows value_dicts timestamp
            row_date_assignments csv_data).
Proof.
  induction data_rows as [|row rest IH]; intros i csv_data Hin;
    [exact Hin|].
  cbn [decode_rows]. apply IH.
  destruct (_ ≫= _); [apply in_or_app; left|]; exact Hin.
Qed.

Lemma decode_rows_discards (data_rows : list (list pyval))
    (value_dicts : gmap string (list string)) (timestamp : string)
    (row_date_assignments : list string) (row : list pyval) :
  In row data_rows ->
  (forall d, map_data_row_to_csv env row value_dicts timestamp d = Ok None) ->
  forall i csv_data,
    (i + List.length data_rows <= List.length row_date_assignments)%nat ->
    In None (decode_rows env i data_rows value_dicts timestamp
               row_date_assignments csv_data).
Proof.
  intros Hin Hnone.
  induction data_rows as [|r rest IH]; intros i csv_data Hlen;
    [contradiction|].
  cbn [List.length] in Hlen. cbn [decode_rows].
  destruct Hin as [->|Hin].
  - destruct (list_getitem_in_range row_date_assignments (Z.of_nat i))
      as (d & _ & Hd); [lia|].
    rewrite Hd, bind_Ok, Hnone. apply decode_rows_keeps.
    apply in_or_app. right. left. reflexivity.
  - apply (IH Hin). lia.
Qed.

(** X15. If extraction succeeds and some row vector has a length that is
    neither 4 nor at least 9 (a one-element timestamp marker, for one),
    the run fails: the decoder's [None] for that row is passed to the
    writer, which raises after writing the header, and the exit status is
    1. *)
Theorem run_fails_on_discarded_row (json_data : Payload.json_data)
    (output : option file) (data_rows : list (list pyval))
    (value_dicts : gmap string (list string)) (timestamp : string)
    (row_date_assignments : list string) (row : list pyval) :
  extract_data_from_json env json_data
  = Ok (data_rows, value_dicts, timestamp, row_date_assignments) ->
  In row data_rows ->
  List.length row <> 4%nat -> (List.length row < 9)%nat ->
  exists more,
    process_json_to_csv env json_data output
    = (Some (map VStr fieldnames :: more), Raise AttributeError)
    /\ run env json_data output
       = (Some (map VStr fieldnames :: more), 1%Z).
Proof.
  intros He Hin H4 H9.
  destruct (extract_inv _ _ _ _ _ He) as (_ & Hlen).
  assert (Hnone : In None
                    (decode_rows env 0 data_rows value_dicts timestamp
                       row_date_assignments [])).
  { apply (decode_rows_discards _ _ _ _ row Hin); [|cbn; lia].
    intros d. apply map_short; assumption. }
  destruct (write_rows_none _ Hnone [map VStr fieldnames]) as [more Hw].
  exists more.
  assert (Hp : process_json_to_csv env json_data output
               = (Some (map VStr fieldnames :: more), Raise AttributeError)).
  { unfold process_json_to_csv. rewrite He. unfold write_csv_file.
    rewrite Hw. reflexivity. }
  split; [exact Hp|]. unfold run. rewrite Hp. reflexivity.
Qed.

Lemma list_getitem_middle {A} (pre : list A) (d : A) (post : list A) :
  list_getitem (pre ++ d :: post) (Z.of_nat (List.length pre)) = Ok d.
Proof.
  destruct (list_getitem_in_range (pre ++ d :: post)
              (Z.of_nat (List.length pre))) as (x & Hx & Hg).
  { rewrite length_app. cbn [List.length]. lia. }
  rewrite Nat2Z.id in Hx. rewrite nth_error_app2 in Hx by lia.
  rewrite Nat.sub_diag in Hx. cbn in Hx. congruence.
Qed.

Lemma decode_rows_records (data_rows : list (list pyval))
    (value_dicts : gmap string (list string)) (timestamp : string) :
  forall (dates : list string) (rs : list CsvRow)
         (pre : list string) (csv_data : list (option CsvRow)),
    Forall2
      (fun row_and_date r =>
         map_data_row_to_csv env (fst row_and_date) value_dicts timestamp
           (snd row_and_date) = Ok (Some r))
      (combine data_rows dates) rs ->
    List.length dates = List.length data_rows ->
    decode_rows env (List.length pre) data_rows value_dicts timestamp
      (pre ++ dates) csv_data
    = csv_data ++ map Some rs.
Proof.
  induction data_rows as [|row rest IH];
    intros dates rs pre csv_data Hall Hlen.
  - cbn [combine] in Hall. inversion Hall. subst.
    cbn. rewrite app_nil_r. reflexivity.
  - destruct dates as [|d dates]; [discriminate Hlen|].
    cbn [combine] in Hall. inversion Hall as [|? r ? rs' Hm Hrest]. subst.
    cbn [fst snd] in Hm. cbn [decode_rows].
    rewrite list_getitem_middle, bind_Ok, Hm.
    replace (pre ++ d :: dates) with ((pre ++ [d]) ++ dates)
      by (rewrite <- app_assoc; reflexivity).
    replace (S (List.length pre)) with (List.length (pre ++ [d]))
      by (rewrite length_app; cbn; lia).
    rewrite (IH dates rs' (pre ++ [d]) _ Hrest) by (cbn in Hlen; lia).
    rewrite <- app_assoc. reflexivity.
Qed.

(** X16. If extraction succeeds and the decoder returns a record for
    every row vector with its inferred date, the run writes the header
    and one line per row vector, in order, and ends with exit status
    0. *)
Theorem run_writes_all_records (json_data : Payload.json_data)
    (output : option file) (data_rows : list (list pyval))
    (value_dicts : gmap string (list string)) (timestamp : string)
    (row_date_assignments : list string) (rs : list CsvRow) :
  extract_data_from_json env json_data
  = Ok (data_rows, value_dicts, timestamp, row_date_assignments) ->
  Forall2
    (fun row_and_date r =>
       map_data_row_to_csv env (fst row_and_date) value_dicts timestamp
         (snd row_and_date) = Ok (Some r))
    (combine data_rows row_date_assignments) rs ->
  run env json_data output
  = (Some (map VStr fieldnames :: map row_cells rs), 0%Z)
  /\ List.length rs = List.length data_rows.
Proof.
  intros He Hall.
  destruct (extract_inv _ _ _ _ _ He) as (_ & Hlen).
  pose proof (decode_rows_records data_rows value_dicts timestamp
                row_date_assignments rs [] [] Hall Hlen) as Hd.
  cbn [List.length app] in Hd.
  split.
  - unfold run, process_json_to_csv. rewrite He, Hd.
    unfold write_csv_file. rewrite write_rows_records. reflexivity.
  - apply Forall2_length in Hall. rewrite <- Hall.
    rewrite length_combine. lia.
Qed.

End Pipeline.

Section EarlierDefinition.

Variable env : float -> option string.

Lemma decode_rows_from_acc (data_rows : list (list pyval))
    (value_dicts : gmap string (list string)) (timestamp : string)
    (row_date_assignments : list string) :
  forall i csv_data,
    decode_rows env i data_rows value_dicts timestamp row_date_assignments
      csv_data
    = csv_data
        ++ decode_rows env i data_rows value_dicts timestamp
             row_date_assignments [].
Proof.
  induction data_rows as [|row rest IH]; intros i csv_data.
  - cbn. rewrite app_nil_r. reflexivity.
  - cbn [decode_rows]. destruct (_ ≫= _) as [o|e].
    + rewrite (IH (S i) (csv_data ++ [o])), (IH (S i) ([] ++ [o])).
      rewrite <- !app_assoc. reflexivity.
    + apply IH.
Qed.

Lemma decode_rows_length (data_rows : list (list pyval))
    (value_dicts : gmap string (list string)) (timestamp : string)
    (row_date_assignments : list string) :
  forall i,
    (List.length (decode_rows env i data_rows value_dicts timestamp
                    row_date_assignments [])
     <= List.length data_rows)%nat.
Proof.
  induction data_rows as [|row rest IH]; intros i; [cbn; lia|].
  cbn [decode_rows List.length]. destruct (_ ≫= _) as [o|e].
  - rewrite decode_rows_from_acc, length_app. cbn [app List.length].
    specialize (IH (S i)). lia.
  - cbn [app]. specialize (IH (S i)). lia.
Qed.

Lemma decode_rows_filtered_live (data_rows : list (list pyval))
    (value_dicts : gmap string (list string)) (timestamp : string)
    (row_date_assignments : list string) :
  forall i records,
    (i + List.length data_rows <= List.length row_date_assignments)%nat ->
    match decode_rows_filtered env i data_rows value_dicts timestamp
            row_date_assignments records with
    | Ok rs =>
        rs = records
               ++ omap id (decode_rows env i data_rows value_dicts timestamp
                             row_date_assignments [])
        /\ List.length (decode_rows env i data_rows value_dicts timestamp
                          row_date_assignments [])
           = List.length data_rows
    | Raise _ =>
        (List.length (decode_rows env i data_rows value_dicts timestamp
                        row_date_assignments [])
         < List.length data_rows)%nat
    end.
Proof.
  induction data_rows as [|row rest IH]; intros i records Hlen.
  - cbn. rewrite app_nil_r. split; reflexivity.
  - cbn [List.length] in Hlen.
    destruct (list_getitem_in_range row_date_assignments (Z.of_nat i))
      as (d & Hnth & Hget); [lia|].
    rewrite Nat2Z.id in Hnth.
    cbn [decode_rows_filtered decode_rows List.length].
    rewrite Hnth, Hget, bind_Ok.
    destruct (map_data_row_to_csv env row value_dicts timestamp d)
      as [o|e].
    + rewrite bind_Ok. cbn [app].
      rewrite (decode_rows_from_acc rest value_dicts timestamp
                 row_date_assignments (S i) [o]).
      specialize (IH (S i) match o with
                           | Some r => records ++ [r]
                           | None => records
                           end ltac:(lia)).
      destruct (decode_rows_filtered env (S i) rest value_dicts timestamp
                  row_date_assignments _) as [rs|e].
      * destruct IH as [-> Hl]. rewrite length_app, Hl. split; [|reflexivity].
        rewrite omap_app. destruct o as [r|]; cbn [omap id app];
          rewrite <- ?app_assoc; reflexivity.
      * rewrite length_app. cbn [List.length]. lia.
    + rewrite bind_Raise.
      pose proof (decode_rows_length rest value_dicts timestamp
                    row_date_assignments (S i)). lia.
Qed.

(** X17. The earlier definition of [process_json_to_csv] and the one that
    replaces it decode the same rows: when there is a date for every row,
    the earlier loop returns exactly the records of the later loop's
    list, which then has one entry (a record or [None]) per row; and the
    earlier loop raises exactly when the later one drops a row. *)
Theorem earlier_loop_keeps_the_records (data_rows : list (list pyval))
    (value_dicts : gmap string (list string)) (timestamp : string)
    (row_date_assignments : list string) :
  (List.length data_rows <= List.length row_date_assignments)%nat ->
  let live :=
    decode_rows env 0 data_rows value_dicts timestamp
      row_date_assignments [] in
  let earlier :=
    decode_rows_filtered env 0 data_rows value_dicts timestamp
      row_date_assignments [] in
  (forall rs, earlier = Ok rs ->
              rs = omap id live
              /\ List.length live = List.length data_rows)
  /\ (forall e, earlier = Raise e ->
                (List.length live < List.length data_rows)%nat).
Proof.
  intros Hlen live earlier.
  pose proof (decode_rows_filtered_live data_rows value_dicts timestamp
                row_date_assignments 0 [] Hlen) as H.
  fold earlier live in H. split.
  - intros rs E. rewrite E in H. exact H.
  - intros e E. rewrite E in H. exact H.
Qed.

End EarlierDefinition.

(** ** The further properties at sample inputs, in the UTC environment *)

Lemma convert_date_format_round_trip_witness :
  convert_date_format false "01/05/2024" = Ok "2024-01-05".
Proof.
  apply (convert_date_format_round_trip false 2024 1 5).
  - reflexivity.
  - right. lia.
Defined.

Lemma get_numeric_raises_witness :
  get_numeric (VStr "Infinity") = Raise OverflowError.
Proof.
  apply (proj2 (get_numeric_raises (VStr "Infinity") OverflowError)).
  split; [reflexivity|].
  exists "Infinity", infinity, false.
  split; [reflexivity|].
  split; [vm_compute; reflexivity|].
  split; [vm_compute; reflexivity|].
  split; vm_compute; reflexivity.
Defined.

Lemma short_rows_discarded_witness :
  map_data_row_to_csv UTC.strftime_utc [VInt 1700000000000] Sample.dicts
    Runs.timestamp "" = Ok None.
Proof.
  apply short_rows_discarded.
  - simpl. lia.
  - simpl. lia.
Defined.

Lemma decoder_raises_on_four_only_witness :
  exists e,
    map_data_row_to_csv UTC.strftime_utc
      [VInt 500; VNone; VInt 5; VInt 3] Sample.dicts Runs.timestamp ""
    = Raise e
    /\ (e = TypeError \/ e = OverflowError).
Proof.
  exists TypeError.
  assert (E : map_data_row_to_csv UTC.strftime_utc
                [VInt 500; VNone; VInt 5; VInt 3] Sample.dicts
                Runs.timestamp "" = Raise TypeError)
    by (vm_compute; reflexivity).
  split; [exact E|].
  exact (proj2 (decoder_raises_on_four_only UTC.strftime_utc _ _ _ _ _ E)).
Defined.

Lemma record_numeric_fields_witness :
  numeric_field (oil_production Sample.detail_record)
  /\ numeric_field (gas_production Sample.detail_record)
  /\ numeric_field (oil_equivalents_boe Sample.detail_record)
  /\ numeric_field (quantity Sample.detail_record).
Proof.
  apply (record_numeric_fields UTC.strftime_utc Sample.detail Sample.dicts
           Runs.timestamp "").
  vm_compute. reflexivity.
Defined.

Lemma record_timestamp_and_date_witness :
  scrape_datetime Runs.stamped_row = Runs.timestamp
  /\ date Runs.stamped_row = "2023-11-14".
Proof.
  assert (Hr : map_data_row_to_csv UTC.strftime_utc Sample.stamped
                 Sample.dicts Runs.timestamp "2024-01-01"
               = Ok (Some Runs.stamped_row)) by (vm_compute; reflexivity).
  destruct (record_timestamp_and_date UTC.strftime_utc Sample.stamped
              Sample.dicts Runs.timestamp "2024-01-01" Runs.stamped_row Hr)
    as [Hts Hdate].
  split; [exact Hts|].
  assert (Et : timestamped_row Sample.stamped = true)
    by (vm_compute; reflexivity).
  rewrite Et in Hdate.
  assert (Ed : convert_timestamp_to_date UTC.strftime_utc
                 (get_value Sample.stamped 0) = Ok "2023-11-14")
    by (vm_compute; reflexivity).
  rewrite Ed in Hdate. congruence.
Defined.

Lemma detail_record_texts_witness :
  installation Sample.detail_record = "P-1"
  /\ type Sample.detail_record = Sample.gas_name
  /\ code Sample.detail_record = "".
Proof.
  destruct (detail_record_texts UTC.strftime_utc Sample.detail Sample.dicts
              Runs.timestamp "" Sample.detail_record)
    as (Hi & _ & Ht & _ & _ & _ & _ & Hc & _).
  - simpl. lia.
  - vm_compute. reflexivity.
  - rewrite Hi, Ht, Hc.
    split; [vm_compute; reflexivity|]. split; vm_compute; reflexivity.
Defined.

Lemma detail_row_kept_iff_witness :
  exists r,
    map_data_row_to_csv UTC.strftime_utc Sample.detail Sample.dicts
      Runs.timestamp "" = Ok (Some r).
Proof.
  assert (H9 : (9 <= List.length Sample.detail)%nat) by (simpl; lia).
  apply (proj2 (proj1 (detail_row_kept_iff UTC.strftime_utc Sample.detail
                         Sample.dicts Runs.timestamp "" H9))).
  exists 0%Z.
  split; [reflexivity|]. split; [lia|].
  split; [vm_compute; discriminate|].
  vm_compute. lia.
Defined.

Lemma extract_succeeds_witness :
  exists row_date_assignments,
    extract_data_from_json UTC.strftime_utc (Sample.payload_of Runs.marked)
    = Ok (Runs.marked, Sample.dicts, Runs.timestamp, row_date_assignments)
    /\ List.length row_date_assignments = 3%nat.
Proof.
  edestruct (extract_succeeds UTC.strftime_utc
               (Sample.payload_of Runs.marked))
    as (dates & He & Hl); [reflexivity | reflexivity |].
  exists dates. split; [exact He | exact Hl].
Defined.

Lemma run_fails_on_discarded_row_witness :
  exists more,
    run UTC.strftime_utc (Sample.payload_of Runs.marked) None
    = (Some (map VStr fieldnames :: more), 1%Z).
Proof.
  destruct (run_fails_on_discarded_row UTC.strftime_utc
              (Sample.payload_of Runs.marked) None Runs.marked Sample.dicts
              Runs.timestamp ["2023-11-14"; "2023-11-14"; "2023-11-14"]
              [VInt 1700000000000])
    as (more & _ & Hr).
  - vm_compute. reflexivity.
  - left. reflexivity.
  - simpl. lia.
  - simpl. lia.
  - exists more. exact Hr.
Defined.

Lemma run_writes_all_records_witness :
  run UTC.strftime_utc (Sample.payload_of Runs.unmarked) None
  = (Some (map VStr fieldnames :: map row_cells Runs.records), 0%Z).
Proof.
  apply (run_writes_all_records UTC.strftime_utc
           (Sample.payload_of Runs.unmarked) None Runs.unmarked Sample.dicts
           Runs.timestamp [""; ""] Runs.records).
  - vm_compute. reflexivity.
  - constructor; [vm_compute; reflexivity|].
    constructor; [vm_compute; reflexivity|]. constructor.
Defined.

Lemma earlier_loop_keeps_the_records_witness :
  decode_rows_filtered UTC.strftime_utc 0 Runs.marked Sample.dicts
    Runs.timestamp ["2023-11-14"; "2023-11-14"; "2023-11-14"] []
  = Ok (omap id
          (decode_rows UTC.strftime_utc 0 Runs.marked Sample.dicts
             Runs.timestamp ["2023-11-14"; "2023-11-14"; "2023-11-14"] [])).
Proof.
  assert (Hlen : (List.length Runs.marked
                  <= List.length
                       ["2023-11-14"; "2023-11-14"; "2023-11-14"])%nat)
    by (simpl; lia).
  pose proof (earlier_loop_keeps_the_records UTC.strftime_utc Runs.marked
                Sample.dicts Runs.timestamp
                ["2023-11-14"; "2023-11-14"; "2023-11-14"] Hlen) as H.
  cbv zeta in H. destruct H as [Hok _].
  destruct (decode_rows_filtered UTC.strftime_utc 0 Runs.marked Sample.dicts
              Runs.timestamp ["2023-11-14"; "2023-11-14"; "2023-11-14"] [])
    as [rs|e] eqn:E.
  - destruct (Hok rs eq_refl) as [-> _]. reflexivity.
  - vm_compute in E. discriminate E.
Defined.
